(** * wf-recorder: the frame writer (src/frame-writer.cpp)

    A shallow embedding of [FrameWriter]: pixel-format negotiation, codec
    option loading, the constructor with its fatal exits, [add_frame],
    [finish_frame] and the destructor with its drain loop.

    FFmpeg is an external engine.  Every call into it whose result the
    program branches on is a field of [Engine]; the calls that only have
    an effect are recorded in the writer's [log].  Console output
    ([std::cout], [printf] and the [iframe] counter it prints, the log
    level set by [av_log_set_level], [av_dump_format]) is left out. *)

From Stdlib Require Import ZArith List String Ascii Bool Lia.
Import ListNotations.
Open Scope string_scope.
Open Scope list_scope.
Open Scope Z_scope.

Set Implicit Arguments.

(** ** Pixel formats *)

(** [enum AVPixelFormat] of libavutil, restricted to the constants the file
    names; every other format of the enumeration is [AV_PIX_FMT_OTHER n]. *)
Inductive AVPixelFormat : Type :=
| AV_PIX_FMT_NONE
| AV_PIX_FMT_YUV420P
| AV_PIX_FMT_NV12
| AV_PIX_FMT_VAAPI
| AV_PIX_FMT_RGB0
| AV_PIX_FMT_BGR0
| AV_PIX_FMT_OTHER (n : nat).

Definition pix_fmt_eq_dec (a b : AVPixelFormat) : {a = b} + {a <> b}.
Proof. decide equality. apply Nat.eq_dec. Defined.

Definition pix_fmt_eqb (a b : AVPixelFormat) : bool :=
  if pix_fmt_eq_dec a b then true else false.

(** Modelled from the spec: [enum InputFormat] is declared in
    frame-writer.hpp, which is not part of src/.  The spec gives the
    native input layout as one of BGR0 and RGB0; the names are those
    [get_input_format] uses. *)
Inductive InputFormat : Type := INPUT_FORMAT_BGR0 | INPUT_FORMAT_RGB0.

(** A [const AVPixelFormat *] is the list of the cells that can be read
    from it; reading past them has no defined result ([None]).  A
    well-formed capability array holds the [AV_PIX_FMT_NONE] sentinel. *)
Definition PixFmtArray := list AVPixelFormat.

Fixpoint is_fmt_supported (fmt : AVPixelFormat) (supported : PixFmtArray)
  : option bool :=
  match supported with
  | [] => None
  | s :: rest =>
      if pix_fmt_eqb s AV_PIX_FMT_NONE then Some false
      else if pix_fmt_eqb s fmt then Some true
      else is_fmt_supported fmt rest
  end.

(** The formats an array advertises: its cells before the sentinel. *)
Fixpoint supported_formats (a : PixFmtArray) : list AVPixelFormat :=
  match a with
  | [] => []
  | s :: rest =>
      if pix_fmt_eqb s AV_PIX_FMT_NONE then [] else s :: supported_formats rest
  end.

Definition terminated (a : PixFmtArray) : Prop := In AV_PIX_FMT_NONE a.

Definition get_input_format (format : InputFormat) : AVPixelFormat :=
  match format with
  | INPUT_FORMAT_BGR0 => AV_PIX_FMT_BGR0
  | INPUT_FORMAT_RGB0 => AV_PIX_FMT_RGB0
  end.

Record AVCodec : Type := mkAVCodec {
  codec_name : string;
  pix_fmts : PixFmtArray
}.

Definition choose_sw_format (format : InputFormat) (codec : AVCodec)
  : option AVPixelFormat :=
  let in_fmt := get_input_format format in
  match is_fmt_supported in_fmt (pix_fmts codec) with
  | None => None
  | Some true => Some in_fmt
  | Some false =>
      match is_fmt_supported AV_PIX_FMT_YUV420P (pix_fmts codec) with
      | None => None
      | Some true => Some AV_PIX_FMT_YUV420P
      | Some false => nth_error (pix_fmts codec) 0
      end
  end.

(** ** Strings and [std::map<std::string, std::string>] *)

(** [s.find(needle) != std::string::npos]. *)
Definition str_contains (s needle : string) : bool :=
  match String.index 0 needle s with
  | Some _ => true
  | None => false
  end.

(** A [std::map] is the list of its entries in increasing key order, the
    order in which a range-for visits them. *)
Definition StdMap := list (string * string).

Fixpoint map_count (k : string) (m : StdMap) : nat :=
  match m with
  | [] => 0%nat
  | (k', _) :: rest =>
      match String.compare k k' with
      | Eq => 1%nat
      | _ => map_count k rest
      end
  end.

Fixpoint map_find (k : string) (m : StdMap) : option string :=
  match m with
  | [] => None
  | (k', v') :: rest =>
      match String.compare k k' with
      | Eq => Some v'
      | _ => map_find k rest
      end
  end.

(** [m[k] = v]. *)
Fixpoint map_assign (k v : string) (m : StdMap) : StdMap :=
  match m with
  | [] => [(k, v)]
  | (k', v') :: rest =>
      match String.compare k k' with
      | Lt => (k, v) :: (k', v') :: rest
      | Eq => (k, v) :: rest
      | Gt => (k', v') :: map_assign k v rest
      end
  end.

(** Construction from an initializer list: a key already present is kept. *)
Definition map_of_list (l : list (string * string)) : StdMap :=
  fold_left
    (fun m kv => if (map_count (fst kv) m =? 0)%nat
                 then map_assign (fst kv) (snd kv) m else m)
    l [].

Definition default_x264_options : StdMap :=
  Eval cbv in
    map_of_list [("tune", "zerolatency"); ("preset", "ultrafast"); ("crf", "20")].

(** The first loop of [load_codec_options]: the defaults the caller did
    not give are added to [params.codec_options]. *)
Definition seed_defaults (defaults codec_options : StdMap) : StdMap :=
  fold_left
    (fun opts param =>
       if (map_count (fst param) opts =? 0)%nat
       then map_assign (fst param) (snd param) opts
       else opts)
    defaults codec_options.

Definition is_x264_family (codec : string) : bool :=
  str_contains codec "libx264" || str_contains codec "libx265".

Definition merged_codec_options (codec : string) (codec_options : StdMap)
  : StdMap :=
  if is_x264_family codec
  then seed_defaults default_x264_options codec_options
  else codec_options.

(** ** Integers and timestamps *)

(** A C [int]: the 32-bit two's-complement value of an integer. *)
Definition wrap_int (z : Z) : Z := (z + 2 ^ 31) mod 2 ^ 32 - 2 ^ 31.

Definition INT_MAX : Z := 2 ^ 31 - 1.

Definition FPS : Z := 60.

Record AVRational : Type := mkRational { num : Z; den : Z }.

Definition AV_NOPTS_VALUE : Z := - 2 ^ 63.

(** Modelled from the spec: [av_rescale_q] is FFmpeg's and not part of
    src/.  The spec gives the conversion as the ratio of the two time
    bases (milliseconds to ticks by 60/1000); the quotient is rounded to
    the nearest integer, halves away from zero, as libavutil documents. *)
Definition av_rescale_q (a : Z) (bq cq : AVRational) : Z :=
  let b := num bq * den cq in
  let c := num cq * den bq in
  if a <? 0 then - ((- a * b + c / 2) / c) else (a * b + c / 2) / c.

Record AVPacket : Type := mkPacket {
  pkt_pts : Z;
  pkt_dts : Z;
  pkt_duration : Z;
  pkt_stream_index : Z;
  pkt_data : list Byte.byte
}.

(** Modelled from the spec: [av_packet_rescale_ts] is FFmpeg's and not part
    of src/; it rescales the timestamps a packet carries from one time
    base to the other and leaves an unset timestamp unset. *)
Definition av_packet_rescale_ts (p : AVPacket) (tb_src tb_dst : AVRational)
  : AVPacket :=
  {| pkt_pts := if pkt_pts p =? AV_NOPTS_VALUE then pkt_pts p
                else av_rescale_q (pkt_pts p) tb_src tb_dst;
     pkt_dts := if pkt_dts p =? AV_NOPTS_VALUE then pkt_dts p
                else av_rescale_q (pkt_dts p) tb_src tb_dst;
     pkt_duration := if 0 <? pkt_duration p
                     then av_rescale_q (pkt_duration p) tb_src tb_dst
                     else pkt_duration p;
     pkt_stream_index := pkt_stream_index p;
     pkt_data := pkt_data p |}.

(** [av_init_packet(&pkt); pkt.data = NULL; pkt.size = 0;] *)
Definition blank_packet : AVPacket :=
  {| pkt_pts := AV_NOPTS_VALUE; pkt_dts := AV_NOPTS_VALUE; pkt_duration := 0;
     pkt_stream_index := 0; pkt_data := [] |}.

Definition set_stream_index (i : Z) (p : AVPacket) : AVPacket :=
  {| pkt_pts := pkt_pts p; pkt_dts := pkt_dts p;
     pkt_duration := pkt_duration p; pkt_stream_index := i;
     pkt_data := pkt_data p |}.

(** ** The structures of the engine the writer reads and writes *)

Record AVHWFramesContext : Type := mkHWFrames {
  hwf_width : Z;
  hwf_height : Z;
  hwf_format : AVPixelFormat;
  hwf_sw_format : AVPixelFormat
}.

Record AVFrame : Type := mkFrame {
  frame_format : AVPixelFormat;
  frame_width : Z;
  frame_height : Z;
  frame_data0 : Z;                       (* data[0], an address *)
  frame_linesize0 : Z;                   (* linesize[0] *)
  frame_pts : Z;
  frame_hw_frames_ctx : option AVHWFramesContext
}.

(** The frame [av_frame_alloc] returns when it does not return null: every
    field has its default.  Whether a call returns null is the engine's
    (see [av_frame_alloc_null] below). *)
Definition av_frame_alloc : AVFrame :=
  {| frame_format := AV_PIX_FMT_NONE; frame_width := 0; frame_height := 0;
     frame_data0 := 0; frame_linesize0 := 0; frame_pts := AV_NOPTS_VALUE;
     frame_hw_frames_ctx := None |}.

Definition frame_set_geometry (fmt : AVPixelFormat) (w h : Z) (f : AVFrame)
  : AVFrame :=
  {| frame_format := fmt; frame_width := w; frame_height := h;
     frame_data0 := frame_data0 f; frame_linesize0 := frame_linesize0 f;
     frame_pts := frame_pts f; frame_hw_frames_ctx := frame_hw_frames_ctx f |}.

Definition frame_set_hw_frames_ctx (c : option AVHWFramesContext) (f : AVFrame)
  : AVFrame :=
  {| frame_format := frame_format f; frame_width := frame_width f;
     frame_height := frame_height f; frame_data0 := frame_data0 f;
     frame_linesize0 := frame_linesize0 f; frame_pts := frame_pts f;
     frame_hw_frames_ctx := c |}.

Definition frame_set_plane0 (data linesize : Z) (f : AVFrame) : AVFrame :=
  {| frame_format := frame_format f; frame_width := frame_width f;
     frame_height := frame_height f; frame_data0 := data;
     frame_linesize0 := linesize; frame_pts := frame_pts f;
     frame_hw_frames_ctx := frame_hw_frames_ctx f |}.

Definition frame_set_pts (pts : Z) (f : AVFrame) : AVFrame :=
  {| frame_format := frame_format f; frame_width := frame_width f;
     frame_height := frame_height f; frame_data0 := frame_data0 f;
     frame_linesize0 := frame_linesize0 f; frame_pts := pts;
     frame_hw_frames_ctx := frame_hw_frames_ctx f |}.

Record AVOutputFormat : Type := mkOutputFormat { of_flags : Z }.

(** Flag values of libavformat and libavcodec. *)
Definition AVFMT_NOFILE : Z := 1.
Definition AVFMT_GLOBALHEADER : Z := 64.
Definition AV_CODEC_FLAG_GLOBAL_HEADER : Z := Z.shiftl 1 22.

Record AVFormatContext : Type := mkFormatContext {
  oformat : AVOutputFormat;
  pb : bool                              (* the output handle is open *)
}.

Record AVCodecContext : Type := mkCodecContext {
  cc_width : Z;
  cc_height : Z;
  cc_time_base : AVRational;
  cc_pix_fmt : AVPixelFormat;
  cc_hw_frames_ctx : option AVHWFramesContext;
  cc_flags : Z
}.

Record AVStream : Type := mkStream {
  st_index : Z;
  st_time_base : AVRational;
  st_codec : AVCodecContext              (* stream->codec *)
}.

Record SwsContext : Type := mkSws {
  sws_srcW : Z; sws_srcH : Z; sws_srcFormat : AVPixelFormat;
  sws_dstW : Z; sws_dstH : Z; sws_dstFormat : AVPixelFormat
}.

(** Modelled from the spec: [struct FrameWriterParams] is declared in
    frame-writer.hpp, which is not part of src/.  The fields are those of
    the spec's configuration table, under the names the source reads them
    by. *)
Record FrameWriterParams : Type := mkParams {
  file : string;
  width : Z;
  height : Z;
  format : InputFormat;
  codec : string;
  hw_device : string;
  codec_options : StdMap;
  enable_ffmpeg_debug_output : bool
}.

Definition set_codec_options (o : StdMap) (p : FrameWriterParams)
  : FrameWriterParams :=
  {| file := file p; width := width p; height := height p;
     format := format p; codec := codec p; hw_device := hw_device p;
     codec_options := o;
     enable_ffmpeg_debug_output := enable_ffmpeg_debug_output p |}.

(** ** What the writer does to the engine *)

(** The resources the writer obtains and has to give back itself, each
    with the call that obtains it and the call that gives it back.  What
    a resource owns and takes with it is not listed apart (the stream
    with the container context, the buffers with their frame), nor are
    the option dictionaries, which [init_codec] frees before it
    returns. *)
Inductive Resource : Type :=
| RFormatContext       (* avformat_alloc_output_context2 / avformat_free_context *)
| RHwDevice            (* av_hwdevice_ctx_create / av_buffer_unref *)
| RHwFramePool         (* av_hwframe_ctx_alloc / av_buffer_unref *)
| RScaler              (* sws_getContext / sws_freeContext *)
| RCodec               (* avcodec_open2 / avcodec_close *)
| RIO                  (* avio_open / avio_closep *)
| REncoderFrame        (* av_frame_alloc / av_frame_free *)
| RHwFrame             (* av_frame_alloc of hw_frame *)
| RHwConstraints       (* av_hwdevice_get_hwframe_constraints /
                          av_hwframe_constraints_free *)
| RHwFramesRef.        (* av_buffer_ref(hw_frame_context) / av_buffer_unref *)

Definition resource_eq_dec (a b : Resource) : {a = b} + {a <> b}.
Proof. decide equality. Defined.

Inductive Event : Type :=
| EvAcquire (r : Resource)
| EvRelease (r : Resource)
| EvWriteHeader                                  (* avformat_write_header *)
| EvTransfer (src : AVFrame) (ret : Z)           (* av_hwframe_transfer_data *)
| EvSwsScale (src stride sliceY sliceH : Z)      (* sws_scale *)
| EvEncode (frame : option AVFrame) (out : option AVPacket)
                                                 (* avcodec_encode_video2 *)
| EvWritePacket (p : AVPacket)                   (* av_interleaved_write_frame *)
| EvWriteTrailer.                                (* av_write_trailer *)

Definition cc_set_size (w h : Z) (c : AVCodecContext) : AVCodecContext :=
  {| cc_width := w; cc_height := h; cc_time_base := cc_time_base c;
     cc_pix_fmt := cc_pix_fmt c; cc_hw_frames_ctx := cc_hw_frames_ctx c;
     cc_flags := cc_flags c |}.

Definition cc_set_time_base (tb : AVRational) (c : AVCodecContext)
  : AVCodecContext :=
  {| cc_width := cc_width c; cc_height := cc_height c; cc_time_base := tb;
     cc_pix_fmt := cc_pix_fmt c; cc_hw_frames_ctx := cc_hw_frames_ctx c;
     cc_flags := cc_flags c |}.

Definition cc_set_pix_fmt (f : AVPixelFormat) (c : AVCodecContext)
  : AVCodecContext :=
  {| cc_width := cc_width c; cc_height := cc_height c;
     cc_time_base := cc_time_base c; cc_pix_fmt := f;
     cc_hw_frames_ctx := cc_hw_frames_ctx c; cc_flags := cc_flags c |}.

Definition cc_set_hw_frames_ctx (h : option AVHWFramesContext)
  (c : AVCodecContext) : AVCodecContext :=
  {| cc_width := cc_width c; cc_height := cc_height c;
     cc_time_base := cc_time_base c; cc_pix_fmt := cc_pix_fmt c;
     cc_hw_frames_ctx := h; cc_flags := cc_flags c |}.

Definition cc_set_flags (fl : Z) (c : AVCodecContext) : AVCodecContext :=
  {| cc_width := cc_width c; cc_height := cc_height c;
     cc_time_base := cc_time_base c; cc_pix_fmt := cc_pix_fmt c;
     cc_hw_frames_ctx := cc_hw_frames_ctx c; cc_flags := fl |}.

Definition st_set_codec (c : AVCodecContext) (s : AVStream) : AVStream :=
  {| st_index := st_index s; st_time_base := st_time_base s; st_codec := c |}.

Definition st_set_time_base (tb : AVRational) (s : AVStream) : AVStream :=
  {| st_index := st_index s; st_time_base := tb; st_codec := st_codec s |}.

Definition set_pb (b : bool) (c : AVFormatContext) : AVFormatContext :=
  {| oformat := oformat c; pb := b |}.

(** ** The writer and the engine *)

Section Writer.

(** The state of an opened encoder, the state of a hardware device and
    [AVDictionary] belong to the engine. *)
Variables EncState DevState AVDictionary : Type.

(** The calls into FFmpeg whose result the writer uses.  A call that
    returns a pointer gives [None] for null, a call that returns an [int]
    gives that integer, and a call that also fills a structure gives the
    structure beside it.  [avcodec_encode_video2] gives the packet it
    filled when it sets [got_output].  [avformat_write_header] is handed
    the container context, which owns the stream: it is given the stream
    as the writer configured it and gives back the time base the muxer
    leaves in [stream->time_base].  [av_frame_alloc_null n] tells whether
    the writer's call number [n] of [av_frame_alloc] returns null, and
    [av_get_pix_fmt_name] gives [None] for the formats without a name. *)
Record Engine : Type := mkEngine {
  av_guess_format : string -> option AVOutputFormat;
  avformat_alloc_output_context2 : string -> Z * AVFormatContext;
  avcodec_find_encoder_by_name : string -> option AVCodec;
  avformat_new_stream : AVFormatContext -> AVCodec -> option AVStream;
  av_hwdevice_ctx_create : string -> string -> Z * DevState;
  av_hwframe_ctx_alloc : DevState -> option AVHWFramesContext;
  av_hwdevice_get_hwframe_constraints : DevState -> option PixFmtArray;
  av_hwframe_ctx_init : AVHWFramesContext -> Z;
  sws_getContext : Z -> Z -> AVPixelFormat -> Z -> Z -> AVPixelFormat
                   -> option SwsContext;
  dict_null : AVDictionary;
  av_dict_set : AVDictionary -> string -> string -> Z -> AVDictionary;
  avcodec_open2 : AVCodecContext -> AVCodec -> AVDictionary -> Z * EncState;
  avio_open : string -> Z;
  avformat_write_header : AVFormatContext -> AVStream -> Z * AVRational;
  av_get_pix_fmt_name : AVPixelFormat -> option string;
  av_frame_alloc_null : nat -> bool;
  av_frame_get_buffer : AVFrame -> Z * AVFrame;
  av_hwframe_get_buffer : AVHWFramesContext -> AVFrame -> Z * AVFrame;
  av_hwframe_transfer_data : DevState -> AVFrame -> AVFrame -> DevState * Z;
  avcodec_encode_video2 : EncState -> option AVFrame
                          -> EncState * option AVPacket
}.

(** Modelled from the spec: [class FrameWriter] is declared in
    frame-writer.hpp, which is not part of src/; its members are those the
    member functions of src/frame-writer.cpp read and write.  A pointer
    member is [None] while it is null.  [hw_device_context] holds the
    state of the device it refers to, and [encoder] the state of the
    codec opened on [stream->codec]; [codecCtx] is an alias of
    [stream->codec]; [log] records the calls made into the engine. *)
Record FrameWriter : Type := mkWriter {
  params : FrameWriterParams;
  outputFmt : option AVOutputFormat;
  fmtCtx : option AVFormatContext;
  stream : option AVStream;
  swsCtx : option SwsContext;
  hw_device_context : option DevState;
  hw_frame_context : option AVHWFramesContext;
  encoder_frame : option AVFrame;
  hw_frame : option AVFrame;
  pkt : AVPacket;
  encoder : option EncState;
  log : list Event
}.

Definition set_params v (w : FrameWriter) : FrameWriter :=
  mkWriter v (outputFmt w) (fmtCtx w) (stream w) (swsCtx w)
    (hw_device_context w) (hw_frame_context w) (encoder_frame w) (hw_frame w)
    (pkt w) (encoder w) (log w).
Definition set_outputFmt v (w : FrameWriter) : FrameWriter :=
  mkWriter (params w) v (fmtCtx w) (stream w) (swsCtx w)
    (hw_device_context w) (hw_frame_context w) (encoder_frame w) (hw_frame w)
    (pkt w) (encoder w) (log w).
Definition set_fmtCtx v (w : FrameWriter) : FrameWriter :=
  mkWriter (params w) (outputFmt w) v (stream w) (swsCtx w)
    (hw_device_context w) (hw_frame_context w) (encoder_frame w) (hw_frame w)
    (pkt w) (encoder w) (log w).
Definition set_stream v (w : FrameWriter) : FrameWriter :=
  mkWriter (params w) (outputFmt w) (fmtCtx w) v (swsCtx w)
    (hw_device_context w) (hw_frame_context w) (encoder_frame w) (hw_frame w)
    (pkt w) (encoder w) (log w).
Definition set_swsCtx v (w : FrameWriter) : FrameWriter :=
  mkWriter (params w) (outputFmt w) (fmtCtx w) (stream w) v
    (hw_device_context w) (hw_frame_context w) (encoder_frame w) (hw_frame w)
    (pkt w) (encoder w) (log w).
Definition set_hw_device_context v (w : FrameWriter) : FrameWriter :=
  mkWriter (params w) (outputFmt w) (fmtCtx w) (stream w) (swsCtx w)
    v (hw_frame_context w) (encoder_frame w) (hw_frame w)
    (pkt w) (encoder w) (log w).
Definition set_hw_frame_context v (w : FrameWriter) : FrameWriter :=
  mkWriter (params w) (outputFmt w) (fmtCtx w) (stream w) (swsCtx w)
    (hw_device_context w) v (encoder_frame w) (hw_frame w)
    (pkt w) (encoder w) (log w).
Definition set_encoder_frame v (w : FrameWriter) : FrameWriter :=
  mkWriter (params w) (outputFmt w) (fmtCtx w) (stream w) (swsCtx w)
    (hw_device_context w) (hw_frame_context w) v (hw_frame w)
    (pkt w) (encoder w) (log w).
Definition set_hw_frame v (w : FrameWriter) : FrameWriter :=
  mkWriter (params w) (outputFmt w) (fmtCtx w) (stream w) (swsCtx w)
    (hw_device_context w) (hw_frame_context w) (encoder_frame w) v
    (pkt w) (encoder w) (log w).
Definition set_pkt v (w : FrameWriter) : FrameWriter :=
  mkWriter (params w) (outputFmt w) (fmtCtx w) (stream w) (swsCtx w)
    (hw_device_context w) (hw_frame_context w) (encoder_frame w) (hw_frame w)
    v (encoder w) (log w).
Definition set_encoder v (w : FrameWriter) : FrameWriter :=
  mkWriter (params w) (outputFmt w) (fmtCtx w) (stream w) (swsCtx w)
    (hw_device_context w) (hw_frame_context w) (encoder_frame w) (hw_frame w)
    (pkt w) v (log w).
Definition log_event (e : Event) (w : FrameWriter) : FrameWriter :=
  mkWriter (params w) (outputFmt w) (fmtCtx w) (stream w) (swsCtx w)
    (hw_device_context w) (hw_frame_context w) (encoder_frame w) (hw_frame w)
    (pkt w) (encoder w) (log w ++ [e]).

(** Modelled from the spec: the member initialisers are in
    frame-writer.hpp, which is not part of src/.  Before the constructor
    body runs the pointer members are null, as the tests
    [if (hw_device_context)] of the constructor need. *)
Definition FrameWriter_blank (p : FrameWriterParams) : FrameWriter :=
  mkWriter p None None None None None None None None blank_packet None [].

(** How a member function ends: it returns, the process leaves through
    [std::exit] (with the writer as it then is), it reads through a null
    or past an array, or the model's fuel is used up. *)
Inductive Outcome (A : Type) : Type :=
| Ok (a : A)
| Exit (status : Z) (message : string) (final : FrameWriter)
| Undefined
| OutOfFuel.
Arguments Exit {A}.
Arguments Undefined {A}.
Arguments OutOfFuel {A}.

Definition bind {A B : Type} (m : Outcome A) (k : A -> Outcome B) : Outcome B :=
  match m with
  | Ok a => k a
  | Exit s msg w => Exit s msg w
  | Undefined => Undefined
  | OutOfFuel => OutOfFuel
  end.

Notation "x <- m ;; k" := (bind m (fun x => k))
  (at level 61, m at next level, right associativity).

Definition deref {A : Type} (p : option A) : Outcome A :=
  match p with
  | Some a => Ok a
  | None => Undefined
  end.

Definition codecCtx (w : FrameWriter) : option AVCodecContext :=
  option_map st_codec (stream w).

Definition update_stream (f : AVStream -> AVStream) (w : FrameWriter)
  : Outcome FrameWriter :=
  st <- deref (stream w) ;;
  Ok (set_stream (Some (f st)) w).

Definition update_codecCtx (f : AVCodecContext -> AVCodecContext)
  (w : FrameWriter) : Outcome FrameWriter :=
  update_stream (fun st => st_set_codec (f (st_codec st)) st) w.

Variable E : Engine.

Definition init_hw_accel (w : FrameWriter) : Outcome FrameWriter :=
  let '(ret, dev) :=
    av_hwdevice_ctx_create E "vaapi" (hw_device (params w)) in
  if negb (ret =? 0)
  then Exit (-1) "Failed to create hw encoding device" w
  else
    let w := log_event (EvAcquire RHwDevice)
               (set_hw_device_context (Some dev) w) in
    let unref_device w :=
      log_event (EvRelease RHwDevice) (set_hw_device_context None w) in
    match av_hwframe_ctx_alloc E dev with
    | None => Exit (-1) "Failed to initialize hw frame context" (unref_device w)
    | Some ctx0 =>
        let w := log_event (EvAcquire RHwFramePool)
                   (set_hw_frame_context (Some ctx0) w) in
        match av_hwdevice_get_hwframe_constraints E dev with
        | None => Exit (-1) "Failed to get hwframe constraints" (unref_device w)
        | Some valid_hw_formats =>
            (* cst is never handed to av_hwframe_constraints_free *)
            let w := log_event (EvAcquire RHwConstraints) w in
            format0 <- deref (nth_error valid_hw_formats 0) ;;
            let ctx := {| hwf_width := width (params w);
                          hwf_height := height (params w);
                          hwf_format := format0;
                          hwf_sw_format := AV_PIX_FMT_NV12 |} in
            let w := set_hw_frame_context (Some ctx) w in
            if negb (av_hwframe_ctx_init E ctx =? 0)
            then Exit (-1) "Failed to initialize hwframe context"
                   (log_event (EvRelease RHwFramePool)
                      (set_hw_frame_context None (unref_device w)))
            else Ok w
        end
    end.

(** The result of the writer's call number [n] of [av_frame_alloc]. *)
Definition av_frame_alloc_call (n : nat) : option AVFrame :=
  if av_frame_alloc_null E n then None else Some av_frame_alloc.

Definition load_codec_options (w : FrameWriter) (dict : AVDictionary)
  : FrameWriter * AVDictionary :=
  let p := params w in
  let w := set_params
             (set_codec_options
                (merged_codec_options (codec p) (codec_options p)) p) w in
  (w, fold_left (fun d opt => av_dict_set E d (fst opt) (snd opt) 0)
        (codec_options (params w)) dict).

Definition init_sws (w : FrameWriter) : Outcome FrameWriter :=
  cc <- deref (codecCtx w) ;;
  let p := params w in
  match sws_getContext E (width p) (height p) (get_input_format (format p))
          (width p) (height p) (cc_pix_fmt cc) with
  | None => Exit (-1) "Failed to create sws context" (set_swsCtx None w)
  | Some ctx => Ok (log_event (EvAcquire RScaler) (set_swsCtx (Some ctx) w))
  end.

Definition init_codec (w : FrameWriter) : Outcome FrameWriter :=
  let '(w, options) := load_codec_options w (dict_null E) in
  match avcodec_find_encoder_by_name E (codec (params w)) with
  | None => Exit (-1) "Failed to find the given codec" w
  | Some c =>
      ctx <- deref (fmtCtx w) ;;
      match avformat_new_stream E ctx c with
      | None => Exit (-1) "Failed to open stream" (set_stream None w)
      | Some st =>
          let w := set_stream (Some st) w in
          w <- update_codecCtx
                 (fun cc => cc_set_time_base (mkRational 1 FPS)
                              (cc_set_size (width (params w))
                                 (height (params w)) cc)) w ;;
          w <- (if str_contains (codec (params w)) "vaapi"
                then
                  w <- update_codecCtx (cc_set_pix_fmt AV_PIX_FMT_VAAPI) w ;;
                  w <- init_hw_accel w ;;
                  (* codecCtx->hw_frames_ctx = av_buffer_ref(...) *)
                  w <- update_codecCtx
                         (cc_set_hw_frames_ctx (hw_frame_context w)) w ;;
                  Ok (log_event (EvAcquire RHwFramesRef) w)
                else
                  fmt <- deref (choose_sw_format (format (params w)) c) ;;
                  w <- update_codecCtx (cc_set_pix_fmt fmt) w ;;
                  (* std::cout << av_get_pix_fmt_name(...): a null
                     [const char*] may not be streamed *)
                  _ <- deref (av_get_pix_fmt_name E fmt) ;;
                  init_sws w) ;;
          ctx <- deref (fmtCtx w) ;;
          w <- (if negb (Z.land (of_flags (oformat ctx)) AVFMT_GLOBALHEADER
                         =? 0)
                then update_codecCtx
                       (fun cc => cc_set_flags
                                    (Z.lor (cc_flags cc)
                                       AV_CODEC_FLAG_GLOBAL_HEADER) cc) w
                else Ok w) ;;
          cc <- deref (codecCtx w) ;;
          let '(err, enc) := avcodec_open2 E cc c options in
          if err <? 0
          then Exit (-1) "avcodec_open2 failed" w
          else
            let w := log_event (EvAcquire RCodec) (set_encoder (Some enc) w) in
            w <- update_stream (st_set_time_base (mkRational 1 FPS)) w ;;
            if negb (avio_open E (file (params w)) =? 0)
            then Exit (-1) "avio_open failed" w
            else
              let ctx := set_pb true ctx in
              let w := log_event (EvAcquire RIO) (set_fmtCtx (Some ctx) w) in
              st <- deref (stream w) ;;
              let '(ret, tb) := avformat_write_header E ctx st in
              let w := set_stream (Some (st_set_time_base tb st)) w in
              if negb (ret =? 0)
              then Exit (-1) "Failed to write file header" w
              else Ok (log_event EvWriteHeader w)
      end
  end.

Definition FrameWriter_ctor (_params : FrameWriterParams)
  : Outcome FrameWriter :=
  let w := FrameWriter_blank _params in
  match av_guess_format E (file (params w)) with
  | None => Exit (-1) "Failed to guess output format for file" w
  | Some ofmt =>
      let w := set_outputFmt (Some ofmt) w in
      let '(ret, ctx) := avformat_alloc_output_context2 E (file (params w)) in
      if ret <? 0
      then Exit (-1) "Failed to allocate output context" w
      else
        let w := log_event (EvAcquire RFormatContext)
                   (set_fmtCtx (Some ctx) w) in
        w <- init_codec w ;;
        let w := set_encoder_frame (av_frame_alloc_call 0) w in
        (* encoder_frame->format = ...: the result is not checked *)
        ef <- deref (encoder_frame w) ;;
        let w := log_event (EvAcquire REncoderFrame) w in
        fmt <- match hw_device_context w with
               | Some _ => Ok (get_input_format (format (params w)))
               | None => cc <- deref (codecCtx w) ;; Ok (cc_pix_fmt cc)
               end ;;
        let '(ret, frame) :=
          av_frame_get_buffer E
            (frame_set_geometry fmt (width (params w)) (height (params w))
               ef) in
        let w := set_encoder_frame (Some frame) w in
        if negb (ret =? 0)
        then Exit (-1) "Failed to allocate frame buffer" w
        else
          match hw_device_context w with
          | None => Ok w
          | Some _ =>
              let w := set_hw_frame (av_frame_alloc_call 1) w in
              frctx <- deref (hw_frame_context w) ;;
              (* hw_frame->format = ...: the result is not checked *)
              hwf <- deref (hw_frame w) ;;
              let w := log_event (EvAcquire RHwFrame) w in
              (* hw_frame->hw_frames_ctx = av_buffer_ref(...) *)
              let w := log_event (EvAcquire RHwFramesRef) w in
              let '(ret, hwf) :=
                av_hwframe_get_buffer E frctx
                  (frame_set_geometry (hwf_format frctx)
                     (width (params w)) (height (params w))
                     (frame_set_hw_frames_ctx (Some frctx) hwf)) in
              let w := set_hw_frame (Some hwf) w in
              if negb (ret =? 0)
              then Exit (-1) "failed to hw frame buffer" w
              else Ok w
          end
  end.

(** The first lines of [add_frame]: the stride and the address of the
    first row handed on, in [int] arithmetic. *)
Definition y_inversion (width height pixels : Z) (y_invert : bool) : Z * Z :=
  let stride0 := wrap_int (4 * width) in
  if y_invert
  then (pixels + wrap_int (stride0 * wrap_int (height - 1)),
        wrap_int (stride0 * -1))
  else (pixels, stride0).

(** Which frame [output_frame] points to. *)
Inductive OutputFrame : Type := OfHwFrame | OfEncoderFrame.

Definition output_frame_get (o : OutputFrame) (w : FrameWriter)
  : option AVFrame :=
  match o with
  | OfHwFrame => hw_frame w
  | OfEncoderFrame => encoder_frame w
  end.

Definition output_frame_set (o : OutputFrame) (f : AVFrame) (w : FrameWriter)
  : FrameWriter :=
  match o with
  | OfHwFrame => set_hw_frame (Some f) w
  | OfEncoderFrame => set_encoder_frame (Some f) w
  end.

Definition finish_frame (w : FrameWriter) : Outcome FrameWriter :=
  st <- deref (stream w) ;;
  let p := av_packet_rescale_ts (pkt w) (mkRational 1 1000) (st_time_base st) in
  let p := set_stream_index (st_index st) p in
  Ok (set_pkt blank_packet (log_event (EvWritePacket p) (set_pkt p w))).

(** One call of [avcodec_encode_video2] on [codecCtx] with [&pkt],
    followed by [if (got_output) finish_frame();]. *)
Definition encode_video (frame : option AVFrame) (w : FrameWriter)
  : Outcome (FrameWriter * bool) :=
  enc <- deref (encoder w) ;;
  let '(enc, out) := avcodec_encode_video2 E enc frame in
  let w := log_event (EvEncode frame out) (set_encoder (Some enc) w) in
  match out with
  | Some p => w <- finish_frame (set_pkt p w) ;; Ok (w, true)
  | None => Ok (w, false)
  end.

Definition add_frame (pixels msec : Z) (y_invert : bool) (w : FrameWriter)
  : Outcome FrameWriter :=
  let '(formatted_pixels, stride0) :=
    y_inversion (width (params w)) (height (params w)) pixels y_invert in
  r <- match hw_device_context w with
       | Some dev =>
           ef <- deref (encoder_frame w) ;;
           let ef := frame_set_plane0 formatted_pixels stride0 ef in
           let w := set_encoder_frame (Some ef) w in
           hwf <- deref (hw_frame w) ;;
           let '(dev, ret) := av_hwframe_transfer_data E dev hwf ef in
           let w := log_event (EvTransfer ef ret)
                      (set_hw_device_context (Some dev) w) in
           if negb (ret =? 0)
           then Ok (w, None)
           else Ok (w, Some OfHwFrame)
       | None =>
           cc <- deref (codecCtx w) ;;
           if pix_fmt_eqb (get_input_format (format (params w)))
                (cc_pix_fmt cc)
           then
             ef <- deref (encoder_frame w) ;;
             Ok (set_encoder_frame
                   (Some (frame_set_plane0 formatted_pixels stride0 ef)) w,
                 Some OfEncoderFrame)
           else
             _ <- deref (swsCtx w) ;;
             _ <- deref (encoder_frame w) ;;
             Ok (log_event
                   (EvSwsScale formatted_pixels stride0 0 (height (params w)))
                   w,
                 Some OfEncoderFrame)
       end ;;
  match snd r with
  | None => Ok (fst r)
  | Some o =>
      let w := fst r in
      f <- deref (output_frame_get o w) ;;
      let f := frame_set_pts msec f in
      let w := set_pkt blank_packet (output_frame_set o f w) in
      r <- encode_video (Some f) w ;;
      Ok (fst r)
  end.

(** The loop of the destructor, [for (int got_output = 1; got_output;)]. *)
Fixpoint drain (fuel : nat) (w : FrameWriter) : Outcome FrameWriter :=
  match fuel with
  | O => OutOfFuel
  | S fuel =>
      r <- encode_video None w ;;
      if snd r then drain fuel (fst r) else Ok (fst r)
  end.

Definition FrameWriter_dtor (fuel : nat) (w : FrameWriter)
  : Outcome FrameWriter :=
  w <- drain fuel w ;;
  _ <- deref (fmtCtx w) ;;
  let w := log_event EvWriteTrailer w in
  ofmt <- deref (outputFmt w) ;;
  w <- (if Z.land (of_flags ofmt) AVFMT_NOFILE =? 0
        then
          ctx <- deref (fmtCtx w) ;;
          Ok (if pb ctx
              then log_event (EvRelease RIO)
                     (set_fmtCtx (Some (set_pb false ctx)) w)
              else w)
        else Ok w) ;;
  _ <- deref (stream w) ;;
  let w := match encoder w with
           | Some _ => log_event (EvRelease RCodec) (set_encoder None w)
           | None => w
           end in
  let w := match swsCtx w with
           | Some _ => log_event (EvRelease RScaler) w
           | None => w
           end in
  let w := match encoder_frame w with
           | Some _ =>
               log_event (EvRelease REncoderFrame) (set_encoder_frame None w)
           | None => w
           end in
  (* TODO: free all the hw accel *)
  let w := match fmtCtx w with
           | Some _ => log_event (EvRelease RFormatContext) w
           | None => w
           end in
  Ok w.

(** A session: construction, the submitted frames in order, destruction. *)
Fixpoint add_frames (frames : list (Z * Z * bool)) (w : FrameWriter)
  : Outcome FrameWriter :=
  match frames with
  | [] => Ok w
  | (pixels, msec, y_invert) :: rest =>
      w <- add_frame pixels msec y_invert w ;;
      add_frames rest w
  end.

End Writer.

Arguments Ok {EncState DevState A} a.
Arguments Exit {EncState DevState A} status message final.
Arguments Undefined {EncState DevState A}.
Arguments OutOfFuel {EncState DevState A}.
Arguments deref {EncState DevState A} p.

(** ** A concrete engine, for running the writer *)

Module Demo.

(** The encoder keeps up to [latency] packets back; a packet carries the
    timestamp of the frame it was made from. *)
Definition latency : nat := 2.

Definition packet_of_frame (f : AVFrame) : AVPacket :=
  {| pkt_pts := frame_pts f; pkt_dts := frame_pts f; pkt_duration := 0;
     pkt_stream_index := 0; pkt_data := [] |}.

Definition encode (held : list AVPacket) (frame : option AVFrame)
  : list AVPacket * option AVPacket :=
  match frame with
  | Some f =>
      let held := held ++ [packet_of_frame f] in
      if (latency <? List.length held)%nat
      then (tl held, hd_error held)
      else (held, None)
  | None => (tl held, hd_error held)
  end.

(** The device counts the transfers it was asked for and refuses the
    second one. *)
Definition transfer (n : nat) (dst src : AVFrame) : nat * Z :=
  (S n, if (n =? 1)%nat then -5 else 0).

Definition get_buffer (f : AVFrame) : Z * AVFrame :=
  (0, frame_set_plane0 4096 (4 * frame_width f) f).

Definition codecs (name : string) : option AVCodec :=
  if String.eqb name "libx264"
  then Some (mkAVCodec name [AV_PIX_FMT_YUV420P; AV_PIX_FMT_OTHER 5;
                             AV_PIX_FMT_NONE])
  else if String.eqb name "libx264rgb"
  then Some (mkAVCodec name [AV_PIX_FMT_BGR0; AV_PIX_FMT_OTHER 3;
                             AV_PIX_FMT_NONE])
  else if String.eqb name "h264_vaapi"
  then Some (mkAVCodec name [AV_PIX_FMT_VAAPI; AV_PIX_FMT_NONE])
  else None.

(** Every format but [AV_PIX_FMT_NONE] has a name. *)
Definition pix_fmt_name (f : AVPixelFormat) : option string :=
  match f with
  | AV_PIX_FMT_NONE => None
  | AV_PIX_FMT_YUV420P => Some "yuv420p"
  | AV_PIX_FMT_NV12 => Some "nv12"
  | AV_PIX_FMT_VAAPI => Some "vaapi"
  | AV_PIX_FMT_RGB0 => Some "rgb0"
  | AV_PIX_FMT_BGR0 => Some "bgr0"
  | AV_PIX_FMT_OTHER _ => Some "other"
  end.

(** The muxer of this engine keeps the time base it is given. *)
Definition engine : Engine (list AVPacket) nat (list (string * string)) :=
  {| av_guess_format := fun _ => Some (mkOutputFormat AVFMT_GLOBALHEADER);
     avformat_alloc_output_context2 :=
       fun _ => (0, mkFormatContext (mkOutputFormat AVFMT_GLOBALHEADER) false);
     avcodec_find_encoder_by_name := codecs;
     avformat_new_stream :=
       fun _ _ =>
         Some (mkStream 0 (mkRational 0 1)
                 (mkCodecContext 0 0 (mkRational 0 1) AV_PIX_FMT_NONE None 0));
     av_hwdevice_ctx_create := fun _ _ => (0, 0%nat);
     av_hwframe_ctx_alloc :=
       fun _ => Some (mkHWFrames 0 0 AV_PIX_FMT_NONE AV_PIX_FMT_NONE);
     av_hwdevice_get_hwframe_constraints :=
       fun _ => Some [AV_PIX_FMT_VAAPI; AV_PIX_FMT_NONE];
     av_hwframe_ctx_init := fun _ => 0;
     sws_getContext := fun sw sh sf dw dh df => Some (mkSws sw sh sf dw dh df);
     dict_null := [];
     av_dict_set := fun d k v _ => d ++ [(k, v)];
     avcodec_open2 := fun _ _ _ => (0, []);
     avio_open := fun _ => 0;
     avformat_write_header := fun _ st => (0, st_time_base st);
     av_get_pix_fmt_name := pix_fmt_name;
     av_frame_alloc_null := fun _ => false;
     av_frame_get_buffer := get_buffer;
     av_hwframe_get_buffer := fun _ f => (0, f);
     av_hwframe_transfer_data := transfer;
     avcodec_encode_video2 := encode |}.

Definition params_of (codec hw_device : string) (format : InputFormat)
  : FrameWriterParams :=
  {| file := "out.mp4"; width := 4; height := 3; format := format;
     codec := codec; hw_device := hw_device; codec_options := [];
     enable_ffmpeg_debug_output := false |}.

End Demo.

(** ** Runs of the concrete engine *)

Module Runs.

Definition constructed_or_blank (p : FrameWriterParams)
  : FrameWriter (list AVPacket) nat :=
  match FrameWriter_ctor Demo.engine p with
  | Ok w => w
  | _ => FrameWriter_blank _ _ p
  end.

(** A software session: [hw_device] is set, the codec is libx264. *)
Definition sw_params : FrameWriterParams :=
  Demo.params_of "libx264" "/dev/dri/renderD128" INPUT_FORMAT_BGR0.
Definition sw_writer : FrameWriter (list AVPacket) nat :=
  Eval vm_compute in constructed_or_blank sw_params.

(** A software session whose codec takes the native layout. *)
Definition rgb_params : FrameWriterParams :=
  Demo.params_of "libx264rgb" EmptyString INPUT_FORMAT_BGR0.
Definition rgb_writer : FrameWriter (list AVPacket) nat :=
  Eval vm_compute in constructed_or_blank rgb_params.

(** A hardware session: the codec name contains "vaapi". *)
Definition hw_params : FrameWriterParams :=
  Demo.params_of "h264_vaapi" "/dev/dri/renderD128" INPUT_FORMAT_BGR0.
Definition hw_writer : FrameWriter (list AVPacket) nat :=
  Eval vm_compute in constructed_or_blank hw_params.

Definition frames : list (Z * Z * bool) :=
  [(65536, 0, false); (65536, 1000, true); (65536, 2000, false)].

Definition after_frames (w : FrameWriter (list AVPacket) nat)
  : FrameWriter (list AVPacket) nat :=
  match add_frames Demo.engine frames w with
  | Ok w' => w'
  | _ => w
  end.

Definition sw_after : FrameWriter (list AVPacket) nat :=
  Eval vm_compute in after_frames sw_writer.
Definition rgb_after : FrameWriter (list AVPacket) nat :=
  Eval vm_compute in after_frames rgb_writer.
Definition hw_after : FrameWriter (list AVPacket) nat :=
  Eval vm_compute in after_frames hw_writer.

(** The hardware session after its first frame: the device refuses the
    next upload. *)
Definition hw_one : FrameWriter (list AVPacket) nat :=
  Eval vm_compute in
    match add_frames Demo.engine [(65536, 0, false)] hw_writer with
    | Ok w => w
    | _ => hw_writer
    end.

(** A buffer of three rows of sixteen bytes at address 65536, each row
    of one colour. *)
Definition mem (addr : Z) : Byte.byte :=
  match (addr - 65536) / 16 with
  | 0 => Byte.x01
  | 1 => Byte.x02
  | 2 => Byte.x03
  | _ => Byte.x00
  end.

End Runs.

(** ** Engines that fail *)

Module Faulty.

(** The concrete engine with some of its calls replaced: the constraints a
    device reports, and the results of [av_hwframe_ctx_init],
    [av_frame_get_buffer] and [avio_open]. *)
Definition engine (constraints : option PixFmtArray)
  (hwframe_init frame_buffer io : Z)
  : Engine (list AVPacket) nat (list (string * string)) :=
  {| av_guess_format := av_guess_format Demo.engine;
     avformat_alloc_output_context2 :=
       avformat_alloc_output_context2 Demo.engine;
     avcodec_find_encoder_by_name := avcodec_find_encoder_by_name Demo.engine;
     avformat_new_stream := avformat_new_stream Demo.engine;
     av_hwdevice_ctx_create := av_hwdevice_ctx_create Demo.engine;
     av_hwframe_ctx_alloc := av_hwframe_ctx_alloc Demo.engine;
     av_hwdevice_get_hwframe_constraints := fun _ => constraints;
     av_hwframe_ctx_init := fun _ => hwframe_init;
     sws_getContext := sws_getContext Demo.engine;
     dict_null := dict_null Demo.engine;
     av_dict_set := av_dict_set Demo.engine;
     avcodec_open2 := avcodec_open2 Demo.engine;
     avio_open := fun _ => io;
     avformat_write_header := avformat_write_header Demo.engine;
     av_get_pix_fmt_name := av_get_pix_fmt_name Demo.engine;
     av_frame_alloc_null := av_frame_alloc_null Demo.engine;
     av_frame_get_buffer := fun f => (frame_buffer, snd (Demo.get_buffer f));
     av_hwframe_get_buffer := av_hwframe_get_buffer Demo.engine;
     av_hwframe_transfer_data := av_hwframe_transfer_data Demo.engine;
     avcodec_encode_video2 := avcodec_encode_video2 Demo.engine |}.

(** A device that reports no constraints. *)
Definition no_constraints := engine None 0 0 0.

(** A frame buffer that cannot be allocated. *)
Definition no_frame_buffer :=
  engine (Some [AV_PIX_FMT_VAAPI; AV_PIX_FMT_NONE]) 0 (-12) 0.

End Faulty.

(** ** Engines with another muxer or without memory *)

Module Engines.

(** The concrete engine with its muxer and its [av_frame_alloc] replaced:
    the muxer leaves [time_base] in the stream, and [alloc_null] tells
    which calls of [av_frame_alloc] return null. *)
Definition variant (time_base : AVRational) (alloc_null : nat -> bool)
  : Engine (list AVPacket) nat (list (string * string)) :=
  {| av_guess_format := av_guess_format Demo.engine;
     avformat_alloc_output_context2 :=
       avformat_alloc_output_context2 Demo.engine;
     avcodec_find_encoder_by_name := avcodec_find_encoder_by_name Demo.engine;
     avformat_new_stream := avformat_new_stream Demo.engine;
     av_hwdevice_ctx_create := av_hwdevice_ctx_create Demo.engine;
     av_hwframe_ctx_alloc := av_hwframe_ctx_alloc Demo.engine;
     av_hwdevice_get_hwframe_constraints :=
       av_hwdevice_get_hwframe_constraints Demo.engine;
     av_hwframe_ctx_init := av_hwframe_ctx_init Demo.engine;
     sws_getContext := sws_getContext Demo.engine;
     dict_null := dict_null Demo.engine;
     av_dict_set := av_dict_set Demo.engine;
     avcodec_open2 := avcodec_open2 Demo.engine;
     avio_open := avio_open Demo.engine;
     avformat_write_header := fun _ _ => (0, time_base);
     av_get_pix_fmt_name := av_get_pix_fmt_name Demo.engine;
     av_frame_alloc_null := alloc_null;
     av_frame_get_buffer := av_frame_get_buffer Demo.engine;
     av_hwframe_get_buffer := av_hwframe_get_buffer Demo.engine;
     av_hwframe_transfer_data := av_hwframe_transfer_data Demo.engine;
     avcodec_encode_video2 := avcodec_encode_video2 Demo.engine |}.

(** A muxer that, like the MP4 muxer for a 1/60 stream, takes 1/15360 of
    a second as the time base of the stream. *)
Definition mp4 := variant (mkRational 1 15360) (fun _ => false).

(** An engine whose [av_frame_alloc] returns null. *)
Definition no_memory := variant (mkRational 1 60) (fun _ => true).

(** The software session of [Runs] on the engine [mp4]. *)
Definition mp4_writer : FrameWriter (list AVPacket) nat :=
  Eval vm_compute in
    match FrameWriter_ctor mp4 Runs.sw_params with
    | Ok w => w
    | _ => FrameWriter_blank _ _ Runs.sw_params
    end.

Definition mp4_after : FrameWriter (list AVPacket) nat :=
  Eval vm_compute in
    match add_frames mp4 Runs.frames mp4_writer with
    | Ok w => w
    | _ => mp4_writer
    end.

Definition mp4_closed : FrameWriter (list AVPacket) nat :=
  Eval vm_compute in
    match FrameWriter_dtor mp4 3 mp4_after with
    | Ok w => w
    | _ => mp4_after
    end.

End Engines.

(** * What the statements speak of *)

Unset Implicit Arguments.

Section Observations.

Context {EncState DevState AVDictionary : Type}.
Variable E : Engine EncState DevState AVDictionary.

Local Abbreviation Writer := (FrameWriter EncState DevState).

Definition is_muxer_event (e : Event) : bool :=
  match e with
  | EvWriteHeader | EvWritePacket _ | EvWriteTrailer => true
  | _ => false
  end.

(** What reaches the container, in order. *)
Definition muxer_view (l : list Event) : list Event := filter is_muxer_event l.

(** The packets the encode call reported, in order. *)
Definition encoder_outputs (l : list Event) : list AVPacket :=
  flat_map (fun e => match e with
                     | EvEncode _ (Some p) => [p]
                     | _ => []
                     end) l.

(** The frames handed to the encode call, in order. *)
Definition encoder_inputs (l : list Event) : list AVFrame :=
  flat_map (fun e => match e with
                     | EvEncode (Some f) _ => [f]
                     | _ => []
                     end) l.

(** The resources acquired and those released, in order. *)
Definition acquired (l : list Event) : list Resource :=
  flat_map (fun e => match e with EvAcquire r => [r] | _ => [] end) l.

Definition released (l : list Event) : list Resource :=
  flat_map (fun e => match e with EvRelease r => [r] | _ => [] end) l.

(** What [finish_frame] hands to [av_interleaved_write_frame] for a packet
    the encoder produced. *)
Definition written_packet (st : AVStream) (p : AVPacket) : AVPacket :=
  set_stream_index (st_index st)
    (av_packet_rescale_ts p (mkRational 1 1000) (st_time_base st)).

(** A writer whose constructor returned: what [add_frame] and the
    destructor rely on. *)
Record ready (w : Writer) : Prop := mkReady {
  ready_outputFmt : outputFmt w <> None;
  ready_fmtCtx : exists ctx, fmtCtx w = Some ctx /\ pb ctx = true;
  ready_stream : exists st, stream w = Some st;
  ready_encoder : encoder w <> None;
  ready_encoder_frame : encoder_frame w <> None;
  ready_path :
    match hw_device_context w with
    | Some _ =>
        str_contains (codec (params w)) "vaapi" = true /\
        hw_frame w <> None /\ swsCtx w = None
    | None =>
        str_contains (codec (params w)) "vaapi" = false /\
        hw_frame w = None /\ swsCtx w <> None
    end;
  ready_muxer :
    forall st, stream w = Some st ->
      muxer_view (log w) =
        EvWriteHeader
          :: map EvWritePacket
               (map (written_packet st) (encoder_outputs (log w)));
  ready_released : released (log w) = []
}.

(** What the constructor leaves behind when it returns. *)
Record constructed (p : FrameWriterParams) (w : Writer) : Prop := mkConstructed {
  ctor_ready : ready w;
  ctor_params :
    params w =
      set_codec_options (merged_codec_options (codec p) (codec_options p)) p;
  ctor_outputFmt : outputFmt w = av_guess_format E (file p);
  ctor_muxer : muxer_view (log w) = [EvWriteHeader];
  ctor_encoder_idle :
    encoder_inputs (log w) = [] /\ encoder_outputs (log w) = [];
  ctor_acquired :
    acquired (log w) =
      if str_contains (codec p) "vaapi"
      then [RFormatContext; RHwDevice; RHwFramePool; RHwConstraints;
            RHwFramesRef; RCodec; RIO; REncoderFrame; RHwFrame; RHwFramesRef]
      else [RFormatContext; RScaler; RCodec; RIO; REncoderFrame];
  ctor_hw :
    str_contains (codec p) "vaapi" = true ->
    exists dev fmt0 formats,
      av_hwdevice_ctx_create E "vaapi" (hw_device p) = (0, dev) /\
      av_hwdevice_get_hwframe_constraints E dev = Some (fmt0 :: formats) /\
      hw_device_context w = Some dev /\
      hw_frame_context w =
        Some (mkHWFrames (width p) (height p) fmt0 AV_PIX_FMT_NV12) /\
      option_map cc_pix_fmt (codecCtx w) = Some AV_PIX_FMT_VAAPI /\
      swsCtx w = None;
  ctor_sw :
    str_contains (codec p) "vaapi" = false ->
    exists c fmt ctx,
      avcodec_find_encoder_by_name E (codec p) = Some c /\
      choose_sw_format (format p) c = Some fmt /\
      option_map cc_pix_fmt (codecCtx w) = Some fmt /\
      sws_getContext E (width p) (height p) (get_input_format (format p))
        (width p) (height p) fmt = Some ctx /\
      swsCtx w = Some ctx /\
      hw_device_context w = None /\ hw_frame_context w = None /\
      hw_frame w = None
}.

(** [encode_video] on a writer whose codec is open: the call, and the
    packet written when the call reports one. *)
Definition encoded (st : AVStream) (enc : EncState) (frame : option AVFrame)
  (w : Writer) : Writer :=
  let r := avcodec_encode_video2 E enc frame in
  let w1 := log_event (EvEncode frame (snd r)) (set_encoder (Some (fst r)) w) in
  match snd r with
  | Some p =>
      set_pkt blank_packet
        (log_event (EvWritePacket (written_packet st p)) (set_pkt p w1))
  | None => w1
  end.

(** Whether that call reports a packet, and the events it appends. *)
Definition got_output (enc : EncState) (frame : option AVFrame) : bool :=
  match snd (avcodec_encode_video2 E enc frame) with
  | Some _ => true
  | None => false
  end.

Definition encode_events (st : AVStream) (enc : EncState)
  (frame : option AVFrame) : list Event :=
  let out := snd (avcodec_encode_video2 E enc frame) in
  EvEncode frame out
    :: match out with
       | Some p => [EvWritePacket (written_packet st p)]
       | None => []
       end.

(** The origin and stride [add_frame] computes for a writer. *)
Definition layout (w : Writer) (pixels : Z) (y_invert : bool) : Z * Z :=
  y_inversion (width (params w)) (height (params w)) pixels y_invert.

(** The writer [add_frame] returns on each of its three routes, when the
    members it reads are set: upload to the device, direct use of the
    caller's pixels, conversion by the scaler. *)
Definition hw_upload (dev : DevState) (ef hwf : AVFrame) (st : AVStream)
  (enc : EncState) (pixels msec : Z) (y_invert : bool) (w : Writer) : Writer :=
  let lay := layout w pixels y_invert in
  let ef' := frame_set_plane0 (fst lay) (snd lay) ef in
  let r := av_hwframe_transfer_data E dev hwf ef' in
  let w1 := log_event (EvTransfer ef' (snd r))
              (set_hw_device_context (Some (fst r))
                 (set_encoder_frame (Some ef') w)) in
  if snd r =? 0
  then encoded st enc (Some (frame_set_pts msec hwf))
         (set_pkt blank_packet
            (set_hw_frame (Some (frame_set_pts msec hwf)) w1))
  else w1.

Definition zero_copy (ef : AVFrame) (st : AVStream) (enc : EncState)
  (pixels msec : Z) (y_invert : bool) (w : Writer) : Writer :=
  let lay := layout w pixels y_invert in
  let f := frame_set_pts msec (frame_set_plane0 (fst lay) (snd lay) ef) in
  encoded st enc (Some f) (set_pkt blank_packet (set_encoder_frame (Some f) w)).

Definition sw_convert (ef : AVFrame) (st : AVStream) (enc : EncState)
  (pixels msec : Z) (y_invert : bool) (w : Writer) : Writer :=
  let lay := layout w pixels y_invert in
  let f := frame_set_pts msec ef in
  encoded st enc (Some f)
    (set_pkt blank_packet
       (set_encoder_frame (Some f)
          (log_event
             (EvSwsScale (fst lay) (snd lay) 0 (height (params w))) w))).

(** The events one [add_frame] appends, by route. *)
Definition add_frame_events (w : Writer) (pixels msec : Z) (y_invert : bool)
  : list Event :=
  let lay := layout w pixels y_invert in
  match stream w, encoder w, encoder_frame w with
  | Some st, Some enc, Some ef =>
      match hw_device_context w, hw_frame w with
      | Some dev, Some hwf =>
          let ef' := frame_set_plane0 (fst lay) (snd lay) ef in
          let ret := snd (av_hwframe_transfer_data E dev hwf ef') in
          EvTransfer ef' ret
            :: (if ret =? 0
                then encode_events st enc (Some (frame_set_pts msec hwf))
                else [])
      | Some _, None => []
      | None, _ =>
          if pix_fmt_eqb (get_input_format (format (params w)))
               (cc_pix_fmt (st_codec st))
          then encode_events st enc
                 (Some (frame_set_pts msec
                          (frame_set_plane0 (fst lay) (snd lay) ef)))
          else EvSwsScale (fst lay) (snd lay) 0 (height (params w))
                 :: encode_events st enc (Some (frame_set_pts msec ef))
      end
  | _, _, _ => []
  end.

(** The packets an encoder gives when it is called with no input until
    it reports none. *)
Inductive flushes : EncState -> list AVPacket -> EncState -> Prop :=
| flushes_done enc enc' :
    avcodec_encode_video2 E enc None = (enc', None) ->
    flushes enc [] enc'
| flushes_more enc enc1 enc' p ps :
    avcodec_encode_video2 E enc None = (enc1, Some p) ->
    flushes enc1 ps enc' ->
    flushes enc (p :: ps) enc'.

(** The events of the drain loop for the packets [ps]. *)
Definition drain_events (st : AVStream) (ps : list AVPacket) : list Event :=
  flat_map (fun p => [EvEncode None (Some p);
                      EvWritePacket (written_packet st p)]) ps
  ++ [EvEncode None None].

(** What the drain loop leaves untouched. *)
Definition same_handles (w w' : Writer) : Prop :=
  params w' = params w /\ outputFmt w' = outputFmt w /\
  fmtCtx w' = fmtCtx w /\ stream w' = stream w /\ swsCtx w' = swsCtx w /\
  hw_device_context w' = hw_device_context w /\
  hw_frame_context w' = hw_frame_context w /\
  encoder_frame w' = encoder_frame w /\ hw_frame w' = hw_frame w.

(** The resources the destructor releases on a ready writer, in order. *)
Definition dtor_releases (w : Writer) : list Resource :=
  match outputFmt w with
  | Some ofmt => if Z.land (of_flags ofmt) AVFMT_NOFILE =? 0 then [RIO] else []
  | None => []
  end
  ++ [RCodec]
  ++ match swsCtx w with
     | Some _ => [RScaler]
     | None => []
     end
  ++ [REncoderFrame; RFormatContext].

(** The rows a consumer reads from memory through an origin and a
    stride: row [i] starts at [origin + i * stride]. *)
Definition read_row (mem : Z -> Byte.byte) (addr : Z) (n : nat)
  : list Byte.byte :=
  map (fun j => mem (addr + Z.of_nat j)) (seq 0 n).

Definition rows_presented (mem : Z -> Byte.byte) (lay : Z * Z)
  (rows rowbytes : nat) : list (list Byte.byte) :=
  map (fun i => read_row mem (fst lay + Z.of_nat i * snd lay) rowbytes)
    (seq 0 rows).

(** The number of [sws_scale] calls in a log. *)
Definition is_sws_scale (e : Event) : bool :=
  match e with
  | EvSwsScale _ _ _ _ => true
  | _ => false
  end.

Definition sws_scale_calls (l : list Event) : nat :=
  List.length (filter is_sws_scale l).

(** The timestamp of a submitted frame. *)
Definition msec_of (frame : Z * Z * bool) : Z := snd (fst frame).

(** The origin and stride the first engine call of an [add_frame] is
    given: the upload's source frame, the scaler's source, or the frame
    handed to the encoder when there is neither. *)
Definition handed_layout (evs : list Event) : option (Z * Z) :=
  match evs with
  | EvTransfer src _ :: _ => Some (frame_data0 src, frame_linesize0 src)
  | EvSwsScale src stride _ _ :: _ => Some (src, stride)
  | EvEncode (Some f) _ :: _ => Some (frame_data0 f, frame_linesize0 f)
  | _ => None
  end.

Definition is_hw_resource (r : Resource) : bool :=
  match r with
  | RHwDevice | RHwFramePool | RHwFrame | RHwConstraints | RHwFramesRef => true
  | _ => false
  end.

(** The resources of a list that are not those of the hardware route. *)
Definition other_than_hw (rs : list Resource) : list Resource :=
  filter (fun r => negb (is_hw_resource r)) rs.

(** The packets handed to [av_interleaved_write_frame], in order. *)
Definition written_packets (l : list Event) : list AVPacket :=
  flat_map (fun e => match e with EvWritePacket p => [p] | _ => [] end) l.

(** The uploads that failed: the frames [add_frame] dropped. *)
Definition dropped_frames (l : list Event) : nat :=
  List.length
    (filter (fun e => match e with
                      | EvTransfer _ ret => negb (ret =? 0)
                      | _ => false
                      end) l).

(** The keys of a map come in strictly increasing order. *)
Fixpoint keys_increasing (m : StdMap) : bool :=
  match m with
  | [] => true
  | (k, _) :: rest =>
      match rest with
      | [] => true
      | (k', _) :: _ =>
          match String.compare k k' with
          | Lt => keys_increasing rest
          | _ => false
          end
      end
  end.

(** An engine whose arrays can be read: every encoder's [pix_fmts] holds
    the sentinel and the constraints of every device list a format. *)
Definition readable_arrays : Prop :=
  (forall name c,
      avcodec_find_encoder_by_name E name = Some c -> terminated (pix_fmts c)) /\
  (forall dev formats,
      av_hwdevice_get_hwframe_constraints E dev = Some formats ->
      formats <> []).

(** An engine that has a name for the format chosen for any of its
    encoders. *)
Definition named_formats : Prop :=
  forall name c format fmt,
    avcodec_find_encoder_by_name E name = Some c ->
    choose_sw_format format c = Some fmt ->
    av_get_pix_fmt_name E fmt <> None.

End Observations.

(** * Properties *)

(** ** Pixel formats *)

Lemma pix_fmt_eqb_eq a b : pix_fmt_eqb a b = true <-> a = b.
Proof. unfold pix_fmt_eqb. destruct (pix_fmt_eq_dec a b); split; congruence. Qed.

Lemma pix_fmt_eqb_neq a b : pix_fmt_eqb a b = false <-> a <> b.
Proof. unfold pix_fmt_eqb. destruct (pix_fmt_eq_dec a b); split; congruence. Qed.

Lemma pix_fmt_eqb_refl a : pix_fmt_eqb a a = true.
Proof. now apply pix_fmt_eqb_eq. Qed.

(** ** Format negotiation *)

Lemma supported_formats_no_sentinel (a : PixFmtArray) :
  ~ In AV_PIX_FMT_NONE (supported_formats a).
Proof.
  induction a as [|s rest IH]; simpl; [tauto|].
  destruct (pix_fmt_eqb s AV_PIX_FMT_NONE) eqn:Hs; simpl; [tauto|].
  apply pix_fmt_eqb_neq in Hs. intros [H|H]; [congruence | now apply IH].
Qed.

Lemma is_fmt_supported_true (fmt : AVPixelFormat) (a : PixFmtArray) :
  In fmt (supported_formats a) -> is_fmt_supported fmt a = Some true.
Proof.
  induction a as [|s rest IH]; simpl; [tauto|].
  destruct (pix_fmt_eqb s AV_PIX_FMT_NONE); simpl; [tauto|].
  intros [H|H].
  - subst. now rewrite pix_fmt_eqb_refl.
  - destruct (pix_fmt_eqb s fmt); auto.
Qed.

Lemma is_fmt_supported_false (fmt : AVPixelFormat) (a : PixFmtArray) :
  terminated a -> ~ In fmt (supported_formats a) ->
  is_fmt_supported fmt a = Some false.
Proof.
  unfold terminated. induction a as [|s rest IH]; simpl; [tauto|].
  intros Hterm Hnot.
  destruct (pix_fmt_eqb s AV_PIX_FMT_NONE) eqn:Hs; [reflexivity|].
  apply pix_fmt_eqb_neq in Hs.
  destruct (pix_fmt_eqb s fmt) eqn:Hf.
  - apply pix_fmt_eqb_eq in Hf. simpl in Hnot. tauto.
  - apply IH; [destruct Hterm; congruence | simpl in Hnot; tauto].
Qed.

Lemma supported_formats_head (a : PixFmtArray) (f : AVPixelFormat) rest :
  supported_formats a = f :: rest -> nth_error a 0 = Some f.
Proof.
  destruct a as [|s a']; simpl; [discriminate|].
  destruct (pix_fmt_eqb s AV_PIX_FMT_NONE); [discriminate|]. congruence.
Qed.

Lemma supported_formats_empty (a : PixFmtArray) :
  terminated a -> supported_formats a = [] ->
  nth_error a 0 = Some AV_PIX_FMT_NONE.
Proof.
  unfold terminated. destruct a as [|s a']; simpl; [tauto|].
  destruct (pix_fmt_eqb s AV_PIX_FMT_NONE) eqn:Hs; [|discriminate].
  apply pix_fmt_eqb_eq in Hs. now subst.
Qed.

(** C2. On every sentinel-terminated capability array and for either
    native input layout, [choose_sw_format] returns the native RGB-family
    format when the array advertises it; otherwise YUV420P when the array
    advertises that; otherwise the array's first cell, which is the first
    advertised format whenever one exists. *)
Theorem choose_sw_format_preference
  (format : InputFormat) (codec : AVCodec) :
  terminated (pix_fmts codec) ->
  let native := get_input_format format in
  let caps := supported_formats (pix_fmts codec) in
  choose_sw_format format codec =
    Some (if in_dec pix_fmt_eq_dec native caps then native
          else if in_dec pix_fmt_eq_dec AV_PIX_FMT_YUV420P caps
               then AV_PIX_FMT_YUV420P
               else hd AV_PIX_FMT_NONE caps).
Proof.
  intros Hterm native caps. unfold choose_sw_format. fold native.
  destruct (in_dec pix_fmt_eq_dec native caps) as [Hn|Hn].
  - now rewrite (is_fmt_supported_true _ _ Hn).
  - rewrite (is_fmt_supported_false _ _ Hterm Hn).
    destruct (in_dec pix_fmt_eq_dec AV_PIX_FMT_YUV420P caps) as [Hy|Hy].
    + now rewrite (is_fmt_supported_true _ _ Hy).
    + rewrite (is_fmt_supported_false _ _ Hterm Hy).
      destruct caps as [|f rest] eqn:Hcaps; simpl.
      * now apply supported_formats_empty.
      * now apply supported_formats_head with rest.
Qed.

Lemma choose_sw_format_preference_witness :
  terminated [AV_PIX_FMT_OTHER 7; AV_PIX_FMT_YUV420P; AV_PIX_FMT_NONE] /\
  choose_sw_format INPUT_FORMAT_BGR0
    (mkAVCodec "mpeg4"
       [AV_PIX_FMT_OTHER 7; AV_PIX_FMT_YUV420P; AV_PIX_FMT_NONE])
  = Some AV_PIX_FMT_YUV420P.
Proof.
  split.
  - unfold terminated. simpl. tauto.
  - apply (choose_sw_format_preference INPUT_FORMAT_BGR0
             (mkAVCodec "mpeg4"
                [AV_PIX_FMT_OTHER 7; AV_PIX_FMT_YUV420P; AV_PIX_FMT_NONE])).
    unfold terminated. simpl. tauto.
Defined.

(** C10. On a sentinel-terminated array whose first cell is not the
    sentinel, the format [choose_sw_format] returns is one of the formats
    the array advertises; when the first cell is the sentinel the last
    branch returns the sentinel, which the array does not advertise. *)
Theorem choose_sw_format_in_supported
  (format : InputFormat) (codec : AVCodec) :
  terminated (pix_fmts codec) ->
  match nth_error (pix_fmts codec) 0 with
  | Some AV_PIX_FMT_NONE =>
      choose_sw_format format codec = Some AV_PIX_FMT_NONE /\
      ~ In AV_PIX_FMT_NONE (supported_formats (pix_fmts codec))
  | _ =>
      exists fmt, choose_sw_format format codec = Some fmt /\
                  In fmt (supported_formats (pix_fmts codec))
  end.
Proof.
  intros Hterm.
  pose proof (choose_sw_format_preference format codec Hterm) as Hc.
  cbv zeta in Hc.
  destruct (pix_fmts codec) as [|s rest] eqn:Ha.
  { unfold terminated in Hterm. simpl in Hterm. tauto. }
  cbn [nth_error].
  assert (Hcase : s = AV_PIX_FMT_NONE /\ supported_formats (s :: rest) = [] \/
                  s <> AV_PIX_FMT_NONE /\
                  supported_formats (s :: rest) = s :: supported_formats rest).
  { simpl. destruct (pix_fmt_eqb s AV_PIX_FMT_NONE) eqn:Hs.
    - left. apply pix_fmt_eqb_eq in Hs. tauto.
    - right. apply pix_fmt_eqb_neq in Hs. tauto. }
  destruct Hcase as [[Hs Hcaps]|[Hs Hcaps]].
  - subst s. rewrite Hcaps in *. split.
    + rewrite Hc.
      destruct (in_dec pix_fmt_eq_dec (get_input_format format) []) as [[]|_].
      destruct (in_dec pix_fmt_eq_dec AV_PIX_FMT_YUV420P []) as [[]|_].
      reflexivity.
    + simpl. tauto.
  - rewrite Hcaps in *.
    assert (exists fmt, choose_sw_format format codec = Some fmt /\
                        In fmt (s :: supported_formats rest)) as Hex.
    { rewrite Hc.
      destruct (in_dec pix_fmt_eq_dec (get_input_format format)
                  (s :: supported_formats rest)) as [Hn|Hn]; [eauto|].
      destruct (in_dec pix_fmt_eq_dec AV_PIX_FMT_YUV420P
                  (s :: supported_formats rest)) as [Hy|Hy]; [eauto|].
      exists s. simpl. tauto. }
    destruct s; solve [congruence | exact Hex].
Qed.

Lemma choose_sw_format_in_supported_witness :
  (exists fmt,
      choose_sw_format INPUT_FORMAT_RGB0
        (mkAVCodec "gif" [AV_PIX_FMT_OTHER 11; AV_PIX_FMT_NONE]) = Some fmt /\
      In fmt [AV_PIX_FMT_OTHER 11]) /\
  choose_sw_format INPUT_FORMAT_RGB0 (mkAVCodec "none" [AV_PIX_FMT_NONE])
  = Some AV_PIX_FMT_NONE.
Proof.
  split.
  - apply (choose_sw_format_in_supported INPUT_FORMAT_RGB0
             (mkAVCodec "gif" [AV_PIX_FMT_OTHER 11; AV_PIX_FMT_NONE])).
    unfold terminated. simpl. tauto.
  - apply (choose_sw_format_in_supported INPUT_FORMAT_RGB0
             (mkAVCodec "none" [AV_PIX_FMT_NONE])).
    unfold terminated. simpl. tauto.
Defined.

(** ** Codec options *)

Lemma string_compare_refl (s : string) : String.compare s s = Eq.
Proof.
  pose proof (String.compare_antisym s s) as H.
  destruct (String.compare s s); simpl in H; congruence.
Qed.

Lemma string_compare_eq (s t : string) : String.compare s t = Eq <-> s = t.
Proof.
  split; [apply String.compare_eq_iff | intros ->; apply string_compare_refl].
Qed.

Lemma map_count_find (k : string) (m : StdMap) :
  (map_count k m =? 0)%nat = match map_find k m with
                             | Some _ => false
                             | None => true
                             end.
Proof.
  induction m as [|[k' v'] rest IH]; simpl; [reflexivity|].
  destruct (String.compare k k'); auto.
Qed.

Lemma map_find_assign (k k' v : string) (m : StdMap) :
  map_find k (map_assign k' v m) =
    if String.eqb k k' then Some v else map_find k m.
Proof.
  induction m as [|[k0 v0] rest IH]; simpl.
  - destruct (String.eqb_spec k k') as [->|Hne].
    + now rewrite string_compare_refl.
    + destruct (String.compare k k') eqn:Hc; auto.
      apply string_compare_eq in Hc. contradiction.
  - destruct (String.compare k' k0) eqn:Hk'; simpl.
    + apply string_compare_eq in Hk'. subst k0.
      destruct (String.eqb_spec k k') as [->|Hne].
      * now rewrite string_compare_refl.
      * destruct (String.compare k k') eqn:Hc; auto.
        apply string_compare_eq in Hc. contradiction.
    + destruct (String.eqb_spec k k') as [->|Hne].
      * now rewrite string_compare_refl.
      * destruct (String.compare k k') eqn:Hc; auto.
        apply string_compare_eq in Hc. contradiction.
    + rewrite IH. destruct (String.compare k k0) eqn:Hc; auto.
      apply string_compare_eq in Hc. subst k0.
      destruct (String.eqb_spec k k') as [->|Hne]; auto.
      rewrite string_compare_refl in Hk'. discriminate.
Qed.

Lemma map_find_seed_defaults (defaults m : StdMap) (k : string) :
  map_find k (seed_defaults defaults m) =
    match map_find k m with
    | Some v => Some v
    | None => map_find k defaults
    end.
Proof.
  unfold seed_defaults. revert m.
  induction defaults as [|[k0 v0] rest IH]; intros m; simpl.
  - now destruct (map_find k m).
  - rewrite IH, map_count_find.
    destruct (map_find k0 m) eqn:H0.
    + destruct (map_find k m) eqn:Hk; auto.
      destruct (String.compare k k0) eqn:Hc; auto.
      apply string_compare_eq in Hc. congruence.
    + rewrite map_find_assign.
      destruct (String.eqb_spec k k0) as [->|Hne].
      * now rewrite H0, string_compare_refl.
      * destruct (map_find k m); auto.
        destruct (String.compare k k0) eqn:Hc; auto.
        apply string_compare_eq in Hc. contradiction.
Qed.

Section CodecOptions.

Context {EncState DevState AVDictionary : Type}.
Variable E : Engine EncState DevState AVDictionary.

(** C5. [load_codec_options] leaves in [params.codec_options], for every
    key, the caller's value when the caller gave one; a key the caller
    did not give gets the x264 default ([tune=zerolatency],
    [preset=ultrafast], [crf=20]) when the codec name contains "libx264"
    or "libx265", and nothing otherwise.  Every resulting pair is passed
    to [av_dict_set], and for a name containing "libx264" and no caller
    options the result is exactly the three default pairs. *)
Theorem load_codec_options_merge
  (w : FrameWriter EncState DevState) (dict : AVDictionary) :
  let w' := fst (load_codec_options E w dict) in
  let d' := snd (load_codec_options E w dict) in
  let name := codec (params w) in
  let family := str_contains name "libx264" || str_contains name "libx265" in
  (forall k,
      map_find k (codec_options (params w')) =
        match map_find k (codec_options (params w)) with
        | Some v => Some v
        | None =>
            if family
            then map_find k [("tune", "zerolatency"); ("preset", "ultrafast");
                             ("crf", "20")]
            else None
        end) /\
  (family = false -> codec_options (params w') = codec_options (params w)) /\
  d' = fold_left (fun d opt => av_dict_set E d (fst opt) (snd opt) 0)
         (codec_options (params w')) dict /\
  (str_contains name "libx264" = true -> codec_options (params w) = [] ->
   codec_options (params w') =
     [("crf", "20"); ("preset", "ultrafast"); ("tune", "zerolatency")]).
Proof.
  cbv zeta. unfold load_codec_options. cbn [fst snd params codec_options
    set_params set_codec_options].
  unfold merged_codec_options, is_x264_family.
  repeat split.
  - intros k.
    destruct (str_contains (codec (params w)) "libx264"
              || str_contains (codec (params w)) "libx265").
    + rewrite map_find_seed_defaults.
      destruct (map_find k (codec_options (params w))); [reflexivity|].
      unfold default_x264_options. simpl.
      destruct (String.compare k "crf") eqn:H1;
        destruct (String.compare k "preset") eqn:H2;
        destruct (String.compare k "tune") eqn:H3;
        try reflexivity;
        repeat match goal with
               | H : String.compare _ _ = Eq |- _ =>
                   apply string_compare_eq in H
               end;
        subst; discriminate.
    + now destruct (map_find k (codec_options (params w))).
  - intros ->. reflexivity.
  - intros H1 H2. rewrite H1, H2. reflexivity.
Qed.

End CodecOptions.

Lemma load_codec_options_merge_witness :
  let w := FrameWriter_blank (list AVPacket) nat
             (Demo.params_of "libx264rgb" EmptyString INPUT_FORMAT_BGR0) in
  codec_options (params (fst (load_codec_options Demo.engine w []))) =
    [("crf", "20"); ("preset", "ultrafast"); ("tune", "zerolatency")] /\
  snd (load_codec_options Demo.engine w []) =
    [("crf", "20"); ("preset", "ultrafast"); ("tune", "zerolatency")].
Proof.
  cbv zeta.
  pose proof (load_codec_options_merge Demo.engine
                (FrameWriter_blank (list AVPacket) nat
                   (Demo.params_of "libx264rgb" EmptyString INPUT_FORMAT_BGR0)) [])
    as [_ [_ [Hd Hx]]].
  split.
  - apply Hx; reflexivity.
  - rewrite Hd. rewrite Hx; reflexivity.
Defined.

(** ** Sessions *)

Lemma muxer_view_app (l1 l2 : list Event) :
  muxer_view (l1 ++ l2) = muxer_view l1 ++ muxer_view l2.
Proof. apply filter_app. Qed.

Lemma encoder_outputs_app (l1 l2 : list Event) :
  encoder_outputs (l1 ++ l2) = encoder_outputs l1 ++ encoder_outputs l2.
Proof. apply flat_map_app. Qed.

Lemma encoder_inputs_app (l1 l2 : list Event) :
  encoder_inputs (l1 ++ l2) = encoder_inputs l1 ++ encoder_inputs l2.
Proof. apply flat_map_app. Qed.

Lemma acquired_app (l1 l2 : list Event) :
  acquired (l1 ++ l2) = acquired l1 ++ acquired l2.
Proof. apply flat_map_app. Qed.

Lemma released_app (l1 l2 : list Event) :
  released (l1 ++ l2) = released l1 ++ released l2.
Proof. apply flat_map_app. Qed.

(** One step of symbolic execution of a member function that returned. *)
Ltac run_step H :=
  match type of H with
  | bind ?m _ = Ok _ =>
      let o := fresh "o" in
      destruct m as [o| | |] eqn:?; cbn [bind] in H; try discriminate H
  | (let '(_, _) := ?x in _) = Ok _ => destruct x eqn:?
  | (if ?b then _ else _) = Ok _ => destruct b eqn:?; try discriminate H
  | match ?x with _ => _ end = Ok _ => destruct x eqn:?; try discriminate H
  end.

Ltac run_ok H := repeat run_step H.

Ltac writer_simpl :=
  cbn [params outputFmt fmtCtx stream swsCtx hw_device_context
       hw_frame_context encoder_frame hw_frame pkt encoder log
       set_params set_outputFmt set_fmtCtx set_stream set_swsCtx
       set_hw_device_context set_hw_frame_context set_encoder_frame
       set_hw_frame set_pkt set_encoder log_event FrameWriter_blank
       codecCtx option_map st_codec st_index st_time_base st_set_codec
       st_set_time_base set_codec_options file width height format codec
       hw_device codec_options fst snd deref bind
       cc_pix_fmt cc_hw_frames_ctx cc_set_size cc_set_time_base
       cc_set_pix_fmt cc_set_hw_frames_ctx cc_set_flags
       pb oformat set_pb] in *.

(** Normalises the writer states in [H] to records and reduces the
    binds whose first outcome is known. *)
Ltac writer_norm_in H :=
  cbv beta iota zeta delta
    [params outputFmt fmtCtx stream swsCtx hw_device_context
     hw_frame_context encoder_frame hw_frame pkt encoder log
     set_params set_outputFmt set_fmtCtx set_stream set_swsCtx
     set_hw_device_context set_hw_frame_context set_encoder_frame
     set_hw_frame set_pkt set_encoder log_event FrameWriter_blank
     codecCtx option_map av_frame_alloc_call] in H;
  cbn [bind deref] in H.

(** Runs the member function call in [H : call = outcome] along every
    path, innermost call first, splitting on one engine result at a time;
    the paths that end in another outcome are dropped. *)
Ltac run_call H :=
  writer_norm_in H;
  lazymatch type of H with
  | Ok _ = Ok _ => injection H as H; subst
  | Exit _ _ _ = Exit _ _ _ => injection H as ? ? ?; subst
  | Undefined = Undefined => clear H
  | OutOfFuel = OutOfFuel => clear H
  | Ok _ = _ => discriminate H
  | Exit _ _ _ = _ => discriminate H
  | Undefined = _ => discriminate H
  | OutOfFuel = _ => discriminate H
  | bind ?m _ = _ =>
      let Hm := fresh "Hcall" in
      destruct m eqn:Hm;
      [ run_call Hm; run_call H
      | run_call H; run_call Hm
      | run_call H; run_call Hm
      | run_call H; run_call Hm ]
  | deref (if ?b then _ else _) = _ => destruct b eqn:?; run_call H
  | deref ?x = _ => destruct x eqn:?; run_call H
  | FrameWriter_ctor _ _ = _ => unfold FrameWriter_ctor in H; run_call H
  | init_codec _ _ = _ =>
      unfold init_codec, load_codec_options in H; run_call H
  | init_sws _ _ = _ => unfold init_sws in H; run_call H
  | init_hw_accel _ _ = _ => unfold init_hw_accel in H; run_call H
  | update_codecCtx _ _ = _ =>
      unfold update_codecCtx, update_stream in H; run_call H
  | update_stream _ _ = _ => unfold update_stream in H; run_call H
  | (let '(_, _) := ?x in _) = _ => destruct x eqn:?; run_call H
  | (if ?b then _ else _) = _ => destruct b eqn:?; run_call H
  | match ?x with _ => _ end = _ => destruct x eqn:?; run_call H
  end.

Section Session.

Context {EncState DevState AVDictionary : Type}.
Variable E : Engine EncState DevState AVDictionary.

Local Abbreviation Writer := (FrameWriter EncState DevState).

Lemma init_hw_accel_ok (w w' : Writer) :
  init_hw_accel E w = Ok w' ->
  exists dev ctx0 fmt0 formats,
    av_hwdevice_ctx_create E "vaapi" (hw_device (params w)) = (0, dev) /\
    av_hwdevice_get_hwframe_constraints E dev = Some (fmt0 :: formats) /\
    w' = set_hw_frame_context
           (Some (mkHWFrames (width (params w)) (height (params w)) fmt0
                    AV_PIX_FMT_NV12))
           (log_event (EvAcquire RHwConstraints)
              (log_event (EvAcquire RHwFramePool)
                 (set_hw_frame_context (Some ctx0)
                    (log_event (EvAcquire RHwDevice)
                       (set_hw_device_context (Some dev) w))))).
Proof.
  unfold init_hw_accel. intros H.
  destruct (av_hwdevice_ctx_create E "vaapi" (hw_device (params w)))
    as [ret dev] eqn:Hcreate.
  destruct (ret =? 0) eqn:Hret; [|discriminate H].
  apply Z.eqb_eq in Hret. subst ret. cbn [negb] in H.
  run_ok H.
  match goal with
  | Hd : deref (nth_error ?l 0) = Ok _ |- _ =>
      destruct l as [|f0 fs]; simpl in Hd; [discriminate Hd|];
      injection Hd as <-
  end.
  injection H as <-. eauto 10.
Qed.

Ltac run_all :=
  repeat (writer_simpl;
    match goal with
    | H : Ok _ = Ok _ |- _ => injection H as H; subst
    | H : Some _ = Some _ |- _ => injection H as H; subst
    | H : (_, _) = (_, _) |- _ => injection H as ? ?; subst
    | H : Undefined = Ok _ |- _ => discriminate H
    | H : Exit _ _ _ = Ok _ |- _ => discriminate H
    | H : deref ?x = Ok _ |- _ =>
        destruct x eqn:?; cbn [deref] in H; [|discriminate H]
    | H : update_codecCtx _ _ = Ok _ |- _ =>
        unfold update_codecCtx, update_stream in H
    | H : update_stream _ _ = Ok _ |- _ => unfold update_stream in H
    | H : init_sws _ _ = Ok _ |- _ => unfold init_sws in H
    | H : init_codec _ _ = Ok _ |- _ => unfold init_codec in H
    | H : load_codec_options _ _ _ = _ |- _ => unfold load_codec_options in H
    | H : init_hw_accel _ _ = Ok _ |- _ =>
        apply init_hw_accel_ok in H;
        destruct H as (? & ? & ? & ? & ? & ? & ?); subst
    | H : _ = Ok _ |- _ => run_step H
    end).

Lemma FrameWriter_ctor_constructed (p : FrameWriterParams) (w : Writer) :
  FrameWriter_ctor E p = Ok w -> constructed E p w.
Proof.
  unfold FrameWriter_ctor. intros H.
  run_all.
  all: split; [split|..]; writer_simpl.
  all: try congruence.
  all: try match goal with
           | Hv : str_contains _ _ = _ |- context [str_contains _ _] =>
               rewrite Hv
           end.
  all: try solve [reflexivity | split; reflexivity
                 | eexists; split; reflexivity
                 | repeat split; congruence
                 | intros st [= <-]; reflexivity
                 | intros _; eauto 12
                 | intros _; do 3 eexists; repeat split; eauto ].
Qed.

Lemma encode_video_ok (w : Writer) st enc frame :
  encoder w = Some enc -> stream w = Some st ->
  encode_video E frame w = Ok (encoded E st enc frame w, got_output E enc frame).
Proof.
  intros He Hs. unfold encode_video, encoded, got_output, finish_frame.
  rewrite He. cbn [deref bind].
  destruct (avcodec_encode_video2 E enc frame) as [enc' [p|]];
    writer_simpl; [|reflexivity].
  rewrite Hs. reflexivity.
Qed.

Lemma encoded_log (w : Writer) st enc frame :
  log (encoded E st enc frame w) = log w ++ encode_events E st enc frame.
Proof.
  unfold encoded, encode_events.
  destruct (avcodec_encode_video2 E enc frame) as [enc' [p|]]; writer_simpl;
    [now rewrite <- app_assoc | reflexivity].
Qed.

Lemma encode_events_muxer st enc frame :
  muxer_view (encode_events E st enc frame) =
    map EvWritePacket
      (map (written_packet st) (encoder_outputs (encode_events E st enc frame))).
Proof.
  unfold encode_events.
  destruct (snd (avcodec_encode_video2 E enc frame)); reflexivity.
Qed.

Lemma encode_events_released st enc frame :
  released (encode_events E st enc frame) = [].
Proof.
  unfold encode_events.
  destruct (snd (avcodec_encode_video2 E enc frame)); reflexivity.
Qed.

(** A step that keeps the handles and only appends encode calls and
    packet writes keeps the writer ready. *)
Lemma ready_step (w w' : Writer) (evs : list Event) :
  ready w ->
  params w' = params w -> outputFmt w' = outputFmt w ->
  fmtCtx w' = fmtCtx w -> stream w' = stream w -> swsCtx w' = swsCtx w ->
  encoder w' <> None -> encoder_frame w' <> None ->
  (hw_device_context w' = None <-> hw_device_context w = None) ->
  (hw_frame w' = None <-> hw_frame w = None) ->
  log w' = log w ++ evs ->
  (forall st, stream w = Some st ->
     muxer_view evs =
       map EvWritePacket (map (written_packet st) (encoder_outputs evs))) ->
  released evs = [] ->
  ready w'.
Proof.
  intros [R1 R2 R3 R4 R5 R6 R7 R8] Hp Ho Hf Hs Hsw He Hef Hd Hhf Hl Hm Hr.
  split.
  - congruence.
  - now rewrite Hf.
  - now rewrite Hs.
  - assumption.
  - assumption.
  - rewrite Hp, Hsw.
    destruct (hw_device_context w) as [d|], (hw_device_context w') as [d'|];
      try (destruct Hd as [Hd1 Hd2]; (specialize (Hd1 eq_refl)
                                      || specialize (Hd2 eq_refl));
           discriminate).
    + destruct R6 as (? & ? & ?). repeat split; auto.
      intros Hn. apply Hhf in Hn. contradiction.
    + destruct R6 as (? & ? & ?). repeat split; auto. now apply Hhf.
  - intros st Hst. rewrite Hs in Hst.
    rewrite Hl, muxer_view_app, encoder_outputs_app, (R7 st Hst), (Hm st Hst).
    now rewrite !map_app.
  - now rewrite Hl, released_app, R8, Hr.
Qed.

(** *** The three routes of [add_frame] *)

Lemma add_frame_hw (w : Writer) dev ef hwf st enc pixels msec y_invert :
  hw_device_context w = Some dev -> encoder_frame w = Some ef ->
  hw_frame w = Some hwf -> stream w = Some st -> encoder w = Some enc ->
  add_frame E pixels msec y_invert w =
    Ok (hw_upload E dev ef hwf st enc pixels msec y_invert w).
Proof.
  intros Hd Hef Hhf Hs He. unfold add_frame, hw_upload, layout.
  destruct (y_inversion (width (params w)) (height (params w)) pixels y_invert)
    as [origin stride].
  rewrite Hd, Hef. writer_simpl. rewrite Hhf. writer_simpl.
  destruct (av_hwframe_transfer_data E dev hwf
              (frame_set_plane0 origin stride ef)) as [dev' ret].
  writer_simpl.
  destruct (ret =? 0); cbn [negb bind fst snd]; [|reflexivity].
  cbn [output_frame_get output_frame_set]. writer_simpl. rewrite Hhf.
  writer_simpl.
  erewrite encode_video_ok by (writer_simpl; eassumption).
  reflexivity.
Qed.

Lemma add_frame_zero_copy (w : Writer) ef st enc pixels msec y_invert :
  hw_device_context w = None -> stream w = Some st ->
  get_input_format (format (params w)) = cc_pix_fmt (st_codec st) ->
  encoder_frame w = Some ef -> encoder w = Some enc ->
  add_frame E pixels msec y_invert w =
    Ok (zero_copy E ef st enc pixels msec y_invert w).
Proof.
  intros Hd Hs Hfmt Hef He. unfold add_frame, zero_copy, layout.
  destruct (y_inversion (width (params w)) (height (params w)) pixels y_invert)
    as [origin stride].
  rewrite Hd. unfold codecCtx. rewrite Hs. writer_simpl.
  rewrite Hfmt, pix_fmt_eqb_refl, Hef. writer_simpl.
  cbn [output_frame_get output_frame_set]. writer_simpl.
  erewrite encode_video_ok by (writer_simpl; eassumption).
  reflexivity.
Qed.

Lemma add_frame_sw_convert (w : Writer) ctx ef st enc pixels msec y_invert :
  hw_device_context w = None -> stream w = Some st ->
  get_input_format (format (params w)) <> cc_pix_fmt (st_codec st) ->
  swsCtx w = Some ctx ->
  encoder_frame w = Some ef -> encoder w = Some enc ->
  add_frame E pixels msec y_invert w =
    Ok (sw_convert E ef st enc pixels msec y_invert w).
Proof.
  intros Hd Hs Hfmt Hsw Hef He. unfold add_frame, sw_convert, layout.
  destruct (y_inversion (width (params w)) (height (params w)) pixels y_invert)
    as [origin stride].
  rewrite Hd. unfold codecCtx. rewrite Hs. writer_simpl.
  apply pix_fmt_eqb_neq in Hfmt. rewrite Hfmt, Hsw, Hef. writer_simpl.
  cbn [output_frame_get output_frame_set]. writer_simpl. rewrite Hef.
  writer_simpl.
  erewrite encode_video_ok by (writer_simpl; eassumption).
  reflexivity.
Qed.

Lemma encoded_fields (w : Writer) st enc frame :
  let w' := encoded E st enc frame w in
  params w' = params w /\ outputFmt w' = outputFmt w /\
  fmtCtx w' = fmtCtx w /\ stream w' = stream w /\ swsCtx w' = swsCtx w /\
  hw_device_context w' = hw_device_context w /\
  hw_frame_context w' = hw_frame_context w /\
  encoder_frame w' = encoder_frame w /\ hw_frame w' = hw_frame w /\
  encoder w' = Some (fst (avcodec_encode_video2 E enc frame)).
Proof.
  unfold encoded.
  destruct (avcodec_encode_video2 E enc frame) as [enc' [p|]]; writer_simpl;
    repeat split; reflexivity.
Qed.

Lemma add_frame_events_muxer (w : Writer) pixels msec y_invert st :
  stream w = Some st ->
  muxer_view (add_frame_events E w pixels msec y_invert) =
    map EvWritePacket
      (map (written_packet st)
         (encoder_outputs (add_frame_events E w pixels msec y_invert))).
Proof.
  intros Hs. unfold add_frame_events. rewrite Hs.
  destruct (encoder w) as [enc|]; [|reflexivity].
  destruct (encoder_frame w) as [ef|]; [|reflexivity].
  destruct (hw_device_context w) as [dev|].
  - destruct (hw_frame w) as [hwf|]; [|reflexivity].
    cbv zeta.
    destruct (snd (av_hwframe_transfer_data E dev hwf _) =? 0);
      [|reflexivity].
    change (muxer_view (?e :: ?l)) with (muxer_view l).
    change (encoder_outputs (EvTransfer ?a ?b :: ?l)) with (encoder_outputs l).
    apply encode_events_muxer.
  - destruct (pix_fmt_eqb _ _).
    + apply encode_events_muxer.
    + cbv zeta.
      change (muxer_view (?e :: ?l)) with (muxer_view l).
      change (encoder_outputs (EvSwsScale ?a ?b ?c ?d :: ?l))
        with (encoder_outputs l).
      apply encode_events_muxer.
Qed.

Lemma add_frame_events_released (w : Writer) pixels msec y_invert :
  released (add_frame_events E w pixels msec y_invert) = [].
Proof.
  unfold add_frame_events.
  destruct (stream w) as [st|]; [|reflexivity].
  destruct (encoder w) as [enc|]; [|reflexivity].
  destruct (encoder_frame w) as [ef|]; [|reflexivity].
  destruct (hw_device_context w) as [dev|].
  - destruct (hw_frame w) as [hwf|]; [|reflexivity].
    cbv zeta.
    destruct (snd (av_hwframe_transfer_data E dev hwf _) =? 0);
      [|reflexivity].
    change (released (EvTransfer ?a ?b :: ?l)) with (released l).
    apply encode_events_released.
  - destruct (pix_fmt_eqb _ _).
    + apply encode_events_released.
    + cbv zeta.
      change (released (EvSwsScale ?a ?b ?c ?d :: ?l)) with (released l).
      apply encode_events_released.
Qed.

Lemma not_none_some {A : Type} (o : option A) :
  o <> None -> exists a, o = Some a.
Proof. destruct o; [eauto | congruence]. Qed.

(** Rewrites the members and the log of an [encoded] writer in the goal
    to those of the writer it was made from. *)
Ltac through_encoded :=
  try match goal with
      | |- context [encoded E ?s ?e ?f ?x] =>
          let HF := fresh "HF" in
          let HL := fresh "HL" in
          pose proof (encoded_fields x s e f) as HF;
          pose proof (encoded_log x s e f) as HL;
          cbv zeta in HF;
          destruct HF as (?F & ?F & ?F & ?F & ?F & ?F & ?F & ?F & ?F & ?F);
          repeat match goal with
                 | H : _ (encoded E s e f x) = _ |- _ => rewrite ?H; clear H
                 end
      end.

(** [add_frame] on a ready writer returns, and the writer stays ready. *)
Lemma add_frame_ready (w : Writer) pixels msec y_invert :
  ready w ->
  exists w',
    add_frame E pixels msec y_invert w = Ok w' /\
    ready w' /\
    params w' = params w /\ stream w' = stream w /\
    swsCtx w' = swsCtx w /\ outputFmt w' = outputFmt w /\
    fmtCtx w' = fmtCtx w /\
    log w' = log w ++ add_frame_events E w pixels msec y_invert.
Proof.
  intros R. pose proof R as [R1 R2 R3 R4 R5 R6 R7 R8].
  destruct R3 as (st & Hs).
  apply not_none_some in R4 as [enc He].
  apply not_none_some in R5 as [ef Hef].
  assert (Hgoal : forall w' : Writer,
             (params w' = params w /\ outputFmt w' = outputFmt w /\
              fmtCtx w' = fmtCtx w /\ stream w' = stream w /\
              swsCtx w' = swsCtx w) ->
             encoder w' <> None -> encoder_frame w' <> None ->
             (hw_device_context w' = None <-> hw_device_context w = None) ->
             (hw_frame w' = None <-> hw_frame w = None) ->
             log w' = log w ++ add_frame_events E w pixels msec y_invert ->
             ready w' /\
             params w' = params w /\ stream w' = stream w /\
             swsCtx w' = swsCtx w /\ outputFmt w' = outputFmt w /\
             fmtCtx w' = fmtCtx w /\
             log w' = log w ++ add_frame_events E w pixels msec y_invert).
  { intros w' (Hp & Ho & Hf & Hst & Hsw) Hen Hfr Hd Hhf Hl.
    split; [|tauto].
    apply ready_step with (w := w)
      (evs := add_frame_events E w pixels msec y_invert); auto.
    - intros st'. apply add_frame_events_muxer.
    - apply add_frame_events_released. }
  destruct (hw_device_context w) as [dev|] eqn:Hd.
  - destruct R6 as (_ & Hhf & _).
    apply not_none_some in Hhf as [hwf Hhwf].
    exists (hw_upload E dev ef hwf st enc pixels msec y_invert w).
    split; [now apply add_frame_hw|].
    apply Hgoal; unfold add_frame_events; rewrite ?Hs, ?He, ?Hef, ?Hd, ?Hhwf;
      unfold hw_upload; cbv zeta;
      destruct (snd (av_hwframe_transfer_data E dev hwf _) =? 0);
      through_encoded; writer_simpl; rewrite ?Hd, ?Hhwf, ?Hef, ?He;
      rewrite <- ?app_assoc;
      solve [tauto | congruence | reflexivity | split; congruence].
  - destruct R6 as (_ & Hhf & Hsw).
    apply not_none_some in Hsw as [ctx Hsw].
    destruct (pix_fmt_eqb (get_input_format (format (params w)))
                (cc_pix_fmt (st_codec st))) eqn:Hfmt.
    + apply pix_fmt_eqb_eq in Hfmt.
      exists (zero_copy E ef st enc pixels msec y_invert w).
      split; [now apply add_frame_zero_copy|].
      apply pix_fmt_eqb_eq in Hfmt.
      apply Hgoal; unfold add_frame_events;
        rewrite ?Hs, ?He, ?Hef, ?Hd, ?Hfmt;
        unfold zero_copy; cbv zeta;
        through_encoded; writer_simpl; rewrite ?Hd, ?Hhf, ?Hef, ?He;
        rewrite <- ?app_assoc;
        solve [tauto | congruence | reflexivity | split; congruence].
    + pose proof Hfmt as Hne. apply pix_fmt_eqb_neq in Hne.
      exists (sw_convert E ef st enc pixels msec y_invert w).
      split; [now apply add_frame_sw_convert with ctx|].
      apply Hgoal; unfold add_frame_events;
        rewrite ?Hs, ?He, ?Hef, ?Hd, ?Hfmt;
        unfold sw_convert; cbv zeta;
        through_encoded; writer_simpl; rewrite ?Hd, ?Hhf, ?Hef, ?He;
        rewrite <- ?app_assoc;
        solve [tauto | congruence | reflexivity | split; congruence].
Qed.

Lemma add_frames_ready (frames : list (Z * Z * bool)) (w : Writer) :
  ready w ->
  exists w',
    add_frames E frames w = Ok w' /\
    ready w' /\
    params w' = params w /\ stream w' = stream w /\
    swsCtx w' = swsCtx w /\ outputFmt w' = outputFmt w /\
    fmtCtx w' = fmtCtx w /\
    exists evs, log w' = log w ++ evs.
Proof.
  revert w. induction frames as [|[[pixels msec] y_invert] rest IH];
    intros w R; cbn [add_frames].
  - exists w. repeat split; try assumption; try apply R.
    exists []. now rewrite app_nil_r.
  - destruct (add_frame_ready w pixels msec y_invert R)
      as (w1 & Hadd & R1 & Hp & Hs & Hsw & Ho & Hf & Hl).
    rewrite Hadd. cbn [bind].
    destruct (IH w1 R1) as (w2 & Hadd2 & R2 & Hp2 & Hs2 & Hsw2 & Ho2 & Hf2
                            & evs & Hl2).
    exists w2. rewrite Hadd2.
    repeat split; try apply R2; try congruence.
    eexists. rewrite Hl2, Hl, <- app_assoc. reflexivity.
Qed.

(** *** Draining *)

Lemma drain_events_cons st p ps :
  drain_events st (p :: ps) =
    EvEncode None (Some p) :: EvWritePacket (written_packet st p)
      :: drain_events st ps.
Proof. reflexivity. Qed.

Lemma drain_events_muxer st ps :
  muxer_view (drain_events st ps) =
    map EvWritePacket (map (written_packet st) ps).
Proof.
  induction ps as [|p ps IH]; [reflexivity|].
  rewrite drain_events_cons. cbn. now rewrite <- IH.
Qed.

Lemma drain_events_outputs st ps :
  encoder_outputs (drain_events st ps) = ps.
Proof.
  induction ps as [|p ps IH]; [reflexivity|].
  rewrite drain_events_cons. cbn. now rewrite <- IH at 2.
Qed.

Lemma drain_events_inputs st ps :
  encoder_inputs (drain_events st ps) = [].
Proof.
  induction ps as [|p ps IH]; [reflexivity|].
  rewrite drain_events_cons. cbn. exact IH.
Qed.

Lemma drain_events_released st ps :
  released (drain_events st ps) = [].
Proof.
  induction ps as [|p ps IH]; [reflexivity|].
  rewrite drain_events_cons. cbn. exact IH.
Qed.

Section Drain.

(** The encoder holds finitely many packets back: some measure of its
    state falls with every packet a flushing call gives. *)
Variable pending : EncState -> nat.
Hypothesis flush_decreases :
  forall enc enc' p,
    avcodec_encode_video2 E enc None = (enc', Some p) ->
    (pending enc' < pending enc)%nat.

Lemma drain_ok (fuel : nat) :
  forall (w : Writer) st enc,
    stream w = Some st -> encoder w = Some enc ->
    (pending enc < fuel)%nat ->
    exists w' ps enc',
      drain E fuel w = Ok w' /\
      flushes E enc ps enc' /\
      encoder w' = Some enc' /\
      same_handles w w' /\
      log w' = log w ++ drain_events st ps.
Proof.
  induction fuel as [|fuel IH]; intros w st enc Hs He Hlt; [lia|].
  cbn [drain]. rewrite (encode_video_ok w st enc None He Hs). cbn [bind fst snd].
  pose proof (encoded_fields w st enc None) as HF. cbv zeta in HF.
  pose proof (encoded_log w st enc None) as HL.
  unfold got_output. unfold encode_events in HL.
  destruct (avcodec_encode_video2 E enc None) as [enc1 [p|]] eqn:Hflush;
    cbn [fst snd] in *.
  - destruct HF as (F1 & F2 & F3 & F4 & F5 & F6 & F7 & F8 & F9 & F10).
    destruct (IH (encoded E st enc None w) st enc1) as
      (w' & ps & enc' & Hd & Hfl & He' & Hsame & Hlog).
    + congruence.
    + assumption.
    + apply flush_decreases in Hflush. lia.
    + exists w', (p :: ps), enc'. split; [exact Hd|].
      split; [econstructor; eassumption|]. split; [exact He'|].
      split.
      * unfold same_handles in *. intuition congruence.
      * rewrite Hlog, HL, <- app_assoc. reflexivity.
  - exists (encoded E st enc None w), [], enc1.
    split; [reflexivity|]. split; [now constructor|].
    unfold same_handles. intuition congruence.
Qed.

End Drain.

Lemma drain_more_fuel (fuel extra : nat) (w w' : Writer) :
  drain E fuel w = Ok w' -> drain E (fuel + extra) w = Ok w'.
Proof.
  revert w. induction fuel as [|fuel IH]; intros w; cbn [drain Nat.add];
    [discriminate|].
  destruct (encode_video E None w) as [[w1 got]| | |]; cbn [bind fst snd];
    try discriminate.
  destruct got; auto.
Qed.

(** *** The destructor *)

Lemma FrameWriter_dtor_ok (pending : EncState -> nat) :
  (forall enc enc' p,
      avcodec_encode_video2 E enc None = (enc', Some p) ->
      (pending enc' < pending enc)%nat) ->
  forall (fuel : nat) (w : Writer) st enc,
    ready w -> stream w = Some st -> encoder w = Some enc ->
    (pending enc < fuel)%nat ->
    exists w' ps enc',
      FrameWriter_dtor E fuel w = Ok w' /\
      flushes E enc ps enc' /\
      log w' = log w ++ drain_events st ps
                 ++ EvWriteTrailer :: map EvRelease (dtor_releases w).
Proof.
  intros Hflush fuel w st enc R Hs He Hlt.
  destruct (drain_ok pending Hflush fuel w st enc Hs He Hlt)
    as (w1 & ps & enc' & Hd & Hfl & He1 & Hsame & Hlog).
  destruct Hsame as (S1 & S2 & S3 & S4 & S5 & S6 & S7 & S8 & S9).
  destruct R as [R1 R2 R3 R4 R5 R6 R7 R8].
  destruct R2 as (ctx & Hctx & Hpb).
  apply not_none_some in R1 as [ofmt Hofmt].
  apply not_none_some in R5 as [ef Hef].
  unfold FrameWriter_dtor, dtor_releases. rewrite Hd, Hofmt. cbn [bind].
  destruct (swsCtx w) as [sws|] eqn:Hsw;
    destruct (Z.land (of_flags ofmt) AVFMT_NOFILE =? 0) eqn:Hnofile;
    repeat progress
      (writer_simpl;
       rewrite ?S2, ?S3, ?S4, ?S5, ?S8, ?Hctx, ?Hofmt, ?Hs, ?He1, ?Hef, ?Hpb,
         ?Hnofile);
    (eexists; exists ps, enc'; split; [reflexivity|]; split; [exact Hfl|]);
    writer_simpl; rewrite Hlog, <- !app_assoc; reflexivity.
Qed.

End Session.

(** ** Vertical flip *)

Lemma wrap_int_small (z : Z) : - 2 ^ 31 <= z < 2 ^ 31 -> wrap_int z = z.
Proof. intros H. unfold wrap_int. rewrite Z.mod_small; lia. Qed.

Lemma rev_map_seq {A : Type} (f : nat -> A) (n : nat) :
  rev (map f (seq 0 n)) = map (fun i => f (n - 1 - i)%nat) (seq 0 n).
Proof.
  induction n as [|n IH]; [reflexivity|].
  rewrite seq_S at 1. rewrite map_app, rev_app_distr. cbn [map rev app Nat.add].
  rewrite IH. cbn [seq map]. f_equal.
  - f_equal. lia.
  - rewrite <- seq_shift, map_map. apply map_ext_in.
    intros i _. f_equal. lia.
Qed.

Lemma y_inversion_exact (width height pixels : Z) :
  0 < width -> 0 < height -> 4 * width * height <= INT_MAX ->
  y_inversion width height pixels false = (pixels, 4 * width) /\
  y_inversion width height pixels true =
    (pixels + 4 * width * (height - 1), - (4 * width)).
Proof.
  unfold INT_MAX. intros Hw Hh Hfit. unfold y_inversion.
  assert (H4w : wrap_int (4 * width) = 4 * width)
    by (apply wrap_int_small; nia).
  assert (Hh1 : wrap_int (height - 1) = height - 1)
    by (apply wrap_int_small; nia).
  rewrite H4w, Hh1. split; [reflexivity|].
  rewrite !wrap_int_small by nia. f_equal. lia.
Qed.

Lemma rows_presented_flip (mem : Z -> Byte.byte) (width height pixels : Z) :
  0 < width -> 0 < height ->
  rows_presented mem (pixels + 4 * width * (height - 1), - (4 * width))
    (Z.to_nat height) (Z.to_nat (4 * width)) =
  rev (rows_presented mem (pixels, 4 * width)
         (Z.to_nat height) (Z.to_nat (4 * width))).
Proof.
  intros Hw Hh. unfold rows_presented. rewrite rev_map_seq.
  apply map_ext_in. intros i Hi. apply in_seq in Hi. cbn [fst snd].
  f_equal. rewrite !Nat2Z.inj_sub by lia. rewrite Z2Nat.id by lia. lia.
Qed.

(** ** Whole sessions *)

Lemma muxer_view_releases (rs : list Resource) :
  muxer_view (map EvRelease rs) = [].
Proof. induction rs; [reflexivity | exact IHrs]. Qed.

Lemma encoder_outputs_releases (rs : list Resource) :
  encoder_outputs (map EvRelease rs) = [].
Proof. induction rs; [reflexivity | exact IHrs]. Qed.

Lemma released_releases (rs : list Resource) :
  released (map EvRelease rs) = rs.
Proof. induction rs as [|r rs IH]; [reflexivity | cbn; now rewrite <- IH at 2]. Qed.

Lemma acquired_releases (rs : list Resource) :
  acquired (map EvRelease rs) = [].
Proof. induction rs; [reflexivity | exact IHrs]. Qed.

(** The stream the constructor leaves behind is the stream it configured
    and handed to the muxer, with the time base the muxer gave back when
    the header was written. *)
Lemma FrameWriter_ctor_stream {EncState DevState AVDictionary : Type}
  (E : Engine EncState DevState AVDictionary)
  (p : FrameWriterParams) (w : FrameWriter EncState DevState) :
  FrameWriter_ctor E p = Ok w ->
  exists ctx hint,
    fmtCtx w = Some ctx /\
    st_time_base hint = mkRational 1 FPS /\
    fst (avformat_write_header E ctx hint) = 0 /\
    stream w =
      Some (st_set_time_base (snd (avformat_write_header E ctx hint)) hint).
Proof.
  intros H. run_call H.
  all: repeat match goal with
              | Hn : negb _ = false |- _ => apply negb_false_iff in Hn
              | Hz : (_ =? 0) = true |- _ => apply Z.eqb_eq in Hz; subst
              end.
  all: match goal with
       | Hh : avformat_write_header _ ?ctx ?hint = _ |- _ =>
           exists ctx, hint; rewrite Hh; repeat split; reflexivity
       end.
Qed.

(** After the constructor and any frames the writer is ready. *)
Lemma session_ready {EncState DevState AVDictionary : Type}
  (E : Engine EncState DevState AVDictionary)
  (p : FrameWriterParams) (frames : list (Z * Z * bool))
  (w0 w1 : FrameWriter EncState DevState) :
  FrameWriter_ctor E p = Ok w0 ->
  add_frames E frames w0 = Ok w1 ->
  constructed E p w0 /\ ready w1 /\
  params w1 = params w0 /\ stream w1 = stream w0 /\
  swsCtx w1 = swsCtx w0 /\ outputFmt w1 = outputFmt w0 /\
  exists evs, log w1 = log w0 ++ evs.
Proof.
  intros Hc Ha. pose proof (FrameWriter_ctor_constructed E p w0 Hc) as C.
  destruct (add_frames_ready E frames w0 (ctor_ready _ _ _ C))
    as (w1' & Ha' & R & Hp & Hs & Hsw & Ho & Hf & Hl).
  rewrite Ha in Ha'. injection Ha' as <-. tauto.
Qed.

Lemma session_returns {EncState DevState AVDictionary : Type}
  (E : Engine EncState DevState AVDictionary)
  (p : FrameWriterParams) (frames : list (Z * Z * bool))
  (w0 : FrameWriter EncState DevState) :
  FrameWriter_ctor E p = Ok w0 ->
  exists w1, add_frames E frames w0 = Ok w1.
Proof.
  intros Hc. pose proof (FrameWriter_ctor_constructed E p w0 Hc) as C.
  destruct (add_frames_ready E frames w0 (ctor_ready _ _ _ C))
    as (w1 & Ha & _). eauto.
Qed.

(** The log of a whole session. *)
Lemma session_log {EncState DevState AVDictionary : Type}
  (E : Engine EncState DevState AVDictionary) (pending : EncState -> nat)
  (p : FrameWriterParams) (frames : list (Z * Z * bool))
  (w0 w1 : FrameWriter EncState DevState) :
  (forall enc enc' pk,
      avcodec_encode_video2 E enc None = (enc', Some pk) ->
      (pending enc' < pending enc)%nat) ->
  FrameWriter_ctor E p = Ok w0 ->
  add_frames E frames w0 = Ok w1 ->
  exists st enc,
    stream w1 = Some st /\ encoder w1 = Some enc /\
    forall fuel, (pending enc < fuel)%nat ->
      exists w2 ps enc',
        FrameWriter_dtor E fuel w1 = Ok w2 /\
        flushes E enc ps enc' /\
        log w2 = log w1 ++ drain_events st ps
                   ++ EvWriteTrailer :: map EvRelease (dtor_releases w1) /\
        encoder_outputs (log w2) = encoder_outputs (log w1) ++ ps /\
        muxer_view (log w2) =
          EvWriteHeader
            :: map EvWritePacket
                 (map (written_packet st) (encoder_outputs (log w2)))
            ++ [EvWriteTrailer].
Proof.
  intros Hflush Hc Ha.
  destruct (session_ready E p frames w0 w1 Hc Ha) as (_ & R & _).
  pose proof R as [R1 R2 R3 R4 R5 R6 R7 R8].
  destruct R3 as (st & Hs).
  apply not_none_some in R4 as [enc He].
  exists st, enc. repeat split; try assumption.
  intros fuel Hlt.
  destruct (FrameWriter_dtor_ok E pending Hflush fuel w1 st enc R Hs He Hlt)
    as (w2 & ps & enc' & Hd & Hfl & Hlog).
  assert (Hout : encoder_outputs (log w2) = encoder_outputs (log w1) ++ ps).
  { rewrite Hlog, !encoder_outputs_app, drain_events_outputs.
    change (encoder_outputs (EvWriteTrailer :: ?l)) with (encoder_outputs l).
    now rewrite encoder_outputs_releases, app_nil_r. }
  exists w2, ps, enc'. repeat split; try assumption.
  rewrite Hout, Hlog, !muxer_view_app, (R7 st Hs), drain_events_muxer.
  change (muxer_view (EvWriteTrailer :: ?l)) with (EvWriteTrailer :: muxer_view l).
  rewrite muxer_view_releases, !map_app. cbn [app].
  now rewrite <- app_assoc.
Qed.

(** C1. In every session whose encoder holds finitely many packets back,
    the destructor calls the encoder with no input until a call reports
    no packet, writes each packet those calls report through the same
    [finish_frame] as [add_frame] does, and writes the trailer after the
    last of them; over the whole session the container receives the
    header once, then every packet the encoder reported, then the
    trailer once. *)
Theorem session_header_packets_trailer
  {EncState DevState AVDictionary : Type}
  (E : Engine EncState DevState AVDictionary) (pending : EncState -> nat)
  (p : FrameWriterParams) (frames : list (Z * Z * bool))
  (w0 : FrameWriter EncState DevState) :
  (forall enc enc' pk,
      avcodec_encode_video2 E enc None = (enc', Some pk) ->
      (pending enc' < pending enc)%nat) ->
  FrameWriter_ctor E p = Ok w0 ->
  exists w1 st enc,
    add_frames E frames w0 = Ok w1 /\
    stream w1 = Some st /\ encoder w1 = Some enc /\
    muxer_view (log w1) =
      EvWriteHeader
        :: map EvWritePacket
             (map (written_packet st) (encoder_outputs (log w1))) /\
    forall fuel, (pending enc < fuel)%nat ->
      exists w2 ps enc',
        FrameWriter_dtor E fuel w1 = Ok w2 /\
        flushes E enc ps enc' /\
        log w2 = log w1 ++ drain_events st ps
                   ++ EvWriteTrailer :: map EvRelease (dtor_releases w1) /\
        encoder_outputs (log w2) = encoder_outputs (log w1) ++ ps /\
        muxer_view (log w2) =
          EvWriteHeader
            :: map EvWritePacket
                 (map (written_packet st) (encoder_outputs (log w2)))
            ++ [EvWriteTrailer].
Proof.
  intros Hflush Hc.
  destruct (session_returns E p frames w0 Hc) as (w1 & Ha).
  destruct (session_log E pending p frames w0 w1 Hflush Hc Ha)
    as (st & enc & Hs & He & Hd).
  destruct (session_ready E p frames w0 w1 Hc Ha) as (_ & R & _).
  exists w1, st, enc. repeat split; try assumption.
  now apply (ready_muxer _ R).
Qed.

(** The concrete encoder gives up one held packet per flushing call. *)
Lemma demo_flush_shrinks (enc enc' : list AVPacket) (pk : AVPacket) :
  avcodec_encode_video2 Demo.engine enc None = (enc', Some pk) ->
  (List.length enc' < List.length enc)%nat.
Proof.
  destruct enc as [|q rest]; cbn; intros H; [discriminate H|].
  injection H as <- _. lia.
Qed.

Lemma session_header_packets_trailer_witness :
  exists w1 st enc,
    add_frames Demo.engine Runs.frames Runs.sw_writer = Ok w1 /\
    stream w1 = Some st /\ encoder w1 = Some enc /\
    muxer_view (log w1) =
      EvWriteHeader
        :: map EvWritePacket
             (map (written_packet st) (encoder_outputs (log w1))) /\
    forall fuel, (List.length enc < fuel)%nat ->
      exists w2 ps enc',
        FrameWriter_dtor Demo.engine fuel w1 = Ok w2 /\
        flushes Demo.engine enc ps enc' /\
        log w2 = log w1 ++ drain_events st ps
                   ++ EvWriteTrailer :: map EvRelease (dtor_releases w1) /\
        encoder_outputs (log w2) = encoder_outputs (log w1) ++ ps /\
        muxer_view (log w2) =
          EvWriteHeader
            :: map EvWritePacket
                 (map (written_packet st) (encoder_outputs (log w2)))
            ++ [EvWriteTrailer].
Proof.
  apply (session_header_packets_trailer Demo.engine (@List.length AVPacket)
           Runs.sw_params Runs.frames Runs.sw_writer).
  - exact demo_flush_shrinks.
  - vm_compute. reflexivity.
Defined.

(** ** The hardware route *)

(** C3 as the claim has it: a non-empty [hw_device] activates the
    hardware path.  With [hw_device] set and codec "libx264" the
    constructor takes the software route. *)
Lemma hw_device_alone_counterexample :
  hw_device Runs.sw_params <> EmptyString /\
  FrameWriter_ctor Demo.engine Runs.sw_params = Ok Runs.sw_writer /\
  hw_device_context Runs.sw_writer = None /\
  hw_frame_context Runs.sw_writer = None /\
  option_map cc_pix_fmt (codecCtx Runs.sw_writer) = Some AV_PIX_FMT_YUV420P /\
  acquired (log Runs.sw_writer) =
    [RFormatContext; RScaler; RCodec; RIO; REncoderFrame].
Proof.
  split; [discriminate|]. vm_compute. repeat split; reflexivity.
Qed.

(** C3, amended.  The constructor takes the hardware route exactly when
    the codec name contains "vaapi"; [hw_device] is the device name handed
    to [av_hwdevice_ctx_create].  On that route the codec's pixel format
    is [AV_PIX_FMT_VAAPI] whatever the codec advertises, the frame pool
    takes the first valid format of the device constraints with NV12 on
    the CPU side, and no scaler is made; on the other route the codec's
    pixel format is the one [choose_sw_format] picks. *)
Theorem hardware_route_by_codec_name
  {EncState DevState AVDictionary : Type}
  (E : Engine EncState DevState AVDictionary)
  (p : FrameWriterParams) (w : FrameWriter EncState DevState) :
  FrameWriter_ctor E p = Ok w ->
  if str_contains (codec p) "vaapi"
  then
    exists dev fmt0 formats,
      av_hwdevice_ctx_create E "vaapi" (hw_device p) = (0, dev) /\
      av_hwdevice_get_hwframe_constraints E dev = Some (fmt0 :: formats) /\
      hw_device_context w = Some dev /\
      hw_frame_context w =
        Some (mkHWFrames (width p) (height p) fmt0 AV_PIX_FMT_NV12) /\
      option_map cc_pix_fmt (codecCtx w) = Some AV_PIX_FMT_VAAPI /\
      swsCtx w = None
  else
    hw_device_context w = None /\ hw_frame_context w = None /\
    exists c fmt,
      avcodec_find_encoder_by_name E (codec p) = Some c /\
      choose_sw_format (format p) c = Some fmt /\
      option_map cc_pix_fmt (codecCtx w) = Some fmt.
Proof.
  intros Hc. pose proof (FrameWriter_ctor_constructed E p w Hc) as C.
  destruct (str_contains (codec p) "vaapi") eqn:Hv.
  - exact (ctor_hw _ _ _ C Hv).
  - destruct (ctor_sw _ _ _ C Hv) as (c & fmt & ctx & H1 & H2 & H3 & H4 & H5
                                      & H6 & H7 & H8).
    eauto 10.
Qed.

Lemma hardware_route_by_codec_name_witness :
  exists dev fmt0 formats,
    av_hwdevice_ctx_create Demo.engine "vaapi" (hw_device Runs.hw_params)
      = (0, dev) /\
    av_hwdevice_get_hwframe_constraints Demo.engine dev
      = Some (fmt0 :: formats) /\
    hw_device_context Runs.hw_writer = Some dev /\
    hw_frame_context Runs.hw_writer =
      Some (mkHWFrames (width Runs.hw_params) (height Runs.hw_params) fmt0
              AV_PIX_FMT_NV12) /\
    option_map cc_pix_fmt (codecCtx Runs.hw_writer) = Some AV_PIX_FMT_VAAPI /\
    swsCtx Runs.hw_writer = None.
Proof.
  apply (hardware_route_by_codec_name Demo.engine Runs.hw_params
           Runs.hw_writer).
  vm_compute. reflexivity.
Defined.

(** ** The scaler *)

Lemma encode_events_no_scale {EncState DevState AVDictionary : Type}
  (E : Engine EncState DevState AVDictionary) st enc frame :
  sws_scale_calls (encode_events E st enc frame) = 0%nat.
Proof.
  unfold encode_events.
  destruct (snd (avcodec_encode_video2 E enc frame)); reflexivity.
Qed.

Lemma encode_events_inputs {EncState DevState AVDictionary : Type}
  (E : Engine EncState DevState AVDictionary) st enc f :
  encoder_inputs (encode_events E st enc (Some f)) = [f].
Proof.
  unfold encode_events.
  destruct (snd (avcodec_encode_video2 E enc (Some f))); reflexivity.
Qed.

(** C8 as the claim has it: the scaler is made only when the formats
    differ.  The codec "libx264rgb" takes the native BGR0 layout, the
    chosen format equals the input format, and the scaler is made. *)
Lemma scaler_made_when_formats_match_counterexample :
  FrameWriter_ctor Demo.engine Runs.rgb_params = Ok Runs.rgb_writer /\
  hw_device_context Runs.rgb_writer = None /\
  option_map cc_pix_fmt (codecCtx Runs.rgb_writer) =
    Some (get_input_format (format Runs.rgb_params)) /\
  swsCtx Runs.rgb_writer =
    Some (mkSws 4 3 AV_PIX_FMT_BGR0 4 3 AV_PIX_FMT_BGR0) /\
  acquired (log Runs.rgb_writer) =
    [RFormatContext; RScaler; RCodec; RIO; REncoderFrame].
Proof. vm_compute. repeat split; reflexivity. Qed.

(** C8, amended.  The constructor makes the scaler exactly when the
    hardware route is not taken, whether or not the formats differ.  On
    that route [add_frame] calls [sws_scale] once when the native format
    differs from the codec's, and not at all when they are equal: then
    the frame handed to the encoder is [encoder_frame] pointing at the
    caller's pixels. *)
Theorem scaler_made_on_software_route
  {EncState DevState AVDictionary : Type}
  (E : Engine EncState DevState AVDictionary)
  (p : FrameWriterParams) (frames : list (Z * Z * bool))
  (w0 w1 : FrameWriter EncState DevState) :
  FrameWriter_ctor E p = Ok w0 ->
  add_frames E frames w0 = Ok w1 ->
  (swsCtx w0 <> None <-> str_contains (codec p) "vaapi" = false) /\
  (In RScaler (acquired (log w0)) <-> str_contains (codec p) "vaapi" = false) /\
  (str_contains (codec p) "vaapi" = false ->
   exists st ef enc,
     stream w1 = Some st /\ encoder_frame w1 = Some ef /\
     encoder w1 = Some enc /\
     forall pixels msec y_invert,
       let lay := y_inversion (width p) (height p) pixels y_invert in
       let evs := add_frame_events E w1 pixels msec y_invert in
       if pix_fmt_eqb (get_input_format (format p)) (cc_pix_fmt (st_codec st))
       then
         add_frame E pixels msec y_invert w1 =
           Ok (zero_copy E ef st enc pixels msec y_invert w1) /\
         sws_scale_calls evs = 0%nat /\
         encoder_inputs evs =
           [frame_set_pts msec (frame_set_plane0 (fst lay) (snd lay) ef)]
       else
         add_frame E pixels msec y_invert w1 =
           Ok (sw_convert E ef st enc pixels msec y_invert w1) /\
         sws_scale_calls evs = 1%nat /\
         encoder_inputs evs = [frame_set_pts msec ef]).
Proof.
  intros Hc Ha.
  destruct (session_ready E p frames w0 w1 Hc Ha)
    as (C & R & Hp & Hs & Hsw & Ho & _).
  pose proof (ctor_params _ _ _ C) as Hparams.
  pose proof (ctor_acquired _ _ _ C) as Hacq.
  assert (Hsws : swsCtx w0 <> None <-> str_contains (codec p) "vaapi" = false).
  { destruct (str_contains (codec p) "vaapi") eqn:Hv.
    - destruct (ctor_hw _ _ _ C Hv) as (? & ? & ? & _ & _ & _ & _ & _ & Hn).
      rewrite Hn. split; congruence.
    - destruct (ctor_sw _ _ _ C Hv) as (? & ? & ? & _ & _ & _ & _ & Hn & _).
      rewrite Hn. split; congruence. }
  split; [exact Hsws|]. split.
  { rewrite Hacq. destruct (str_contains (codec p) "vaapi"); cbn;
      split; intros H; try congruence; try tauto.
    repeat destruct H as [H|H]; try discriminate H; contradiction. }
  intros Hv.
  pose proof R as [R1 R2 R3 R4 R5 R6 R7 R8].
  destruct R3 as (st & Hst).
  apply not_none_some in R4 as [enc He].
  apply not_none_some in R5 as [ef Hef].
  assert (Hcodec : codec (params w1) = codec p) by now rewrite Hp, Hparams.
  assert (Hfmt : format (params w1) = format p) by now rewrite Hp, Hparams.
  assert (Hwd : width (params w1) = width p) by now rewrite Hp, Hparams.
  assert (Hht : height (params w1) = height p) by now rewrite Hp, Hparams.
  destruct (hw_device_context w1) as [dev|] eqn:Hd.
  { destruct R6 as (Hv' & _). congruence. }
  destruct R6 as (_ & Hhf & Hctx). apply not_none_some in Hctx as [ctx Hctx].
  exists st, ef, enc. repeat split; try assumption.
  intros pixels msec y_invert. cbv zeta.
  unfold add_frame_events, layout. rewrite Hst, He, Hef, Hd, Hfmt, Hwd, Hht.
  destruct (pix_fmt_eqb (get_input_format (format p))
              (cc_pix_fmt (st_codec st))) eqn:Heq.
  - apply pix_fmt_eqb_eq in Heq. split; [|split].
    + apply add_frame_zero_copy; try assumption. now rewrite Hfmt.
    + apply encode_events_no_scale.
    + apply encode_events_inputs.
  - apply pix_fmt_eqb_neq in Heq. split; [|split].
    + apply add_frame_sw_convert with ctx; try assumption. now rewrite Hfmt.
    + unfold sws_scale_calls. cbn [filter is_sws_scale List.length].
      f_equal. apply encode_events_no_scale.
    + change (encoder_inputs (EvSwsScale ?a ?b ?c ?d :: ?l))
        with (encoder_inputs l).
      apply encode_events_inputs.
Qed.

Lemma scaler_made_on_software_route_witness :
  swsCtx Runs.rgb_writer <> None /\
  In RScaler (acquired (log Runs.rgb_writer)) /\
  exists st ef enc,
    stream Runs.rgb_after = Some st /\
    encoder_frame Runs.rgb_after = Some ef /\
    encoder Runs.rgb_after = Some enc /\
    forall pixels msec y_invert,
      let lay := y_inversion 4 3 pixels y_invert in
      let evs := add_frame_events Demo.engine Runs.rgb_after pixels msec
                   y_invert in
      if pix_fmt_eqb AV_PIX_FMT_BGR0 (cc_pix_fmt (st_codec st))
      then
        add_frame Demo.engine pixels msec y_invert Runs.rgb_after =
          Ok (zero_copy Demo.engine ef st enc pixels msec y_invert
                Runs.rgb_after) /\
        sws_scale_calls evs = 0%nat /\
        encoder_inputs evs =
          [frame_set_pts msec (frame_set_plane0 (fst lay) (snd lay) ef)]
      else
        add_frame Demo.engine pixels msec y_invert Runs.rgb_after =
          Ok (sw_convert Demo.engine ef st enc pixels msec y_invert
                Runs.rgb_after) /\
        sws_scale_calls evs = 1%nat /\
        encoder_inputs evs = [frame_set_pts msec ef].
Proof.
  destruct (scaler_made_on_software_route Demo.engine Runs.rgb_params
              Runs.frames Runs.rgb_writer Runs.rgb_after eq_refl eq_refl)
    as (H1 & H2 & H3).
  split; [apply H1; reflexivity|].
  split; [apply H2; reflexivity|].
  apply H3. reflexivity.
Defined.

(** ** A failed upload *)

(** C6. On the hardware route, when [av_hwframe_transfer_data] fails for
    a frame, [add_frame] returns after that call: the encoder is not
    called and nothing is written to the container, the encoder state
    and the container and frame handles are as before, every later
    [add_frame] still returns, and the next frame whose upload succeeds
    goes to the encoder. *)
Theorem transfer_failure_drops_frame
  {EncState DevState AVDictionary : Type}
  (E : Engine EncState DevState AVDictionary)
  (p : FrameWriterParams) (frames : list (Z * Z * bool))
  (w0 w1 : FrameWriter EncState DevState)
  (dev : DevState) (ef hwf : AVFrame) (pixels msec : Z) (y_invert : bool) :
  FrameWriter_ctor E p = Ok w0 ->
  add_frames E frames w0 = Ok w1 ->
  hw_device_context w1 = Some dev ->
  encoder_frame w1 = Some ef ->
  hw_frame w1 = Some hwf ->
  let lay := y_inversion (width p) (height p) pixels y_invert in
  let staged := frame_set_plane0 (fst lay) (snd lay) ef in
  let ret := snd (av_hwframe_transfer_data E dev hwf staged) in
  ret <> 0 ->
  exists w2,
    add_frame E pixels msec y_invert w1 = Ok w2 /\
    log w2 = log w1 ++ [EvTransfer staged ret] /\
    encoder w2 = encoder w1 /\ stream w2 = stream w1 /\
    fmtCtx w2 = fmtCtx w1 /\ hw_frame w2 = hw_frame w1 /\
    encoder_inputs (log w2) = encoder_inputs (log w1) /\
    muxer_view (log w2) = muxer_view (log w1) /\
    (forall more, exists w3, add_frames E more w2 = Ok w3) /\
    (forall pixels' msec' y_invert',
        let lay' := y_inversion (width p) (height p) pixels' y_invert' in
        let staged' := frame_set_plane0 (fst lay') (snd lay') staged in
        let dev' := fst (av_hwframe_transfer_data E dev hwf staged) in
        snd (av_hwframe_transfer_data E dev' hwf staged') = 0 ->
        exists w3,
          add_frame E pixels' msec' y_invert' w2 = Ok w3 /\
          encoder_inputs (log w3) =
            encoder_inputs (log w2) ++ [frame_set_pts msec' hwf]).
Proof.
  intros Hc Ha Hd Hef Hhf lay staged ret Hret.
  destruct (session_ready E p frames w0 w1 Hc Ha)
    as (C & R & Hp & Hs & Hsw & Ho & _).
  pose proof (ctor_params _ _ _ C) as Hparams.
  assert (Hwd : width (params w1) = width p) by now rewrite Hp, Hparams.
  assert (Hht : height (params w1) = height p) by now rewrite Hp, Hparams.
  pose proof R as [R1 R2 R3 R4 R5 R6 R7 R8].
  destruct R3 as (st & Hst).
  apply not_none_some in R4 as [enc He].
  pose proof (add_frame_hw E w1 dev ef hwf st enc pixels msec y_invert
                Hd Hef Hhf Hst He) as Hadd.
  unfold hw_upload, layout in Hadd. rewrite Hwd, Hht in Hadd.
  fold lay in Hadd. fold staged in Hadd. fold ret in Hadd.
  apply Z.eqb_neq in Hret. rewrite Hret in Hadd.
  set (w2 := log_event (EvTransfer staged ret)
               (set_hw_device_context
                  (Some (fst (av_hwframe_transfer_data E dev hwf staged)))
                  (set_encoder_frame (Some staged) w1))) in *.
  assert (R2' : ready w2).
  { destruct (add_frame_ready E w1 pixels msec y_invert R)
      as (w2' & Hadd' & R' & _).
    rewrite Hadd in Hadd'. injection Hadd' as <-. exact R'. }
  exists w2. split; [exact Hadd|].
  split; [reflexivity|]. split; [reflexivity|]. split; [reflexivity|].
  split; [reflexivity|]. split; [reflexivity|].
  split.
  { subst w2. writer_simpl. rewrite encoder_inputs_app. cbn.
    now rewrite app_nil_r. }
  split.
  { subst w2. writer_simpl. rewrite muxer_view_app. cbn.
    now rewrite app_nil_r. }
  split.
  { intros more.
    destruct (add_frames_ready E more w2 R2') as (w3 & H3 & _). eauto. }
  intros pixels' msec' y_invert' lay' staged' dev' Hok.
  pose proof (add_frame_hw E w2 dev' staged hwf st enc pixels' msec' y_invert'
                eq_refl eq_refl Hhf Hst He) as Hadd3.
  eexists. split; [exact Hadd3|].
  unfold hw_upload, layout.
  replace (width (params w2)) with (width p) by (symmetry; exact Hwd).
  replace (height (params w2)) with (height p) by (symmetry; exact Hht).
  fold lay'. fold staged'. rewrite Hok. cbn [Z.eqb].
  rewrite encoded_log. writer_simpl.
  rewrite !encoder_inputs_app, encode_events_inputs. cbn.
  now rewrite !app_nil_r.
Qed.

Lemma transfer_failure_drops_frame_witness :
  exists w2,
    add_frame Demo.engine 65536 1000 true Runs.hw_one = Ok w2 /\
    encoder w2 = encoder Runs.hw_one /\
    encoder_inputs (log w2) = encoder_inputs (log Runs.hw_one) /\
    muxer_view (log w2) = muxer_view (log Runs.hw_one) /\
    exists w3,
      add_frame Demo.engine 65536 2000 false w2 = Ok w3 /\
      map frame_pts (encoder_inputs (log w3)) = [0; 2000].
Proof.
  pose proof (transfer_failure_drops_frame Demo.engine Runs.hw_params
                [(65536, 0, false)] Runs.hw_writer Runs.hw_one
                _ _ _ 65536 1000 true
                eq_refl eq_refl eq_refl eq_refl eq_refl) as H.
  cbv zeta in H.
  destruct H as (w2 & Hadd & Hlog & He & _ & _ & _ & Hin & Hmux & _ & Hnext).
  - vm_compute. discriminate.
  - exists w2. repeat split; try assumption.
    destruct (Hnext 65536 2000 false) as (w3 & Hadd3 & Hin3).
    + vm_compute. reflexivity.
    + exists w3. split; [exact Hadd3|].
      rewrite Hin3, Hin. vm_compute. reflexivity.
Defined.

(** ** Timestamps *)

Lemma add_frame_events_inputs {EncState DevState AVDictionary : Type}
  (E : Engine EncState DevState AVDictionary)
  (w : FrameWriter EncState DevState) pixels msec y_invert :
  Forall (fun f => frame_pts f = msec)
    (encoder_inputs (add_frame_events E w pixels msec y_invert)).
Proof.
  unfold add_frame_events.
  destruct (stream w) as [st|]; [|constructor].
  destruct (encoder w) as [enc|]; [|constructor].
  destruct (encoder_frame w) as [ef|]; [|constructor].
  destruct (hw_device_context w) as [dev|].
  - destruct (hw_frame w) as [hwf|]; [|constructor]. cbv zeta.
    change (encoder_inputs (EvTransfer ?a ?b :: ?l)) with (encoder_inputs l).
    destruct (snd (av_hwframe_transfer_data E dev hwf _) =? 0);
      [|constructor].
    rewrite encode_events_inputs. now repeat constructor.
  - destruct (pix_fmt_eqb _ _); cbv zeta.
    + rewrite encode_events_inputs. now repeat constructor.
    + change (encoder_inputs (EvSwsScale ?a ?b ?c ?d :: ?l))
        with (encoder_inputs l).
      rewrite encode_events_inputs. now repeat constructor.
Qed.

Lemma add_frames_inputs {EncState DevState AVDictionary : Type}
  (E : Engine EncState DevState AVDictionary)
  (frames : list (Z * Z * bool)) :
  forall w w' : FrameWriter EncState DevState,
    ready w -> add_frames E frames w = Ok w' ->
    exists fs,
      encoder_inputs (log w') = encoder_inputs (log w) ++ fs /\
      Forall (fun f => In (frame_pts f) (map msec_of frames)) fs.
Proof.
  induction frames as [|[[pixels msec] y_invert] rest IH]; intros w w' R Ha;
    cbn [add_frames] in Ha.
  - injection Ha as <-. exists []. now rewrite app_nil_r.
  - destruct (add_frame_ready E w pixels msec y_invert R)
      as (w1 & Hadd & R1 & _ & _ & _ & _ & _ & Hl).
    rewrite Hadd in Ha. cbn [bind] in Ha.
    destruct (IH w1 w' R1 Ha) as (fs & Hfs & Hall).
    exists (encoder_inputs (add_frame_events E w pixels msec y_invert) ++ fs).
    split.
    + rewrite Hfs, Hl, encoder_inputs_app, <- app_assoc. reflexivity.
    + apply Forall_app. split.
      * eapply Forall_impl;
          [|apply (add_frame_events_inputs E w pixels msec y_invert)].
        intros f Hf. cbn [map]. left. unfold msec_of. cbn. now symmetry.
      * eapply Forall_impl; [|exact Hall].
        intros f Hf. cbn [map]. now right.
Qed.

(** The packets [finish_frame] wrote are the packets the encoder
    reported, each through [written_packet]. *)
Lemma written_packets_muxer (l : list Event) :
  written_packets (muxer_view l) = written_packets l.
Proof.
  unfold written_packets, muxer_view.
  induction l as [|e l IH]; [reflexivity|].
  destruct e; cbn [filter is_muxer_event flat_map app]; now rewrite IH.
Qed.

Lemma written_packets_app (l1 l2 : list Event) :
  written_packets (l1 ++ l2) = written_packets l1 ++ written_packets l2.
Proof. apply flat_map_app. Qed.

Lemma written_packets_writes (ps : list AVPacket) :
  written_packets (map EvWritePacket ps) = ps.
Proof.
  induction ps as [|pk ps IH]; [reflexivity|]. cbn. now rewrite <- IH at 2.
Qed.

(** C4 as the claim has it: every written packet's timestamp is the
    millisecond timestamp rescaled to the configured 1/60 of a second,
    1000 giving 60.  [finish_frame] rescales to [stream->time_base] as it
    is when the packet is written, and the muxer was handed the stream
    when the header was written: with a muxer that takes 1/15360 of a
    second, the frame submitted at 1000 ms reaches the encoder with the
    timestamp 1000 and its packet is written with 15360. *)
Lemma muxer_time_base_counterexample :
  FrameWriter_ctor Engines.mp4 Runs.sw_params = Ok Engines.mp4_writer /\
  add_frames Engines.mp4 Runs.frames Engines.mp4_writer
    = Ok Engines.mp4_after /\
  FrameWriter_dtor Engines.mp4 3 Engines.mp4_after = Ok Engines.mp4_closed /\
  map msec_of Runs.frames = [0; 1000; 2000] /\
  option_map st_time_base (stream Engines.mp4_after)
    = Some (mkRational 1 15360) /\
  map frame_pts (encoder_inputs (log Engines.mp4_closed)) = [0; 1000; 2000] /\
  map pkt_pts (encoder_outputs (log Engines.mp4_closed)) = [0; 1000; 2000] /\
  map pkt_pts (written_packets (log Engines.mp4_closed))
    = [0; 15360; 30720] /\
  nth_error (map pkt_pts (written_packets (log Engines.mp4_closed))) 1
    <> Some 60.
Proof. vm_compute. repeat split; try reflexivity. discriminate. Qed.

(** C4, amended.  The writer configures the stream with the time base
    1/60 and hands it to the muxer with the header; the stream it uses
    from then on is that stream with the time base the muxer gave back.
    Each frame the encoder is handed carries the millisecond timestamp
    it was submitted with.  Each packet the container receives, while
    encoding and while draining, is the packet the encoder reported, in
    the same position, with its timestamp rescaled from 1/1000 of a
    second to that time base; when the muxer keeps 1/60, a packet with
    the timestamp 1000 is written with 60. *)
Theorem packet_timestamps_rescaled
  {EncState DevState AVDictionary : Type}
  (E : Engine EncState DevState AVDictionary) (pending : EncState -> nat)
  (p : FrameWriterParams) (frames : list (Z * Z * bool))
  (w0 w1 : FrameWriter EncState DevState) :
  (forall enc enc' pk,
      avcodec_encode_video2 E enc None = (enc', Some pk) ->
      (pending enc' < pending enc)%nat) ->
  FrameWriter_ctor E p = Ok w0 ->
  add_frames E frames w0 = Ok w1 ->
  let ms := mkRational 1 1000 in
  exists ctx hint st enc,
    fmtCtx w1 = Some ctx /\ stream w1 = Some st /\ encoder w1 = Some enc /\
    st_time_base hint = mkRational 1 60 /\
    fst (avformat_write_header E ctx hint) = 0 /\
    st = st_set_time_base (snd (avformat_write_header E ctx hint)) hint /\
    Forall (fun f => In (frame_pts f) (map msec_of frames))
      (encoder_inputs (log w1)) /\
    forall fuel, (pending enc < fuel)%nat ->
      exists w2,
        FrameWriter_dtor E fuel w1 = Ok w2 /\
        muxer_view (log w2) =
          EvWriteHeader
            :: map EvWritePacket (written_packets (log w2))
            ++ [EvWriteTrailer] /\
        List.length (written_packets (log w2))
          = List.length (encoder_outputs (log w2)) /\
        forall i pk,
          nth_error (encoder_outputs (log w2)) i = Some pk ->
          exists pk',
            nth_error (written_packets (log w2)) i = Some pk' /\
            (pkt_pts pk <> AV_NOPTS_VALUE ->
             pkt_pts pk' = av_rescale_q (pkt_pts pk) ms (st_time_base st)) /\
            (st_time_base st = mkRational 1 60 -> pkt_pts pk = 1000 ->
             pkt_pts pk' = 60).
Proof.
  intros Hflush Hc Ha ms.
  destruct (FrameWriter_ctor_stream E p w0 Hc)
    as (ctx & hint & Hctx & Hhint & Hret & Hst).
  pose proof (FrameWriter_ctor_constructed E p w0 Hc) as C.
  destruct (add_frames_ready E frames w0 (ctor_ready _ _ _ C))
    as (w1' & Ha' & R & _ & Hs1 & _ & _ & Hf1 & _).
  rewrite Ha in Ha'. injection Ha' as <-.
  destruct (session_log E pending p frames w0 w1 Hflush Hc Ha)
    as (st & enc & Hs & He & Hd).
  assert (Hsteq : st = st_set_time_base
                         (snd (avformat_write_header E ctx hint)) hint)
    by congruence.
  exists ctx, hint, st, enc.
  split; [congruence|]. split; [exact Hs|]. split; [exact He|].
  split; [exact Hhint|]. split; [exact Hret|]. split; [exact Hsteq|].
  split.
  { destruct (add_frames_inputs E frames w0 w1 (ctor_ready _ _ _ C) Ha)
      as (fs & Hfs & Hall).
    destruct (ctor_encoder_idle _ _ _ C) as [Hidle _].
    now rewrite Hfs, Hidle. }
  intros fuel Hlt.
  destruct (Hd fuel Hlt) as (w2 & ps & enc' & Hdt & _ & _ & _ & Hm).
  assert (Hw : written_packets (log w2) =
               map (written_packet st) (encoder_outputs (log w2))).
  { rewrite <- written_packets_muxer, Hm.
    change (written_packets (EvWriteHeader :: ?l)) with (written_packets l).
    rewrite written_packets_app, written_packets_writes.
    apply app_nil_r. }
  exists w2. split; [exact Hdt|]. rewrite Hw.
  split; [exact Hm|]. split; [apply length_map|].
  intros i pk Hi. exists (written_packet st pk).
  split; [now rewrite nth_error_map, Hi|].
  unfold written_packet.
  cbn [pkt_pts set_stream_index av_packet_rescale_ts].
  split.
  - intros Hn. apply Z.eqb_neq in Hn. now rewrite Hn.
  - intros Htb Hpts. rewrite Htb, Hpts. reflexivity.
Qed.

Lemma packet_timestamps_rescaled_witness :
  exists w2,
    FrameWriter_dtor Demo.engine 3 Runs.sw_after = Ok w2 /\
    map pkt_pts (encoder_outputs (log w2)) = [0; 1000; 2000] /\
    muxer_view (log w2) =
      [EvWriteHeader;
       EvWritePacket (mkPacket 0 0 0 0 []);
       EvWritePacket (mkPacket 60 60 0 0 []);
       EvWritePacket (mkPacket 120 120 0 0 []);
       EvWriteTrailer] /\
    exists pk',
      nth_error (written_packets (log w2)) 1 = Some pk' /\ pkt_pts pk' = 60.
Proof.
  pose proof (packet_timestamps_rescaled Demo.engine (@List.length AVPacket)
                Runs.sw_params Runs.frames Runs.sw_writer Runs.sw_after
                demo_flush_shrinks eq_refl eq_refl) as H.
  cbv zeta in H.
  destruct H as (ctx & hint & st & enc & _ & Hs & He & _ & _ & _ & _ & Hd).
  vm_compute in Hs. injection Hs as <-.
  vm_compute in He. injection He as <-.
  destruct (Hd 3%nat) as (w2 & Hdt & Hm & _ & Hi); [cbn; lia|].
  exists w2. split; [exact Hdt|].
  assert (Hw2 : Ok w2 = FrameWriter_dtor Demo.engine 3 Runs.sw_after)
    by (symmetry; exact Hdt).
  vm_compute in Hw2. injection Hw2 as ->.
  split; [reflexivity|]. split; [reflexivity|].
  destruct (Hi 1%nat (mkPacket 1000 1000 0 0 []) eq_refl)
    as (pk' & Hn & _ & H60).
  exists pk'. split; [exact Hn|]. apply H60; reflexivity.
Defined.

(** ** Vertical flip in [add_frame] *)

Lemma add_frame_events_layout {EncState DevState AVDictionary : Type}
  (E : Engine EncState DevState AVDictionary)
  (w : FrameWriter EncState DevState) pixels msec y_invert :
  ready w ->
  handed_layout (add_frame_events E w pixels msec y_invert) =
    Some (y_inversion (width (params w)) (height (params w)) pixels y_invert).
Proof.
  intros [R1 R2 R3 R4 R5 R6 R7 R8].
  destruct R3 as (st & Hs).
  apply not_none_some in R4 as [enc He].
  apply not_none_some in R5 as [ef Hef].
  unfold add_frame_events, layout. rewrite Hs, He, Hef.
  destruct (y_inversion (width (params w)) (height (params w)) pixels y_invert)
    as [origin stride].
  destruct (hw_device_context w) as [dev|].
  - destruct R6 as (_ & Hhf & _). apply not_none_some in Hhf as [hwf Hhf].
    rewrite Hhf. reflexivity.
  - destruct (pix_fmt_eqb _ _); reflexivity.
Qed.

(** C7. For frame dimensions whose buffer size [4 * width * height] fits
    an [int], [add_frame] without [y_invert] hands on the buffer's
    address and the stride [4 * width]; with [y_invert] it hands on the
    address of the last row and the stride [- 4 * width].  Read through
    the second pair, the rows of any buffer are those read through the
    first in reverse order; the pair goes to the upload, to the scaler or
    straight to the encoder. *)
Theorem vertical_flip_reverses_rows
  {EncState DevState AVDictionary : Type}
  (E : Engine EncState DevState AVDictionary)
  (p : FrameWriterParams) (frames : list (Z * Z * bool))
  (w0 w1 : FrameWriter EncState DevState)
  (mem : Z -> Byte.byte) (pixels msec : Z) :
  FrameWriter_ctor E p = Ok w0 ->
  add_frames E frames w0 = Ok w1 ->
  0 < width p -> 0 < height p -> 4 * width p * height p <= INT_MAX ->
  let up := y_inversion (width p) (height p) pixels false in
  let down := y_inversion (width p) (height p) pixels true in
  let rows := Z.to_nat (height p) in
  let rowbytes := Z.to_nat (4 * width p) in
  up = (pixels, 4 * width p) /\
  down = (pixels + 4 * width p * (height p - 1), - (4 * width p)) /\
  rows_presented mem down rows rowbytes =
    rev (rows_presented mem up rows rowbytes) /\
  forall y_invert,
    exists w2,
      add_frame E pixels msec y_invert w1 = Ok w2 /\
      log w2 = log w1 ++ add_frame_events E w1 pixels msec y_invert /\
      handed_layout (add_frame_events E w1 pixels msec y_invert) =
        Some (if y_invert then down else up).
Proof.
  intros Hc Ha Hw Hh Hfit up down rows rowbytes.
  destruct (y_inversion_exact (width p) (height p) pixels Hw Hh Hfit)
    as [Hup Hdown].
  split; [exact Hup|]. split; [exact Hdown|]. split.
  { unfold up, down, rows, rowbytes. rewrite Hup, Hdown.
    now apply rows_presented_flip. }
  intros y_invert.
  destruct (session_ready E p frames w0 w1 Hc Ha)
    as (C & R & Hp & _).
  pose proof (ctor_params _ _ _ C) as Hparams.
  assert (Hwd : width (params w1) = width p) by now rewrite Hp, Hparams.
  assert (Hht : height (params w1) = height p) by now rewrite Hp, Hparams.
  destruct (add_frame_ready E w1 pixels msec y_invert R)
    as (w2 & Hadd & _ & _ & _ & _ & _ & _ & Hl).
  exists w2. split; [exact Hadd|]. split; [exact Hl|].
  rewrite (add_frame_events_layout E w1 pixels msec y_invert R), Hwd, Hht.
  now destruct y_invert.
Qed.

Lemma vertical_flip_reverses_rows_witness :
  rows_presented Runs.mem (y_inversion 4 3 65536 true) 3 16 =
    rev (rows_presented Runs.mem (y_inversion 4 3 65536 false) 3 16) /\
  y_inversion 4 3 65536 true = (65536 + 32, -16).
Proof.
  pose proof (vertical_flip_reverses_rows Demo.engine Runs.sw_params
                Runs.frames Runs.sw_writer Runs.sw_after Runs.mem 65536 3000
                eq_refl eq_refl) as H.
  cbv zeta in H.
  destruct H as (_ & Hdown & Hrows & _).
  - reflexivity.
  - reflexivity.
  - vm_compute. discriminate.
  - split; [exact Hrows | exact Hdown].
Defined.

(** ** Release of resources *)

(** C9 as the claim has it: what was acquired is released, in reverse
    order of acquisition.  In a software session the frame buffer,
    acquired last, is released after the output handle, the codec and the
    scaler; in a hardware session the device, the frame pool, the
    device constraints, the two references to the frame pool and the
    hardware frame are acquired and never released. *)
Lemma release_in_reverse_counterexample :
  (exists w2,
      FrameWriter_dtor Demo.engine 3 Runs.sw_after = Ok w2 /\
      acquired (log w2) =
        [RFormatContext; RScaler; RCodec; RIO; REncoderFrame] /\
      released (log w2) =
        [RIO; RCodec; RScaler; REncoderFrame; RFormatContext] /\
      released (log w2) <> rev (acquired (log w2))) /\
  (exists w2,
      FrameWriter_dtor Demo.engine 3 Runs.hw_after = Ok w2 /\
      acquired (log w2) =
        [RFormatContext; RHwDevice; RHwFramePool; RHwConstraints;
         RHwFramesRef; RCodec; RIO; REncoderFrame; RHwFrame; RHwFramesRef] /\
      released (log w2) = [RIO; RCodec; REncoderFrame; RFormatContext]).
Proof.
  split; eexists; (split; [vm_compute; reflexivity|]);
    vm_compute; repeat split; discriminate.
Qed.

(** C9, amended.  When the destructor returns it has released, in this
    order, the output handle (unless the container format has the no-file
    flag), the codec, the scaler (when the software route made one), the
    encoder frame buffer and the container context.  The container
    context, acquired first, goes last; the frame buffer, acquired after
    the scaler, the codec and the output handle, goes after them. *)
Theorem destructor_release_order
  {EncState DevState AVDictionary : Type}
  (E : Engine EncState DevState AVDictionary) (pending : EncState -> nat)
  (p : FrameWriterParams) (frames : list (Z * Z * bool))
  (w0 w1 : FrameWriter EncState DevState) :
  (forall enc enc' pk,
      avcodec_encode_video2 E enc None = (enc', Some pk) ->
      (pending enc' < pending enc)%nat) ->
  FrameWriter_ctor E p = Ok w0 ->
  add_frames E frames w0 = Ok w1 ->
  exists ofmt enc,
    av_guess_format E (file p) = Some ofmt /\ encoder w1 = Some enc /\
    other_than_hw (acquired (log w0)) =
      [RFormatContext]
        ++ (if str_contains (codec p) "vaapi" then [] else [RScaler])
        ++ [RCodec; RIO; REncoderFrame] /\
    forall fuel, (pending enc < fuel)%nat ->
      exists w2,
        FrameWriter_dtor E fuel w1 = Ok w2 /\
        other_than_hw (released (log w2)) =
          (if Z.land (of_flags ofmt) AVFMT_NOFILE =? 0 then [RIO] else [])
            ++ [RCodec]
            ++ (if str_contains (codec p) "vaapi" then [] else [RScaler])
            ++ [REncoderFrame; RFormatContext].
Proof.
  intros Hflush Hc Ha.
  destruct (session_log E pending p frames w0 w1 Hflush Hc Ha)
    as (st & enc & Hs & He & Hd).
  destruct (session_ready E p frames w0 w1 Hc Ha)
    as (C & R & Hp & _ & Hsw & Ho & _).
  pose proof (ctor_outputFmt _ _ _ C) as Hguess.
  destruct (not_none_some _ (ready_outputFmt _ R)) as [ofmt Hofmt].
  exists ofmt, enc. split; [congruence|]. split; [exact He|]. split.
  { rewrite (ctor_acquired _ _ _ C).
    destruct (str_contains (codec p) "vaapi"); reflexivity. }
  intros fuel Hlt.
  destruct (Hd fuel Hlt) as (w2 & ps & enc' & Hdt & _ & Hlog & _).
  exists w2. split; [exact Hdt|].
  rewrite Hlog, !released_app, (ready_released _ R), drain_events_released.
  change (released (EvWriteTrailer :: ?l)) with (released l).
  rewrite released_releases. unfold dtor_releases. rewrite Hofmt, Hsw.
  cbn [app].
  assert (Hscaler : swsCtx w0 = None <-> str_contains (codec p) "vaapi" = true).
  { destruct (str_contains (codec p) "vaapi") eqn:Hv.
    - destruct (ctor_hw _ _ _ C Hv) as (? & ? & ? & _ & _ & _ & _ & _ & Hn).
      rewrite Hn. tauto.
    - destruct (ctor_sw _ _ _ C Hv) as (? & ? & ? & _ & _ & _ & _ & Hn & _).
      rewrite Hn. split; congruence. }
  destruct (swsCtx w0) as [ctx|], (str_contains (codec p) "vaapi");
    try (destruct Hscaler as [H1 H2];
         (specialize (H1 eq_refl) || specialize (H2 eq_refl)); discriminate);
    destruct (Z.land (of_flags ofmt) AVFMT_NOFILE =? 0); reflexivity.
Qed.

Lemma destructor_release_order_witness :
  exists ofmt enc,
    av_guess_format Demo.engine (file Runs.sw_params) = Some ofmt /\
    encoder Runs.sw_after = Some enc /\
    other_than_hw (acquired (log Runs.sw_writer)) =
      [RFormatContext; RScaler; RCodec; RIO; REncoderFrame] /\
    forall fuel, (List.length enc < fuel)%nat ->
      exists w2,
        FrameWriter_dtor Demo.engine fuel Runs.sw_after = Ok w2 /\
        other_than_hw (released (log w2)) =
          (if Z.land (of_flags ofmt) AVFMT_NOFILE =? 0 then [RIO] else [])
            ++ [RCodec; RScaler; REncoderFrame; RFormatContext].
Proof.
  apply (destructor_release_order Demo.engine (@List.length AVPacket)
           Runs.sw_params Runs.frames Runs.sw_writer Runs.sw_after
           demo_flush_shrinks eq_refl eq_refl).
Defined.

(** * Further properties of the code *)

(** ** [is_fmt_supported] and [choose_sw_format] at the edges *)

Lemma is_fmt_supported_app_sentinel (fmt : AVPixelFormat)
  (a b : PixFmtArray) :
  is_fmt_supported fmt (a ++ AV_PIX_FMT_NONE :: b) =
    is_fmt_supported fmt (a ++ [AV_PIX_FMT_NONE]).
Proof.
  induction a as [|s a IH]; cbn [app is_fmt_supported].
  - reflexivity.
  - now rewrite IH.
Qed.

(** X1. [is_fmt_supported] and [choose_sw_format] stop at the first
    sentinel: the cells behind it change neither result, and the
    sentinel itself is never reported as supported. *)
Theorem negotiation_stops_at_sentinel (fmt : AVPixelFormat)
  (format : InputFormat) (name : string) (a b c : PixFmtArray) :
  is_fmt_supported fmt (a ++ AV_PIX_FMT_NONE :: b) =
    is_fmt_supported fmt (a ++ [AV_PIX_FMT_NONE]) /\
  choose_sw_format format (mkAVCodec name (a ++ AV_PIX_FMT_NONE :: b)) =
    choose_sw_format format (mkAVCodec name (a ++ [AV_PIX_FMT_NONE])) /\
  is_fmt_supported AV_PIX_FMT_NONE c <> Some true.
Proof.
  split; [apply is_fmt_supported_app_sentinel|]. split.
  - unfold choose_sw_format. cbn [pix_fmts].
    rewrite !(is_fmt_supported_app_sentinel _ a b).
    destruct a; reflexivity.
  - induction c as [|s l IH]; cbn [is_fmt_supported]; [discriminate|].
    destruct (pix_fmt_eqb s AV_PIX_FMT_NONE); [discriminate | exact IH].
Qed.

Lemma is_fmt_supported_terminated (fmt : AVPixelFormat) (a : PixFmtArray) :
  terminated a ->
  is_fmt_supported fmt a =
    Some (if in_dec pix_fmt_eq_dec fmt (supported_formats a) then true
          else false).
Proof.
  intros Hterm.
  destruct (in_dec pix_fmt_eq_dec fmt (supported_formats a)) as [Hin|Hnot].
  - apply (is_fmt_supported_true _ _ Hin).
  - apply (is_fmt_supported_false _ _ Hterm Hnot).
Qed.

(** X2. On a sentinel-terminated array [is_fmt_supported] always has a
    result, and the result is [true] exactly for the formats listed
    before the sentinel. *)
Theorem is_fmt_supported_membership (fmt : AVPixelFormat) (a : PixFmtArray) :
  terminated a ->
  is_fmt_supported fmt a <> None /\
  (is_fmt_supported fmt a = Some true <-> In fmt (supported_formats a)).
Proof.
  intros Hterm. rewrite (is_fmt_supported_terminated fmt a Hterm).
  destruct (in_dec pix_fmt_eq_dec fmt (supported_formats a)) as [Hin|Hnot].
  - split; [discriminate | tauto].
  - split; [discriminate|]. split; [discriminate | contradiction].
Qed.

Lemma is_fmt_supported_membership_witness :
  terminated [AV_PIX_FMT_BGR0; AV_PIX_FMT_NONE; AV_PIX_FMT_RGB0] /\
  (is_fmt_supported AV_PIX_FMT_RGB0
     [AV_PIX_FMT_BGR0; AV_PIX_FMT_NONE; AV_PIX_FMT_RGB0] = Some true <->
   In AV_PIX_FMT_RGB0 [AV_PIX_FMT_BGR0]).
Proof.
  assert (Hterm : terminated
                    [AV_PIX_FMT_BGR0; AV_PIX_FMT_NONE; AV_PIX_FMT_RGB0])
    by (unfold terminated; simpl; tauto).
  split; [exact Hterm|].
  apply (is_fmt_supported_membership AV_PIX_FMT_RGB0
           [AV_PIX_FMT_BGR0; AV_PIX_FMT_NONE; AV_PIX_FMT_RGB0] Hterm).
Defined.

Lemma is_fmt_supported_unterminated (fmt : AVPixelFormat) (a : PixFmtArray) :
  ~ terminated a ->
  is_fmt_supported fmt a = if in_dec pix_fmt_eq_dec fmt a then Some true
                           else None.
Proof.
  unfold terminated. induction a as [|s a IH]; intros Hnt.
  - reflexivity.
  - cbn [is_fmt_supported].
    destruct (pix_fmt_eqb s AV_PIX_FMT_NONE) eqn:Hs.
    { apply pix_fmt_eqb_eq in Hs. subst. simpl in Hnt. tauto. }
    destruct (pix_fmt_eqb s fmt) eqn:Hf.
    + apply pix_fmt_eqb_eq in Hf. subst.
      destruct (in_dec pix_fmt_eq_dec fmt (fmt :: a)) as [_|Hn];
        [reflexivity | simpl in Hn; tauto].
    + apply pix_fmt_eqb_neq in Hf. rewrite IH by (simpl in Hnt; tauto).
      destruct (in_dec pix_fmt_eq_dec fmt a) as [Hin|Hnin];
        destruct (in_dec pix_fmt_eq_dec fmt (s :: a)) as [Hin'|Hnin'];
        try reflexivity; simpl in *; tauto.
Qed.

(** X3. [choose_sw_format] reads past the end of the capability array
    exactly when the array has no sentinel and does not hold the native
    input format: in every other case it returns a format. *)
Theorem choose_sw_format_overrun (format : InputFormat) (codec : AVCodec) :
  choose_sw_format format codec = None <->
  ~ terminated (pix_fmts codec) /\
  ~ In (get_input_format format) (pix_fmts codec).
Proof.
  destruct (in_dec pix_fmt_eq_dec AV_PIX_FMT_NONE (pix_fmts codec))
    as [Hterm|Hnt].
  - split; [|tauto]. intros Hnone. exfalso. revert Hnone.
    unfold choose_sw_format.
    rewrite !(is_fmt_supported_terminated _ _ Hterm).
    destruct (in_dec _ _ _); [discriminate|].
    destruct (in_dec _ _ _); [discriminate|].
    destruct (pix_fmts codec); [contradiction Hterm | discriminate].
  - unfold choose_sw_format.
    rewrite (is_fmt_supported_unterminated _ _ Hnt).
    destruct (in_dec pix_fmt_eq_dec (get_input_format format) (pix_fmts codec))
      as [Hin|Hnin].
    + split; [discriminate | tauto].
    + split; [tauto | reflexivity].
Qed.

(** ** [load_codec_options] beyond the merge *)

Lemma map_find_in (k v : string) (m : StdMap) :
  In (k, v) m -> map_find k m <> None.
Proof.
  induction m as [|[k0 v0] rest IH]; cbn [In map_find]; [tauto|].
  intros [Heq|Hin].
  - injection Heq as -> ->. now rewrite string_compare_refl.
  - destruct (String.compare k k0); [discriminate | auto | auto].
Qed.

Lemma seed_defaults_present (defaults m : StdMap) :
  (forall k v, In (k, v) defaults -> map_find k m <> None) ->
  seed_defaults defaults m = m.
Proof.
  unfold seed_defaults. induction defaults as [|[k0 v0] rest IH]; intros Hall;
    cbn [fold_left fst snd]; [reflexivity|].
  rewrite map_count_find.
  destruct (map_find k0 m) eqn:Hk0.
  - apply IH. intros k v Hin. apply (Hall k v). now right.
  - exfalso. apply (Hall k0 v0); [now left | exact Hk0].
Qed.

Lemma merged_codec_options_idempotent (name : string) (m : StdMap) :
  merged_codec_options name (merged_codec_options name m) =
    merged_codec_options name m.
Proof.
  unfold merged_codec_options. destruct (is_x264_family name); [|reflexivity].
  apply seed_defaults_present. intros k v Hin.
  rewrite map_find_seed_defaults.
  destruct (map_find k m); [discriminate|]. now apply map_find_in with v.
Qed.

Lemma keys_increasing_assign (k v : string) (m : StdMap) :
  keys_increasing m = true -> keys_increasing (map_assign k v m) = true.
Proof.
  induction m as [|[k0 v0] rest IH]; intros Hm; [reflexivity|].
  cbn [map_assign].
  destruct (String.compare k k0) eqn:Hc.
  - apply string_compare_eq in Hc. subst k0. exact Hm.
  - cbn [keys_increasing]. rewrite Hc. exact Hm.
  - assert (Hlt : String.compare k0 k = Lt)
      by (rewrite String.compare_antisym, Hc; reflexivity).
    destruct rest as [|[k1 v1] rest'].
    + cbn [map_assign keys_increasing]. now rewrite Hlt.
    + cbn [keys_increasing] in Hm.
      destruct (String.compare k0 k1) eqn:H01; try discriminate Hm.
      specialize (IH Hm). revert IH. cbn [map_assign].
      destruct (String.compare k k1) eqn:Hk1; intros IH;
        change (keys_increasing ((k0, v0) :: ?x :: ?l))
          with (match String.compare k0 (fst x) with
                | Lt => keys_increasing (x :: l)
                | _ => false
                end) at 1;
        cbn [fst]; rewrite ?Hlt, ?H01; exact IH.
Qed.

Lemma keys_increasing_seed (defaults m : StdMap) :
  keys_increasing m = true -> keys_increasing (seed_defaults defaults m) = true.
Proof.
  unfold seed_defaults. revert m.
  induction defaults as [|[k0 v0] rest IH]; intros m Hm;
    cbn [fold_left fst snd]; [exact Hm|].
  apply IH. destruct (map_count k0 m =? 0)%nat; [|exact Hm].
  now apply keys_increasing_assign.
Qed.

(** X4. [load_codec_options] is idempotent on the configuration: a second
    call adds nothing to [params.codec_options], for any codec name and
    any caller options, and so passes [av_dict_set] the same pairs as
    the first. *)
Theorem load_codec_options_idempotent
  {EncState DevState AVDictionary : Type}
  (E : Engine EncState DevState AVDictionary)
  (w : FrameWriter EncState DevState) (dict dict' : AVDictionary) :
  let w1 := fst (load_codec_options E w dict) in
  let w2 := fst (load_codec_options E w1 dict') in
  params w2 = params w1 /\
  snd (load_codec_options E w1 dict') =
    fold_left (fun d opt => av_dict_set E d (fst opt) (snd opt) 0)
      (codec_options (params w1)) dict'.
Proof.
  cbv zeta. unfold load_codec_options.
  cbn [fst snd params set_params codec codec_options set_codec_options].
  rewrite merged_codec_options_idempotent. split; reflexivity.
Qed.

(** X5. When the caller's options come in strictly increasing key order,
    as a [std::map] holds them, so do the options after
    [load_codec_options]: [av_dict_set] is called once per key, in
    increasing key order, and at most three pairs are added. *)
Theorem load_codec_options_keys_increasing
  {EncState DevState AVDictionary : Type}
  (E : Engine EncState DevState AVDictionary)
  (w : FrameWriter EncState DevState) (dict : AVDictionary) :
  keys_increasing (codec_options (params w)) = true ->
  let w' := fst (load_codec_options E w dict) in
  keys_increasing (codec_options (params w')) = true /\
  (List.length (codec_options (params w)) <=
   List.length (codec_options (params w')) <=
   List.length (codec_options (params w)) + 3)%nat.
Proof.
  intros Hm. cbv zeta. unfold load_codec_options.
  cbn [fst snd params set_params codec codec_options set_codec_options].
  unfold merged_codec_options.
  destruct (is_x264_family (codec (params w))); [|split; [exact Hm | lia]].
  split; [now apply keys_increasing_seed|].
  assert (Hlen : forall k v m,
             (List.length m <= List.length (map_assign k v m)
              <= S (List.length m))%nat).
  { intros k v m. induction m as [|[k0 v0] rest IH]; cbn [map_assign];
      [cbn; lia|].
    destruct (String.compare k k0); cbn [List.length] in *; lia. }
  unfold seed_defaults, default_x264_options. cbn [fold_left fst snd].
  repeat match goal with
         | |- context [if ?b then map_assign ?k ?v ?m else ?m] =>
             let H := fresh "Hl" in
             pose proof (Hlen k v m) as H;
             destruct b
         end; lia.
Qed.

Lemma load_codec_options_keys_increasing_witness :
  let w := FrameWriter_blank (list AVPacket) nat
             (mkParams "out.mp4" 4 3 INPUT_FORMAT_BGR0 "libx265"
                EmptyString [("crf", "10"); ("threads", "4")] false) in
  keys_increasing (codec_options (params w)) = true /\
  keys_increasing
    (codec_options (params (fst (load_codec_options Demo.engine w []))))
  = true /\
  codec_options (params (fst (load_codec_options Demo.engine w []))) =
    [("crf", "10"); ("preset", "ultrafast"); ("threads", "4");
     ("tune", "zerolatency")].
Proof.
  cbv zeta. split; [reflexivity|]. split; [|reflexivity].
  apply (load_codec_options_keys_increasing Demo.engine
           (FrameWriter_blank (list AVPacket) nat
              (mkParams "out.mp4" 4 3 INPUT_FORMAT_BGR0 "libx265"
                 EmptyString [("crf", "10"); ("threads", "4")] false))
           [] eq_refl).
Defined.

(** ** Construction *)

(** One step of symbolic execution of a member function, whatever its
    outcome. *)
Ltac outcome_step H :=
  match type of H with
  | deref ?x = _ => destruct x eqn:?; cbn [deref] in H
  | bind ?m _ = _ => destruct m eqn:?; cbn [bind] in H
  | (let '(_, _) := ?x in _) = _ => destruct x eqn:?
  | (if ?b then _ else _) = _ => destruct b eqn:?
  | match ?x with _ => _ end = _ => destruct x eqn:?
  end.

Ltac outcome_unfold H :=
  match type of H with
  | update_codecCtx _ _ = _ => unfold update_codecCtx, update_stream in H
  | update_stream _ _ = _ => unfold update_stream in H
  | init_sws _ _ = _ => unfold init_sws in H
  | init_codec _ _ = _ => unfold init_codec in H
  | init_hw_accel _ _ = _ => unfold init_hw_accel in H
  | FrameWriter_ctor _ _ = _ => unfold FrameWriter_ctor in H
  end.

Ltac run_outcomes :=
  repeat (writer_simpl;
    match goal with
    | H : Ok _ = Ok _ |- _ => injection H as H; subst
    | H : Exit _ _ _ = Exit _ _ _ |- _ => injection H as ? ? ?; subst
    | H : Some _ = Some _ |- _ => injection H as H; subst
    | H : (_, _) = (_, _) |- _ => injection H as ? ?; subst
    | H : Ok _ = Exit _ _ _ |- _ => discriminate H
    | H : Ok _ = Undefined |- _ => discriminate H
    | H : Ok _ = OutOfFuel |- _ => discriminate H
    | H : Exit _ _ _ = Ok _ |- _ => discriminate H
    | H : Exit _ _ _ = Undefined |- _ => discriminate H
    | H : Exit _ _ _ = OutOfFuel |- _ => discriminate H
    | H : Undefined = Ok _ |- _ => discriminate H
    | H : Undefined = Exit _ _ _ |- _ => discriminate H
    | H : Undefined = OutOfFuel |- _ => discriminate H
    | H : OutOfFuel = Ok _ |- _ => discriminate H
    | H : OutOfFuel = Exit _ _ _ |- _ => discriminate H
    | H : OutOfFuel = Undefined |- _ => discriminate H
    | H : load_codec_options _ _ _ = _ |- _ => unfold load_codec_options in H
    | H : _ = Ok _ |- _ => first [outcome_unfold H | outcome_step H]
    | H : _ = Exit _ _ _ |- _ => first [outcome_unfold H | outcome_step H]
    | H : _ = Undefined |- _ => first [outcome_unfold H | outcome_step H]
    | H : _ = OutOfFuel |- _ => first [outcome_unfold H | outcome_step H]
    end).

(** X6. When [init_hw_accel] leaves through [std::exit] the status is -1
    and the device reference, if it was made, has been dropped.  The
    frame pool is dropped only when [av_hwframe_ctx_init] was what
    failed: when the constraints query fails the pool allocated just
    before is left as it is.  The constraints, once obtained, are not
    released either. *)
Theorem init_hw_accel_exit
  {EncState DevState AVDictionary : Type}
  (E : Engine EncState DevState AVDictionary)
  (w w' : FrameWriter EncState DevState) (status : Z) (message : string) :
  init_hw_accel E w = Exit status message w' ->
  status = -1 /\
  exists evs,
    log w' = log w ++ evs /\
    (message = "Failed to create hw encoding device" /\ evs = [] /\
     hw_device_context w' = hw_device_context w \/
     message = "Failed to initialize hw frame context" /\
     evs = [EvAcquire RHwDevice; EvRelease RHwDevice] /\
     hw_device_context w' = None /\
     hw_frame_context w' = hw_frame_context w \/
     message = "Failed to get hwframe constraints" /\
     evs = [EvAcquire RHwDevice; EvAcquire RHwFramePool;
            EvRelease RHwDevice] /\
     hw_device_context w' = None /\ hw_frame_context w' <> None \/
     message = "Failed to initialize hwframe context" /\
     evs = [EvAcquire RHwDevice; EvAcquire RHwFramePool;
            EvAcquire RHwConstraints;
            EvRelease RHwDevice; EvRelease RHwFramePool] /\
     hw_device_context w' = None /\ hw_frame_context w' = None).
Proof.
  intros H. run_outcomes.
  all: split; [reflexivity|]; writer_simpl; rewrite <- ?app_assoc; cbn [app].
  all: first
         [ exists []; rewrite app_nil_r; split; [reflexivity|];
           left; repeat split; reflexivity
         | eexists; split; [reflexivity|];
           first [ right; left; repeat split; congruence
                 | right; right; left; repeat split; congruence
                 | right; right; right; repeat split; congruence ] ].
Qed.

Lemma init_hw_accel_exit_witness :
  exists w',
    init_hw_accel Faulty.no_constraints
      (FrameWriter_blank (list AVPacket) nat Runs.hw_params)
    = Exit (-1) "Failed to get hwframe constraints" w' /\
    log w' = [EvAcquire RHwDevice; EvAcquire RHwFramePool;
              EvRelease RHwDevice] /\
    hw_frame_context w' <> None.
Proof.
  eexists. split; [vm_compute; reflexivity|].
  match goal with
  | |- log ?x = _ /\ _ =>
      pose proof (init_hw_accel_exit Faulty.no_constraints
                    (FrameWriter_blank (list AVPacket) nat Runs.hw_params)
                    x (-1) "Failed to get hwframe constraints" eq_refl)
        as [_ (evs & Hlog & _)]
  end.
  split; [reflexivity | discriminate].
Defined.

Lemma choose_sw_format_defined (format : InputFormat) (codec : AVCodec) :
  terminated (pix_fmts codec) -> choose_sw_format format codec <> None.
Proof.
  intros Hterm. unfold choose_sw_format.
  rewrite !(is_fmt_supported_terminated _ _ Hterm).
  destruct (in_dec _ _ _); [discriminate|].
  destruct (in_dec _ _ _); [discriminate|].
  destruct (pix_fmts codec); [contradiction Hterm | discriminate].
Qed.

(** X7. When the constructor leaves through [std::exit] the status is -1,
    the encoder has not been called and no packet or trailer has been
    written.  The container header has been written exactly when the
    failure is that of a frame buffer, the two allocations that come
    after [avformat_write_header]. *)
Theorem FrameWriter_ctor_exit
  {EncState DevState AVDictionary : Type}
  (E : Engine EncState DevState AVDictionary)
  (p : FrameWriterParams) (w : FrameWriter EncState DevState)
  (status : Z) (message : string) :
  FrameWriter_ctor E p = Exit status message w ->
  status = -1 /\
  encoder_inputs (log w) = [] /\
  muxer_view (log w) =
    (if String.eqb message "Failed to allocate frame buffer"
        || String.eqb message "failed to hw frame buffer"
     then [EvWriteHeader] else []).
Proof.
  intros H. run_call H.
  all: repeat split; reflexivity.
Qed.

Lemma FrameWriter_ctor_exit_witness :
  exists w,
    FrameWriter_ctor Faulty.no_frame_buffer Runs.sw_params =
      Exit (-1) "Failed to allocate frame buffer" w /\
    encoder_inputs (log w) = [] /\
    muxer_view (log w) = [EvWriteHeader].
Proof.
  eexists. split; [vm_compute; reflexivity|].
  match goal with
  | |- encoder_inputs (log ?x) = _ /\ _ =>
      apply (FrameWriter_ctor_exit Faulty.no_frame_buffer Runs.sw_params x
               (-1) "Failed to allocate frame buffer" eq_refl)
  end.
Defined.

(** X8. On an engine whose arrays can be read (every encoder's [pix_fmts]
    holds the sentinel, every device's constraints list a format) and
    which has a name for the format chosen, the constructor returns, or
    leaves through [std::exit] with status -1, or goes through the null
    pointer an unchecked [av_frame_alloc] gave it: for [encoder_frame],
    or on the hardware route for [hw_frame].  With the pointer members
    null at entry, as [FrameWriter_blank] has them, it does nothing else
    undefined, and it never returns when the first [av_frame_alloc]
    gave null. *)
Theorem FrameWriter_ctor_returns_or_exits
  {EncState DevState AVDictionary : Type}
  (E : Engine EncState DevState AVDictionary) (p : FrameWriterParams) :
  readable_arrays E -> named_formats E ->
  ((exists w, FrameWriter_ctor E p = Ok w) \/
   (exists message w, FrameWriter_ctor E p = Exit (-1) message w) \/
   FrameWriter_ctor E p = Undefined /\
   (av_frame_alloc_null E 0 = true \/
    str_contains (codec p) "vaapi" = true /\
    av_frame_alloc_null E 1 = true)) /\
  (av_frame_alloc_null E 0 = true ->
   forall w, FrameWriter_ctor E p <> Ok w).
Proof.
  intros [Hcodec Hdev] Hname. split.
  - destruct (FrameWriter_ctor E p) as [w|status message w| |] eqn:H.
    + left. eauto.
    + right. left. exists message, w. f_equal. clear Hcodec Hdev Hname.
      run_call H; reflexivity.
    + right. right. split; [reflexivity|]. run_call H.
      all: writer_simpl.
      all: try solve [ left; first [assumption | reflexivity]
                     | right; split; first [assumption | reflexivity] ].
      all: exfalso.
      all: repeat match goal with
                  | Hn : choose_sw_format _ ?c = None,
                    Hc : avcodec_find_encoder_by_name _ _ = Some ?c |- _ =>
                      exact (choose_sw_format_defined _ c (Hcodec _ _ Hc) Hn)
                  | Hn : av_get_pix_fmt_name _ ?f = None,
                    Hc : avcodec_find_encoder_by_name _ _ = Some ?c,
                    Hf : choose_sw_format _ ?c = Some ?f |- _ =>
                      exact (Hname _ _ _ _ Hc Hf Hn)
                  | Hn : nth_error ?l 0 = None,
                    Hc : av_hwdevice_get_hwframe_constraints _ _ = Some ?l
                    |- _ =>
                      destruct l;
                      [exact (Hdev _ _ Hc eq_refl) | discriminate Hn]
                  end.
    + exfalso. run_call H.
  - intros Hnull w H. clear Hcodec Hdev Hname. run_call H.
    all: congruence.
Qed.

Lemma FrameWriter_ctor_returns_or_exits_witness :
  FrameWriter_ctor Engines.no_memory Runs.sw_params = Undefined /\
  forall w, FrameWriter_ctor Engines.no_memory Runs.sw_params <> Ok w.
Proof.
  split; [reflexivity|].
  apply (FrameWriter_ctor_returns_or_exits Engines.no_memory Runs.sw_params).
  - split.
    + intros name c. cbn. unfold Demo.codecs.
      repeat match goal with
             | |- context [String.eqb ?a ?b] => destruct (String.eqb a b)
             end;
        intros Hc; try discriminate Hc; injection Hc as <-;
        unfold terminated; simpl; tauto.
    + intros dev formats. cbn. intros Hc. injection Hc as <-. discriminate.
  - intros name c format fmt. cbn. unfold Demo.codecs.
    repeat match goal with
           | |- context [String.eqb ?a ?b] => destruct (String.eqb a b)
           end;
      intros Hc; try discriminate Hc; injection Hc as <-;
      destruct format; cbn; intros Hf; injection Hf as <-; discriminate.
  - reflexivity.
Defined.

(** X9. When the constructor returns, the stream it configured and
    handed to the muxer keeps the index the container gave it and has
    the time base 1/60; its codec context has the configured width and
    height and the time base 1/60, the global-header flag is or-ed into
    the codec flags exactly when the container format asks for it, and
    the codec was opened on that context with the options
    [load_codec_options] put together.  The stream the writer keeps is
    that stream with the time base the muxer gave back when the header
    was written. *)
Theorem FrameWriter_ctor_codec_context
  {EncState DevState AVDictionary : Type}
  (E : Engine EncState DevState AVDictionary)
  (p : FrameWriterParams) (w : FrameWriter EncState DevState) :
  FrameWriter_ctor E p = Ok w ->
  exists ctx c st0 hint,
    snd (avformat_alloc_output_context2 E (file p)) = ctx /\
    avcodec_find_encoder_by_name E (codec p) = Some c /\
    avformat_new_stream E ctx c = Some st0 /\
    st_index hint = st_index st0 /\
    st_time_base hint = mkRational 1 FPS /\
    cc_time_base (st_codec hint) = mkRational 1 FPS /\
    cc_width (st_codec hint) = width p /\
    cc_height (st_codec hint) = height p /\
    cc_flags (st_codec hint) =
      (if Z.land (of_flags (oformat ctx)) AVFMT_GLOBALHEADER =? 0
       then cc_flags (st_codec st0)
       else Z.lor (cc_flags (st_codec st0)) AV_CODEC_FLAG_GLOBAL_HEADER) /\
    encoder w =
      Some (snd (avcodec_open2 E (st_codec hint) c
                   (fold_left
                      (fun d opt => av_dict_set E d (fst opt) (snd opt) 0)
                      (merged_codec_options (codec p) (codec_options p))
                      (dict_null E)))) /\
    stream w =
      Some (st_set_time_base
              (snd (avformat_write_header E (set_pb true ctx) hint)) hint).
Proof.
  intros H. run_call H.
  all: writer_simpl.
  all: repeat match goal with
              | Hn : negb _ = true |- _ => apply negb_true_iff in Hn
              | Hn : negb _ = false |- _ => apply negb_false_iff in Hn
              end.
  all: match goal with
       | Ha : avformat_alloc_output_context2 _ _ = (_, ?ctx),
         Hc : avcodec_find_encoder_by_name _ _ = Some ?c,
         Hs : avformat_new_stream _ ?ctx ?c = Some ?st0,
         Hg : (Z.land _ AVFMT_GLOBALHEADER =? 0) = _,
         Ho : avcodec_open2 _ _ _ _ = _,
         Hh : avformat_write_header _ _ ?hint = _ |- _ =>
           exists ctx, c, st0, hint;
           repeat split; try reflexivity; try assumption;
           cbn in Ho, Hh |- *; rewrite ?Hg, ?Ho, ?Hh; reflexivity
       end.
Qed.

(** X10. When the constructor returns, the acquisitions and the header
    write its log records come in this order: the container context;
    then on the hardware route the device, its frame pool, the device
    constraints and the codec's reference to the pool, on the software
    route the scaler; the codec; the output handle; the header; the
    encoder frame; and on the hardware route the hardware frame and its
    reference to the pool.  The scaler is made before the codec is
    opened, and the header is written before any frame is allocated. *)
Theorem FrameWriter_ctor_call_order
  {EncState DevState AVDictionary : Type}
  (E : Engine EncState DevState AVDictionary)
  (p : FrameWriterParams) (w : FrameWriter EncState DevState) :
  FrameWriter_ctor E p = Ok w ->
  log w =
    if str_contains (codec p) "vaapi"
    then [EvAcquire RFormatContext; EvAcquire RHwDevice;
          EvAcquire RHwFramePool; EvAcquire RHwConstraints;
          EvAcquire RHwFramesRef; EvAcquire RCodec; EvAcquire RIO;
          EvWriteHeader; EvAcquire REncoderFrame; EvAcquire RHwFrame;
          EvAcquire RHwFramesRef]
    else [EvAcquire RFormatContext; EvAcquire RScaler; EvAcquire RCodec;
          EvAcquire RIO; EvWriteHeader; EvAcquire REncoderFrame].
Proof.
  intros H. run_call H.
  all: writer_simpl.
  all: match goal with
       | Hv : str_contains _ _ = _ |- _ => rewrite Hv; reflexivity
       end.
Qed.

Lemma FrameWriter_ctor_call_order_witness :
  log Runs.hw_writer =
    [EvAcquire RFormatContext; EvAcquire RHwDevice;
     EvAcquire RHwFramePool; EvAcquire RHwConstraints;
     EvAcquire RHwFramesRef; EvAcquire RCodec; EvAcquire RIO;
     EvWriteHeader; EvAcquire REncoderFrame; EvAcquire RHwFrame;
     EvAcquire RHwFramesRef].
Proof.
  apply (FrameWriter_ctor_call_order Demo.engine Runs.hw_params
           Runs.hw_writer eq_refl).
Defined.

Lemma FrameWriter_ctor_codec_context_witness :
  exists st,
    stream Engines.mp4_writer = Some st /\
    st_time_base st = mkRational 1 15360 /\
    cc_time_base (st_codec st) = mkRational 1 60 /\
    cc_width (st_codec st) = 4 /\ cc_height (st_codec st) = 3 /\
    cc_flags (st_codec st) = Z.shiftl 1 22.
Proof.
  destruct (FrameWriter_ctor_codec_context Engines.mp4 Runs.sw_params
              Engines.mp4_writer eq_refl)
    as (ctx & c & st0 & hint & Hctx & Hc & Hs0 & Hi & Htb & Hctb & Hw & Hh
        & Hf & He & Hs).
  eexists. split; [exact Hs|].
  cbn [st_time_base st_codec st_set_time_base].
  split; [reflexivity|]. split; [exact Hctb|]. split; [exact Hw|].
  split; [exact Hh|].
  rewrite Hf. rewrite <- Hctx.
  vm_compute in Hc. injection Hc as <-.
  rewrite <- Hctx in Hs0. vm_compute in Hs0. injection Hs0 as <-.
  reflexivity.
Defined.

(** ** Frames in, frames encoded *)

Lemma dropped_frames_app (l1 l2 : list Event) :
  dropped_frames (l1 ++ l2) = (dropped_frames l1 + dropped_frames l2)%nat.
Proof. unfold dropped_frames. now rewrite filter_app, length_app. Qed.

Lemma encode_events_dropped {EncState DevState AVDictionary : Type}
  (E : Engine EncState DevState AVDictionary) st enc frame :
  dropped_frames (encode_events E st enc frame) = 0%nat.
Proof.
  unfold encode_events.
  destruct (snd (avcodec_encode_video2 E enc frame)); reflexivity.
Qed.

(** One [add_frame] on a ready writer either hands one frame with the
    submitted timestamp to the encoder or, on the hardware route, drops
    it after a failed upload. *)
Lemma add_frame_events_accounting {EncState DevState AVDictionary : Type}
  (E : Engine EncState DevState AVDictionary)
  (w : FrameWriter EncState DevState) pixels msec y_invert :
  ready w ->
  let evs := add_frame_events E w pixels msec y_invert in
  (map frame_pts (encoder_inputs evs) = [msec] /\ dropped_frames evs = 0%nat \/
   hw_device_context w <> None /\
   encoder_inputs evs = [] /\ dropped_frames evs = 1%nat).
Proof.
  intros [R1 R2 R3 R4 R5 R6 R7 R8]. cbv zeta.
  destruct R3 as (st & Hs).
  apply not_none_some in R4 as [enc He].
  apply not_none_some in R5 as [ef Hef].
  unfold add_frame_events. rewrite Hs, He, Hef.
  destruct (hw_device_context w) as [dev|].
  - destruct R6 as (_ & Hhf & _). apply not_none_some in Hhf as [hwf Hhf].
    rewrite Hhf. cbv zeta.
    destruct (snd (av_hwframe_transfer_data E dev hwf _) =? 0) eqn:Hret.
    + left.
      change (encoder_inputs (EvTransfer ?a ?b :: ?l)) with (encoder_inputs l).
      rewrite encode_events_inputs. split; [reflexivity|].
      unfold dropped_frames. cbn [filter]. rewrite Hret. cbn [negb].
      apply encode_events_dropped.
    + right. split; [discriminate|]. split; [reflexivity|].
      unfold dropped_frames. cbn [filter]. rewrite Hret. reflexivity.
  - left. destruct (pix_fmt_eqb _ _); cbv zeta.
    + rewrite encode_events_inputs. split; [reflexivity|].
      apply encode_events_dropped.
    + change (encoder_inputs (EvSwsScale ?a ?b ?c ?d :: ?l))
        with (encoder_inputs l).
      rewrite encode_events_inputs. split; [reflexivity|].
      apply (encode_events_dropped E st enc).
Qed.

Lemma add_frames_accounting {EncState DevState AVDictionary : Type}
  (E : Engine EncState DevState AVDictionary)
  (frames : list (Z * Z * bool)) :
  forall w w' : FrameWriter EncState DevState,
    ready w -> add_frames E frames w = Ok w' ->
    exists evs,
      log w' = log w ++ evs /\
      (List.length (encoder_inputs evs) + dropped_frames evs
       = List.length frames)%nat /\
      (hw_device_context w = None ->
       map frame_pts (encoder_inputs evs) = map msec_of frames /\
       dropped_frames evs = 0%nat).
Proof.
  induction frames as [|[[pixels msec] y_invert] rest IH]; intros w w' R Ha;
    cbn [add_frames] in Ha.
  - injection Ha as <-. exists []. rewrite app_nil_r. repeat split.
  - destruct (add_frame_ready E w pixels msec y_invert R)
      as (w1 & Hadd & R1 & Hp & _ & _ & _ & _ & Hl).
    rewrite Hadd in Ha. cbn [bind] in Ha.
    destruct (IH w1 w' R1 Ha) as (evs & Hlog & Hcount & Hsw).
    pose proof (add_frame_events_accounting E w pixels msec y_invert R) as Hone.
    cbv zeta in Hone.
    exists (add_frame_events E w pixels msec y_invert ++ evs).
    split; [now rewrite Hlog, Hl, <- app_assoc|].
    rewrite encoder_inputs_app, dropped_frames_app, length_app, map_app.
    split.
    + cbn [List.length].
      destruct Hone as [[Hin Hdrop]|(_ & Hin & Hdrop)].
      * apply (f_equal (@List.length Z)) in Hin.
        rewrite length_map in Hin. cbn [List.length] in Hin. lia.
      * rewrite Hin, Hdrop. cbn [List.length]. lia.
    + intros Hnone.
      destruct Hone as [[Hin Hdrop]|(Hhw & _)]; [|contradiction].
      assert (Hnone1 : hw_device_context w1 = None).
      { pose proof (ready_path _ R) as P. pose proof (ready_path _ R1) as P1.
        rewrite Hnone in P. destruct P as (Hv & _).
        destruct (hw_device_context w1); [|reflexivity].
        destruct P1 as (Hv1 & _). rewrite Hp in Hv1. congruence. }
      destruct (Hsw Hnone1) as (Hin2 & Hdrop2).
      rewrite Hin, Hin2, Hdrop, Hdrop2. split; reflexivity.
Qed.

(** The constructor uploads nothing and hands nothing to the encoder. *)
Lemma FrameWriter_ctor_idle {EncState DevState AVDictionary : Type}
  (E : Engine EncState DevState AVDictionary)
  (p : FrameWriterParams) (w : FrameWriter EncState DevState) :
  FrameWriter_ctor E p = Ok w ->
  encoder_inputs (log w) = [] /\ dropped_frames (log w) = 0%nat.
Proof.
  intros H. run_call H.
  all: split; reflexivity.
Qed.

(** X11. In a session every submitted frame is accounted for: the number
    of frames handed to the encoder and the number dropped after a failed
    upload add up to the number of frames submitted. *)
Theorem add_frames_frame_accounting
  {EncState DevState AVDictionary : Type}
  (E : Engine EncState DevState AVDictionary)
  (p : FrameWriterParams) (frames : list (Z * Z * bool))
  (w0 w1 : FrameWriter EncState DevState) :
  FrameWriter_ctor E p = Ok w0 ->
  add_frames E frames w0 = Ok w1 ->
  (List.length (encoder_inputs (log w1)) + dropped_frames (log w1)
   = List.length frames)%nat.
Proof.
  intros Hc Ha.
  destruct (FrameWriter_ctor_idle E p w0 Hc) as (Hin0 & Hdrop0).
  pose proof (FrameWriter_ctor_constructed E p w0 Hc) as C.
  destruct (add_frames_accounting E frames w0 w1 (ctor_ready _ _ _ C) Ha)
    as (evs & Hlog & Hcount & _).
  rewrite Hlog, encoder_inputs_app, dropped_frames_app, Hin0, Hdrop0.
  exact Hcount.
Qed.

Lemma add_frames_frame_accounting_witness :
  (List.length (encoder_inputs (log Runs.hw_after))
   + dropped_frames (log Runs.hw_after) = 3)%nat /\
  dropped_frames (log Runs.hw_after) = 1%nat.
Proof.
  split; [|reflexivity].
  apply (add_frames_frame_accounting Demo.engine Runs.hw_params Runs.frames
           Runs.hw_writer Runs.hw_after); reflexivity.
Defined.

(** X12. On the software route no frame is dropped: the frames handed to
    the encoder are as many as were submitted and carry, in the order of
    submission, the millisecond timestamps they were submitted with. *)
Theorem software_route_encodes_every_frame
  {EncState DevState AVDictionary : Type}
  (E : Engine EncState DevState AVDictionary)
  (p : FrameWriterParams) (frames : list (Z * Z * bool))
  (w0 w1 : FrameWriter EncState DevState) :
  FrameWriter_ctor E p = Ok w0 ->
  add_frames E frames w0 = Ok w1 ->
  str_contains (codec p) "vaapi" = false ->
  map frame_pts (encoder_inputs (log w1)) = map msec_of frames /\
  dropped_frames (log w1) = 0%nat.
Proof.
  intros Hc Ha Hv.
  destruct (FrameWriter_ctor_idle E p w0 Hc) as (Hin0 & Hdrop0).
  pose proof (FrameWriter_ctor_constructed E p w0 Hc) as C.
  destruct (ctor_sw _ _ _ C Hv) as (c & fmt & ctx & _ & _ & _ & _ & _ & Hd & _).
  destruct (add_frames_accounting E frames w0 w1 (ctor_ready _ _ _ C) Ha)
    as (evs & Hlog & _ & Hsw).
  destruct (Hsw Hd) as (Hin & Hdrop).
  rewrite Hlog, encoder_inputs_app, dropped_frames_app, Hin0, Hdrop0.
  split; assumption.
Qed.

Lemma software_route_encodes_every_frame_witness :
  map frame_pts (encoder_inputs (log Runs.sw_after)) = [0; 1000; 2000] /\
  dropped_frames (log Runs.sw_after) = 0%nat.
Proof.
  apply (software_route_encodes_every_frame Demo.engine Runs.sw_params
           Runs.frames Runs.sw_writer Runs.sw_after); reflexivity.
Defined.

(** ** What the destructor leaves behind *)

(** X13. The destructor releases no resource of the hardware route: in a
    session on that route the device, the frame pool and the hardware
    frame are acquired and none of them is among the resources released
    when the destructor returns. *)
Theorem destructor_keeps_hw_resources
  {EncState DevState AVDictionary : Type}
  (E : Engine EncState DevState AVDictionary) (pending : EncState -> nat)
  (p : FrameWriterParams) (frames : list (Z * Z * bool))
  (w0 w1 : FrameWriter EncState DevState) :
  (forall enc enc' pk,
      avcodec_encode_video2 E enc None = (enc', Some pk) ->
      (pending enc' < pending enc)%nat) ->
  FrameWriter_ctor E p = Ok w0 ->
  add_frames E frames w0 = Ok w1 ->
  exists enc,
    encoder w1 = Some enc /\
    forall fuel, (pending enc < fuel)%nat ->
      exists w2,
        FrameWriter_dtor E fuel w1 = Ok w2 /\
        Forall (fun r => is_hw_resource r = false) (released (log w2)) /\
        (str_contains (codec p) "vaapi" = true ->
         In RHwDevice (acquired (log w2)) /\
         In RHwFramePool (acquired (log w2)) /\
         In RHwFrame (acquired (log w2))).
Proof.
  intros Hflush Hc Ha.
  destruct (session_ready E p frames w0 w1 Hc Ha)
    as (C & R & _ & _ & _ & _ & evs & Hevs).
  destruct (session_log E pending p frames w0 w1 Hflush Hc Ha)
    as (st & enc & Hs & He & Hd).
  exists enc. split; [exact He|].
  intros fuel Hlt.
  destruct (Hd fuel Hlt) as (w2 & ps & enc' & Hdtor & _ & Hlog & _).
  exists w2. split; [exact Hdtor|]. split.
  - rewrite Hlog, !released_app, (ready_released _ R), drain_events_released.
    change (released (EvWriteTrailer :: ?l)) with (released l).
    rewrite released_releases. cbn [app]. unfold dtor_releases.
    destruct (outputFmt w1) as [ofmt|];
      [destruct (Z.land (of_flags ofmt) AVFMT_NOFILE =? 0)|];
      destruct (swsCtx w1); repeat constructor.
  - intros Hv. pose proof (ctor_acquired _ _ _ C) as Hacq.
    rewrite Hv in Hacq.
    rewrite Hlog, Hevs, !acquired_app, Hacq.
    repeat split; apply in_or_app; left; apply in_or_app; left; cbn; tauto.
Qed.

Lemma destructor_keeps_hw_resources_witness :
  exists w2,
    FrameWriter_dtor Demo.engine 3 Runs.hw_after = Ok w2 /\
    Forall (fun r => is_hw_resource r = false) (released (log w2)) /\
    In RHwDevice (acquired (log w2)).
Proof.
  destruct (destructor_keeps_hw_resources Demo.engine (@List.length AVPacket)
              Runs.hw_params Runs.frames Runs.hw_writer Runs.hw_after
              demo_flush_shrinks eq_refl eq_refl)
    as (enc & He & Hd).
  vm_compute in He. injection He as <-.
  destruct (Hd 3%nat) as (w2 & Hdtor & Hrel & Hacq); [cbn; lia|].
  exists w2. split; [exact Hdtor|]. split; [exact Hrel|].
  apply Hacq. reflexivity.
Defined.

(** ** The rows [add_frame] hands on *)

(** X14. For frame dimensions whose buffer size [4 * width * height] fits
    an [int], every byte of every row reached through the address and
    stride [add_frame] computes, flipped or not, lies inside the caller's
    buffer of [4 * width * height] bytes. *)
Theorem y_inversion_within_buffer
  (width height pixels : Z) (y_invert : bool) (i j : Z) :
  0 < width -> 0 < height -> 4 * width * height <= INT_MAX ->
  0 <= i < height -> 0 <= j < 4 * width ->
  let lay := y_inversion width height pixels y_invert in
  pixels <= fst lay + i * snd lay + j < pixels + 4 * width * height.
Proof.
  intros Hw Hh Hfit Hi Hj.
  destruct (y_inversion_exact width height pixels Hw Hh Hfit) as (Hup & Hdown).
  cbv zeta. destruct y_invert; [rewrite Hdown | rewrite Hup]; cbn [fst snd]; nia.
Qed.

Lemma y_inversion_within_buffer_witness :
  65536 <= fst (y_inversion 4 3 65536 true)
           + 2 * snd (y_inversion 4 3 65536 true) + 15 < 65536 + 4 * 4 * 3.
Proof.
  apply (y_inversion_within_buffer 4 3 65536 true 2 15);
    unfold INT_MAX; lia.
Defined.

(** ** The frame buffers of the constructor *)

(** X15. When the constructor returns, the encoder frame is the frame
    [av_frame_get_buffer] filled for the configured width and height and,
    on the hardware route, the input format, else the codec's pixel
    format.  The hardware frame exists on the hardware route only, and is
    the frame [av_hwframe_get_buffer] filled from the frame pool for the
    pool's format and the configured width and height. *)
Theorem FrameWriter_ctor_frame_buffers
  {EncState DevState AVDictionary : Type}
  (E : Engine EncState DevState AVDictionary)
  (p : FrameWriterParams) (w : FrameWriter EncState DevState) :
  FrameWriter_ctor E p = Ok w ->
  exists fmt ef,
    (if str_contains (codec p) "vaapi"
     then fmt = get_input_format (format p)
     else option_map cc_pix_fmt (codecCtx w) = Some fmt) /\
    av_frame_get_buffer E
      (frame_set_geometry fmt (width p) (height p) av_frame_alloc) = (0, ef) /\
    encoder_frame w = Some ef /\
    if str_contains (codec p) "vaapi"
    then exists pool hwf,
        hw_frame_context w = Some pool /\
        av_hwframe_get_buffer E pool
          (frame_set_geometry (hwf_format pool) (width p) (height p)
             (frame_set_hw_frames_ctx (Some pool) av_frame_alloc)) = (0, hwf) /\
        hw_frame w = Some hwf
    else hw_frame w = None.
Proof.
  intros H. run_call H.
  all: writer_simpl.
  all: repeat match goal with
              | Hn : negb _ = true |- _ => apply negb_true_iff in Hn
              | Hn : negb _ = false |- _ => apply negb_false_iff in Hn
              | Hz : (_ =? 0) = true |- _ => apply Z.eqb_eq in Hz; subst
              end.
  all: match goal with
       | Hv : str_contains _ _ = _ |- _ => rewrite Hv
       end.
  all: do 2 eexists; split; [reflexivity|]; split; [eassumption|];
         split; [reflexivity|]; try reflexivity.
  all: do 2 eexists; split; [reflexivity|]; split; [eassumption|reflexivity].
Qed.

Lemma FrameWriter_ctor_frame_buffers_witness :
  exists ef,
    encoder_frame Runs.hw_writer = Some ef /\
    frame_format ef = AV_PIX_FMT_BGR0 /\
    option_map cc_pix_fmt (codecCtx Runs.hw_writer) = Some AV_PIX_FMT_VAAPI.
Proof.
  destruct (FrameWriter_ctor_frame_buffers Demo.engine Runs.hw_params
              Runs.hw_writer eq_refl)
    as (fmt & ef & Hfmt & Hbuf & Hef & _).
  exists ef. split; [exact Hef|]. split; [|reflexivity].
  cbn in Hfmt. subst fmt. cbn in Hbuf. injection Hbuf as <-. reflexivity.
Defined.

(** ** What [finish_frame] changes in a packet *)

(** X16. Over a whole session the packets handed to
    [av_interleaved_write_frame] are the packets the encoder reported,
    one for one and in the same order: [finish_frame] leaves the payload
    of each as it is and stamps each with the index of the writer's
    stream, whatever index the encoder left in it. *)
Theorem finish_frame_keeps_payload
  {EncState DevState AVDictionary : Type}
  (E : Engine EncState DevState AVDictionary) (pending : EncState -> nat)
  (p : FrameWriterParams) (frames : list (Z * Z * bool))
  (w0 w1 : FrameWriter EncState DevState) :
  (forall enc enc' pk,
      avcodec_encode_video2 E enc None = (enc', Some pk) ->
      (pending enc' < pending enc)%nat) ->
  FrameWriter_ctor E p = Ok w0 ->
  add_frames E frames w0 = Ok w1 ->
  exists st enc,
    stream w1 = Some st /\ encoder w1 = Some enc /\
    forall fuel, (pending enc < fuel)%nat ->
      exists w2,
        FrameWriter_dtor E fuel w1 = Ok w2 /\
        map pkt_data (written_packets (log w2)) =
          map pkt_data (encoder_outputs (log w2)) /\
        Forall (fun pk => pkt_stream_index pk = st_index st)
          (written_packets (log w2)).
Proof.
  intros Hflush Hc Ha.
  destruct (session_log E pending p frames w0 w1 Hflush Hc Ha)
    as (st & enc & Hs & He & Hd).
  exists st, enc. split; [exact Hs|]. split; [exact He|].
  intros fuel Hlt.
  destruct (Hd fuel Hlt) as (w2 & ps & enc' & Hdtor & _ & _ & _ & Hmux).
  exists w2. split; [exact Hdtor|].
  assert (Hw : written_packets (log w2) =
               map (written_packet st) (encoder_outputs (log w2))).
  { rewrite <- written_packets_muxer, Hmux.
    change (written_packets (EvWriteHeader :: ?l)) with (written_packets l).
    rewrite written_packets_app, written_packets_writes.
    apply app_nil_r. }
  rewrite Hw. split.
  - rewrite map_map. apply map_ext. reflexivity.
  - apply Forall_forall. intros pk Hin.
    apply in_map_iff in Hin as (q & <- & _). reflexivity.
Qed.

Lemma finish_frame_keeps_payload_witness :
  exists w2,
    FrameWriter_dtor Demo.engine 3 Runs.sw_after = Ok w2 /\
    List.length (written_packets (log w2)) = 3%nat /\
    Forall (fun pk => pkt_stream_index pk = 0) (written_packets (log w2)).
Proof.
  destruct (finish_frame_keeps_payload Demo.engine (@List.length AVPacket)
              Runs.sw_params Runs.frames Runs.sw_writer Runs.sw_after
              demo_flush_shrinks eq_refl eq_refl)
    as (st & enc & Hs & He & Hd).
  vm_compute in Hs. injection Hs as <-.
  vm_compute in He. injection He as <-.
  destruct (Hd 3%nat) as (w2 & Hdtor & Hdata & Hidx); [cbn; lia|].
  exists w2. split; [exact Hdtor|]. split; [|exact Hidx].
  vm_compute in Hdtor. injection Hdtor as <-. reflexivity.
Defined.
